(** * Batch scoring pipeline of [services/async_pipeline.py]

    A shallow embedding of the fallback scoring engine ([_fallback_score]),
    of the per-item worker ([_process_single_sync]), of the batch
    coordinator and aggregator ([process_bulk_async]) and of the HTTP entry
    point that feeds them ([score_candidates_batch] in [main.py]).

    Conventions.
    - A Python [str] is a Rocq [string] whose characters are the code points
      U+0000..U+00FF; [lower], [split], [in], [len] and [encode] are the
      Python operations on that range. A text with other code points is
      outside the model; so is a lone surrogate, the one text on which
      [encode] raises ([UnicodeEncodeError]).
    - A Python [float] is an IEEE 754 binary64 value, [spec_float] with
      precision 53 and maximal exponent 1024, and every arithmetic operation
      is the correctly rounded one of [SpecFloat].
    - A Python [dict] is an insertion-ordered association list.
    - The [print] calls of the worker write to stdout only and are left out,
      except for the evaluation of [len(resume_text)] inside the first one,
      which can raise.
    - A call comes to an [outcome]: it returns, it is pending, it raises, or
      the model leaves it open. The last is what [sorted] makes of keys
      that [<] does not order (a NaN, lists that cannot all be compared):
      the result then depends on the comparisons the sorting algorithm
      happens to ask for.

    Beside the batch path the file embeds [_init_services], the
    single-candidate endpoint [score_candidate] of [main.py], the remote
    skill extractor of [services/hf_inference.py] and the chunker and the
    local skill extractor of [services/hf_skill_extractor.py].
    - The environment variable, the exchange with the inference API and the
      local token-classification pipeline are arguments of the functions
      that use them.
    - The [while] loop of [_chunk_text] runs on fuel; the theorems give the
      fuel that is enough. *)

From Stdlib Require Import ZArith QArith Qround Lqa String Ascii List Lia Bool.
From Stdlib Require Import SpecFloat DecimalString.
From stdpp Require Import base list strings gmap sorting.

Local Open Scope string_scope.
Local Open Scope Z_scope.

(** ** Python strings *)

Module PyStr.

(** Code point of a character. *)
Definition ord (c : ascii) : Z := Z.of_N (N_of_ascii c).
Definition chr (z : Z) : ascii := ascii_of_N (Z.to_N z).

(** [str.lower] on one code point below U+0100: A..Z and the Latin-1
    capitals U+00C0..U+00DE, the multiplication sign U+00D7 apart, move
    up by 32. *)
Definition lower_char (c : ascii) : ascii :=
  let n := ord c in
  if ((65 <=? n) && (n <=? 90)) || ((192 <=? n) && (n <=? 222) && negb (n =? 215))
  then chr (n + 32) else c.

Fixpoint lower (s : string) : string :=
  match s with
  | EmptyString => EmptyString
  | String c s' => String (lower_char c) (lower s')
  end.

(** [str.isspace] on one code point below U+0100. *)
Definition isspace (c : ascii) : bool :=
  let n := ord c in
  ((9 <=? n) && (n <=? 13)) || ((28 <=? n) && (n <=? 32)) || (n =? 133) || (n =? 160).

(** [str.split()] with no separator: maximal runs of non-space
    characters. [cur] is the word being read, reversed. *)
Fixpoint split_go (cur : list ascii) (s : string) : list string :=
  match s with
  | EmptyString =>
      match cur with
      | [] => []
      | _ => [string_of_list_ascii (rev cur)]
      end
  | String c s' =>
      if isspace c then
        match cur with
        | [] => split_go [] s'
        | _ => string_of_list_ascii (rev cur) :: split_go [] s'
        end
      else split_go (c :: cur) s'
  end.

Definition split (s : string) : list string := split_go [] s.

(** [len(s)]. *)
Definition len (s : string) : Z := Z.of_nat (String.length s).

(** [sub in s]: [sub] occurs in [s] as a contiguous substring. *)
Fixpoint contains (sub s : string) : bool :=
  String.prefix sub s ||
  match s with
  | EmptyString => false
  | String _ s' => contains sub s'
  end.

(** [s.encode()]: UTF-8, one byte below U+0080 and two bytes from
    U+0080 to U+00FF. *)
Definition encode_char (c : ascii) : list Z :=
  let n := ord c in
  if n <? 128 then [n]
  else [Z.lor 192 (Z.shiftr n 6); Z.lor 128 (Z.land n 63)].

Fixpoint encode (s : string) : list Z :=
  match s with
  | EmptyString => []
  | String c s' => encode_char c ++ encode s'
  end.

(** Decimal text of an integer, as [str(n)] and [f"{n}"] print it. *)
Definition str_of_Z (z : Z) : string :=
  NilZero.string_of_int (Z.to_int z).

End PyStr.

(** ** MD5 (RFC 1321), as [hashlib.md5] computes it *)

Module MD5.

Definition mask32 : Z := 4294967295.
Definition wrap32 (x : Z) : Z := Z.land x mask32.
Definition rotl32 (x c : Z) : Z :=
  wrap32 (Z.lor (Z.shiftl x c) (Z.shiftr x (32 - c))).
Definition not32 (x : Z) : Z := Z.lxor x mask32.

Definition shifts : list Z :=
  [7; 12; 17; 22; 7; 12; 17; 22; 7; 12; 17; 22; 7; 12; 17; 22;
   5; 9; 14; 20; 5; 9; 14; 20; 5; 9; 14; 20; 5; 9; 14; 20;
   4; 11; 16; 23; 4; 11; 16; 23; 4; 11; 16; 23; 4; 11; 16; 23;
   6; 10; 15; 21; 6; 10; 15; 21; 6; 10; 15; 21; 6; 10; 15; 21].

(** [floor(2^32 * |sin(i+1)|)] for i = 0..63. *)
Definition sines : list Z :=
  [0xd76aa478; 0xe8c7b756; 0x242070db; 0xc1bdceee;
   0xf57c0faf; 0x4787c62a; 0xa8304613; 0xfd469501;
   0x698098d8; 0x8b44f7af; 0xffff5bb1; 0x895cd7be;
   0x6b901122; 0xfd987193; 0xa679438e; 0x49b40821;
   0xf61e2562; 0xc040b340; 0x265e5a51; 0xe9b6c7aa;
   0xd62f105d; 0x02441453; 0xd8a1e681; 0xe7d3fbc8;
   0x21e1cde6; 0xc33707d6; 0xf4d50d87; 0x455a14ed;
   0xa9e3e905; 0xfcefa3f8; 0x676f02d9; 0x8d2a4c8a;
   0xfffa3942; 0x8771f681; 0x6d9d6122; 0xfde5380c;
   0xa4beea44; 0x4bdecfa9; 0xf6bb4b60; 0xbebfbc70;
   0x289b7ec6; 0xeaa127fa; 0xd4ef3085; 0x04881d05;
   0xd9d4d039; 0xe6db99e5; 0x1fa27cf8; 0xc4ac5665;
   0xf4292244; 0x432aff97; 0xab9423a7; 0xfc93a039;
   0x655b59c3; 0x8f0ccc92; 0xffeff47d; 0x85845dd1;
   0x6fa87e4f; 0xfe2ce6e0; 0xa3014314; 0x4e0811a1;
   0xf7537e82; 0xbd3af235; 0x2ad7d2bb; 0xeb86d391].

Definition nthZ (l : list Z) (i : Z) : Z := nth (Z.to_nat i) l 0.

(** Little-endian bytes of a word, and back. *)
Fixpoint le_bytes (n : nat) (x : Z) : list Z :=
  match n with
  | O => []
  | S n' => Z.land x 255 :: le_bytes n' (Z.shiftr x 8)
  end.

Fixpoint le_word (bs : list Z) : Z :=
  match bs with
  | [] => 0
  | b :: bs' => b + 256 * le_word bs'
  end.

(** Padding: a 1 bit, zeros up to 56 modulo 64, then the bit length on
    eight bytes. *)
Definition pad (msg : list Z) : list Z :=
  let n := Z.of_nat (length msg) in
  let zeros := Z.to_nat ((55 - n) mod 64) in
  msg ++ [128] ++ repeat 0 zeros ++ le_bytes 8 (Z.land (8 * n) 18446744073709551615).

Fixpoint words_of (n : nat) (bs : list Z) : list Z :=
  match n with
  | O => []
  | S n' => le_word (firstn 4 bs) :: words_of n' (skipn 4 bs)
  end.

Record state := State { sa : Z; sb : Z; sc : Z; sd : Z }.

Definition init : state :=
  State 0x67452301 0xefcdab89 0x98badcfe 0x10325476.

Definition round (m : list Z) (st : state) (i : Z) : state :=
  let '(State a b c d) := st in
  let '(f, g) :=
    if i <? 16 then (Z.lor (Z.land b c) (Z.land (not32 b) d), i)
    else if i <? 32 then (Z.lor (Z.land d b) (Z.land (not32 d) c), (5 * i + 1) mod 16)
    else if i <? 48 then (Z.lxor (Z.lxor b c) d, (3 * i + 5) mod 16)
    else (Z.lxor c (Z.lor b (not32 d)), (7 * i) mod 16) in
  let f' := wrap32 (f + a + nthZ sines i + nthZ m g) in
  State d (wrap32 (b + rotl32 f' (nthZ shifts i))) b c.

Definition rounds : list Z := map Z.of_nat (seq 0 64).

Definition block (st : state) (chunk : list Z) : state :=
  let m := words_of 16 chunk in
  let '(State a b c d) := fold_left (round m) rounds st in
  State (wrap32 (sa st + a)) (wrap32 (sb st + b))
        (wrap32 (sc st + c)) (wrap32 (sd st + d)).

Fixpoint blocks (n : nat) (st : state) (bs : list Z) : state :=
  match n with
  | O => st
  | S n' => blocks n' (block st (firstn 64 bs)) (skipn 64 bs)
  end.

(** The sixteen bytes of the digest. *)
Definition digest (msg : list Z) : list Z :=
  let p := pad msg in
  let '(State a b c d) := blocks (length p / 64)%nat init p in
  le_bytes 4 a ++ le_bytes 4 b ++ le_bytes 4 c ++ le_bytes 4 d.

Definition hex_digit (n : Z) : ascii :=
  if n <? 10 then PyStr.chr (48 + n) else PyStr.chr (87 + n).

Definition hex_byte (b : Z) : list ascii :=
  [hex_digit (Z.shiftr b 4); hex_digit (Z.land b 15)].

(** [hashlib.md5(msg).hexdigest()]. *)
Definition hexdigest (msg : list Z) : string :=
  string_of_list_ascii (flat_map hex_byte (digest msg)).

End MD5.

(** ** Python numbers *)

Module PyNum.

Definition prec : Z := 53.
Definition emax : Z := 1024.

Definition fadd : spec_float -> spec_float -> spec_float := SFadd prec emax.
Definition fmul : spec_float -> spec_float -> spec_float := SFmul prec emax.
Definition fdiv : spec_float -> spec_float -> spec_float := SFdiv prec emax.

(** An integer as an exact, not yet rounded, binary value. *)
Definition raw (z : Z) : spec_float :=
  match z with
  | Z0 => S754_zero false
  | Zpos p => S754_finite false p 0
  | Zneg p => S754_finite true p 0
  end.

(** [float(z)]: the nearest double, ties to even. *)
Definition of_int (z : Z) : spec_float := binary_normalize prec emax z 0 false.

(** [a / b] on two ints with [b] positive: the double nearest to the
    exact quotient. A float literal such as [1.2] is the double nearest to
    12/10, that is [int_truediv 12 10]. *)
Definition int_truediv (a : Z) (b : positive) : spec_float :=
  fdiv (raw a) (raw (Zpos b)).

(** A Python number: the scores are floats, but [min(100, x)] and
    [max(0, x)] hand back their int argument when it wins. *)
Inductive num :=
| PyInt (z : Z)
| PyFloat (f : spec_float).

Definition to_float (x : num) : spec_float :=
  match x with
  | PyInt z => of_int z
  | PyFloat f => f
  end.

(** The extended real a number denotes. *)
Inductive xreal :=
| XNaN
| XNegInf
| XFin (q : Q)
| XPosInf.

Definition Qvalue (s : bool) (m : positive) (e : Z) : Q :=
  let n := cond_Zopp s (Zpos m) in
  match e with
  | Z0 => Qmake n 1
  | Zpos p => Qmake (n * Z.pow_pos 2 p) 1
  | Zneg p => Qmake n (Pos.pow 2 p)
  end.

Definition fvalue (f : spec_float) : xreal :=
  match f with
  | S754_nan => XNaN
  | S754_infinity s => if s then XNegInf else XPosInf
  | S754_zero _ => XFin 0
  | S754_finite s m e => XFin (Qvalue s m e)
  end.

Definition value (x : num) : xreal :=
  match x with
  | PyInt z => XFin (inject_Z z)
  | PyFloat f => fvalue f
  end.

Definition Qltb (a b : Q) : bool :=
  match Qcompare a b with Lt => true | _ => false end.

Definition xlt (a b : xreal) : bool :=
  match a, b with
  | XNaN, _ | _, XNaN => false
  | XNegInf, XNegInf => false
  | XNegInf, _ => true
  | _, XNegInf => false
  | XPosInf, _ => false
  | _, XPosInf => true
  | XFin p, XFin q => Qltb p q
  end.

Definition xle (a b : xreal) : bool :=
  match a, b with
  | XNaN, _ | _, XNaN => false
  | _, _ => negb (xlt b a)
  end.

(** [a < b], [a <= b], [a >= b] and [a == b] on numbers: comparison of
    the values, false as soon as one side is a NaN. *)
Definition lt (a b : num) : bool := xlt (value a) (value b).
Definition le (a b : num) : bool := xle (value a) (value b).
Definition ge (a b : num) : bool := le b a.
Definition eqb (a b : num) : bool := le a b && le b a.

(** [min(a, b)] keeps [a] unless [b < a]; [max(a, b)] keeps [a] unless
    [b > a]. *)
Definition py_min (a b : num) : num := if lt b a then b else a.
Definition py_max (a b : num) : num := if lt a b then b else a.

(** Nearest integer, ties to even. *)
Definition round_half_even (q : Q) : Z :=
  let f := Qfloor q in
  match Qcompare (q - inject_Z f) (1 # 2) with
  | Lt => f
  | Gt => f + 1
  | Eq => if Z.even f then f else f + 1
  end.

(** [round(f, 2)] on a float: the exact value is rounded to two decimals,
    ties to even, and the decimal result is read back as the nearest
    double; infinities and NaN are returned as they are. *)
Definition fround2 (f : spec_float) : spec_float :=
  match f with
  | S754_finite s m e =>
      match round_half_even (Qvalue false m e * 100) with
      | Zpos n => int_truediv (cond_Zopp s (Zpos n)) 100
      | _ => S754_zero s
      end
  | _ => f
  end.

(** [round(x, 2)]: an int is returned unchanged. *)
Definition round2 (x : num) : num :=
  match x with
  | PyInt z => PyInt z
  | PyFloat f => PyFloat (fround2 f)
  end.

End PyNum.

Import PyNum.

(** ** Dynamic values, dictionaries and exceptions *)

(** The values a JSON request body can carry, and the ones the pipeline
    builds. *)
#[local] Set Warnings "-register-all".
Inductive pyval :=
| VNone
| VBool (b : bool)
| VNum (x : num)
| VStr (s : string)
| VList (l : list pyval)
| VDict (d : list (string * pyval)).
#[local] Set Warnings "register-all".

Abbreviation dict := (list (string * pyval)).

(** The exceptions the scoring path can raise, with the text [str(e)]
    gives. *)
Inductive exn :=
| AttributeError (msg : string)
| TypeError (msg : string).

Definition exn_str (e : exn) : string :=
  match e with
  | AttributeError msg => msg
  | TypeError msg => msg
  end.

Inductive res (A : Type) :=
| Ok (a : A)
| Raise (e : exn).
Arguments Ok {A} a.
Arguments Raise {A} e.

#[export] Instance res_ret : MRet res := fun _ a => Ok a.
#[export] Instance res_bind : MBind res := fun _ _ f m =>
  match m with
  | Ok a => f a
  | Raise e => Raise e
  end.

Fixpoint res_map {A B} (f : A -> res B) (l : list A) : res (list B) :=
  match l with
  | [] => Ok []
  | a :: l' => b ← f a; bs ← res_map f l'; Ok (b :: bs)
  end.

Module Dict.

(** [d.get(k)]. *)
Fixpoint get (k : string) (d : dict) : option pyval :=
  match d with
  | [] => None
  | (k', v) :: d' => if String.eqb k k' then Some v else get k d'
  end.

(** [d.get(k, default)]. *)
Definition get_default (k : string) (default : pyval) (d : dict) : pyval :=
  match get k d with
  | Some v => v
  | None => default
  end.

(** [d[k] = v]: an existing key keeps its place, a new one goes last. *)
Fixpoint set (k : string) (v : pyval) (d : dict) : dict :=
  match d with
  | [] => [(k, v)]
  | (k', v') :: d' =>
      if String.eqb k k' then (k', v) :: d' else (k', v') :: set k v d'
  end.

(** [d.update(other)]. *)
Definition update (d other : dict) : dict :=
  fold_left (fun acc kv => set (fst kv) (snd kv) acc) other d.

Definition keys (d : dict) : list string := map fst d.

End Dict.

Definition type_name (v : pyval) : string :=
  match v with
  | VNone => "NoneType"
  | VBool _ => "bool"
  | VNum (PyInt _) => "int"
  | VNum (PyFloat _) => "float"
  | VStr _ => "str"
  | VList _ => "list"
  | VDict _ => "dict"
  end.

Definition no_attribute (v : pyval) (attr : string) : exn :=
  AttributeError ("'" ++ type_name v ++ "' object has no attribute '" ++ attr ++ "'").

(** [len(v)]. *)
Definition py_len (v : pyval) : res Z :=
  match v with
  | VStr s => Ok (PyStr.len s)
  | VList l => Ok (Z.of_nat (length l))
  | VDict d => Ok (Z.of_nat (length d))
  | _ => Raise (TypeError ("object of type '" ++ type_name v ++ "' has no len()"))
  end.

(** The receiver of [v.encode()] or [v.lower()]: only a [str] has these
    methods. *)
Definition as_str (attr : string) (v : pyval) : res string :=
  match v with
  | VStr s => Ok s
  | _ => Raise (no_attribute v attr)
  end.

(** [for x in v]: the elements of a list, the characters of a string, the
    keys of a dict. *)
Definition py_iter (v : pyval) : res (list pyval) :=
  match v with
  | VList l => Ok l
  | VStr s => Ok (map (fun c => VStr (String c EmptyString)) (list_ascii_of_string s))
  | VDict d => Ok (map VStr (Dict.keys d))
  | _ => Raise (TypeError ("'" ++ type_name v ++ "' object is not iterable"))
  end.

(** ** The scoring engine: [_fallback_score] *)

(** Float literals of the source. *)
Definition lit_1_2 : spec_float := int_truediv 12 10.
Definition lit_0_6 : spec_float := int_truediv 6 10.
Definition lit_0_4 : spec_float := int_truediv 4 10.

(** [int(s, 16)] on lowercase hexadecimal digits. *)
Definition hex_value (c : ascii) : Z :=
  let n := PyStr.ord c in
  if n <? 58 then n - 48 else n - 87.

Definition int_of_hex (s : string) : Z :=
  fold_left (fun acc c => 16 * acc + hex_value c) (list_ascii_of_string s) 0.

(** [sum(l)] on ints. *)
Definition py_sum (l : list Z) : Z := fold_left Z.add l 0.

(** [max(1, n)] on ints, as the positive divisor it always is. *)
Definition max1 (n : Z) : positive := Z.to_pos (Z.max 1 n).

(** [_score_from_components], with the default weights when [weights] is
    left out. *)
Definition _score_from_components (skills_score semantic_score : num)
    (weights : spec_float * spec_float) : spec_float :=
  fadd (fmul (to_float skills_score) (fst weights))
       (fmul (to_float semantic_score) (snd weights)).

Definition default_weights : spec_float * spec_float := (lit_0_6, lit_0_4).

Record explanation := Explanation {
  strengths : list string;
  gaps : list string;
  recommendation : string
}.

(** The dictionary [_fallback_score] returns, field by field. *)
Record breakdown := Breakdown {
  overall_score : num;
  skills_score : num;
  semantic_score : num;
  found_skills : list string;
  matched_skills : list string;
  missing_skills : list string;
  explain : explanation
}.

Section Engine.

Variable resume_text job_description : string.
Variable required_skills : list string.

(** Line 27: the first eight hexadecimal digits of the MD5 digest. *)
Definition seed : Z :=
  int_of_hex (String.substring 0 8 (MD5.hexdigest (PyStr.encode resume_text))).

Definition resume_lower : string := PyStr.lower resume_text.
Definition jd_lower : string := PyStr.lower job_description.

(** The test [skill.lower() in resume_lower]. *)
Definition skill_in_resume (skill : string) : bool :=
  PyStr.contains (PyStr.lower skill) resume_lower.

(** Lines 34 and 35. *)
Definition matched_count : Z :=
  py_sum (map (fun _ => 1) (List.filter skill_in_resume required_skills)).

Definition skills_total : Z := Z.of_nat (length required_skills).

Definition skills_raw : num :=
  py_min (PyInt 100)
    (PyFloat (fmul (fmul (int_truediv matched_count (max1 skills_total))
                         (of_int 100)) lit_1_2)).

(** Lines 38 to 41. *)
Definition words_of (text : string) : gset string :=
  list_to_set (List.filter (fun w => 3 <? PyStr.len w) (PyStr.split text)).

Definition resume_words : gset string := words_of resume_lower.
Definition jd_words : gset string := words_of jd_lower.
Definition overlap : Z := Z.of_nat (size (resume_words ∩ jd_words)).

Definition semantic_raw : num :=
  py_min (PyInt 100)
    (PyFloat (fmul (int_truediv overlap (max1 (Z.of_nat (size jd_words))))
                   (of_int 100))).

(** Line 44. *)
Definition length_bonus : num :=
  py_min (PyInt 20) (PyFloat (int_truediv (PyStr.len resume_text) 500)).

(** Lines 46 and 47. *)
Definition overall_base : num :=
  py_min (PyInt 100)
    (PyFloat (fadd (_score_from_components skills_raw semantic_raw default_weights)
                   (to_float length_bonus))).

(** Lines 50 and 51. *)
Definition variance : spec_float := int_truediv (seed mod 20 - 10) 100.

Definition overall : num :=
  py_max (PyInt 0)
    (py_min (PyInt 100)
       (PyFloat (fmul (to_float overall_base) (fadd (of_int 1) variance)))).

(** Lines 57 to 59 and 62. *)
Definition matched : list string := List.filter skill_in_resume required_skills.
Definition missing : list string :=
  List.filter (fun s => negb (skill_in_resume s)) required_skills.

(** Line 63. *)
Definition recommend (overall : num) : string :=
  if ge overall (PyInt 80) then "Highly Recommended"
  else if ge overall (PyInt 60) then "Recommended"
  else if ge overall (PyInt 40) then "Maybe"
  else "Not Recommended".

(** Line 61. *)
Definition strength : string :=
  "Matched " ++ PyStr.str_of_Z matched_count ++ "/"
    ++ PyStr.str_of_Z skills_total ++ " required skills".

(** [_fallback_score] on a string, a string and a list of strings. *)
Definition fallback_score : breakdown :=
  {| overall_score := round2 overall;
     skills_score := round2 skills_raw;
     semantic_score := round2 semantic_raw;
     found_skills := matched;
     matched_skills := matched;
     missing_skills := missing;
     explain := {| strengths := [strength];
                   gaps := missing;
                   recommendation := recommend overall |} |}.

End Engine.

Definition str_list (l : list string) : pyval := VList (map VStr l).

Definition breakdown_dict (b : breakdown) : dict :=
  [("overall_score", VNum (overall_score b));
   ("skills_score", VNum (skills_score b));
   ("semantic_score", VNum (semantic_score b));
   ("found_skills", str_list (found_skills b));
   ("matched_skills", str_list (matched_skills b));
   ("missing_skills", str_list (missing_skills b));
   ("explanation", VDict
      [("strengths", str_list (strengths (explain b)));
       ("gaps", str_list (gaps (explain b)));
       ("recommendation", VStr (recommendation (explain b)))])].

(** [_fallback_score] on arbitrary values: [resume_text.encode()] (line
    27) and [job_description.lower()] (line 31) need strings, the skills
    must be iterable and every skill must have [lower] (line 34). On the
    strings of the model, U+0000..U+00FF, [encode] always succeeds. *)
Definition _fallback_score (resume_text job_description required_skills : pyval)
    : res dict :=
  r ← as_str "encode" resume_text;
  j ← as_str "lower" job_description;
  skills ← py_iter required_skills;
  names ← res_map (as_str "lower") skills;
  Ok (breakdown_dict (fallback_score r j names)).

(** ** The worker, the coordinator and the aggregator *)

(** [sorted(l, key=..., reverse=True)] on decorated records: the list is
    reversed, sorted in ascending order by a stable sort that only asks
    [<] of the keys, and reversed again. [before] is the [<] of the
    keys. *)
Module Sorted.

Section Sort.
Context {K A : Type}.
Variable before : K -> K -> bool.

Fixpoint insert (x : K * A) (l : list (K * A)) : list (K * A) :=
  match l with
  | [] => [x]
  | y :: l' => if before (fst y) (fst x) then y :: insert x l' else x :: y :: l'
  end.

Fixpoint sort (l : list (K * A)) : list (K * A) :=
  match l with
  | [] => []
  | x :: l' => insert x (sort l')
  end.

Definition sort_reverse (l : list (K * A)) : list (K * A) :=
  rev (sort (rev l)).

End Sort.

Section Order.
Context {A : Type}.

(** Numeric keys in ascending and in descending order; a key that can be
    ordered is no NaN. *)
Definition ascending : relation (num * A) :=
  fun x y => le (fst x) (fst y) = true.
Definition descending : relation (num * A) :=
  fun x y => le (fst y) (fst x) = true.
Definition ordered (x : num * A) : Prop := value (fst x) <> XNaN.
End Order.

End Sorted.

(** What a call comes to: it returns a value; its [await] is still
    pending; it raises; or the model leaves its outcome open. *)
Inductive outcome (A : Type) :=
| Returned (a : A)
| Pending
| Raised
| Unsettled.
Arguments Returned {A} a.
Arguments Pending {A}.
Arguments Raised {A}.
Arguments Unsettled {A}.

#[export] Instance outcome_fmap : FMap outcome := fun _ _ f o =>
  match o with
  | Returned a => Returned (f a)
  | Pending => Pending
  | Raised => Raised
  | Unsettled => Unsettled
  end.

(** The types [<] accepts together: numbers ([bool] included) with
    numbers, strings with strings, lists with lists. [None] and a dict are
    accepted with nothing, themselves included. *)
Inductive kind :=
| Number
| Text
| Sequence
| Unordered.

Definition kind_of (key : pyval) : kind :=
  match key with
  | VBool _ | VNum _ => Number
  | VStr _ => Text
  | VList _ => Sequence
  | VNone | VDict _ => Unordered
  end.

Definition comparable (a b : pyval) : bool :=
  match kind_of a, kind_of b with
  | Number, Number | Text, Text | Sequence, Sequence => true
  | _, _ => false
  end.

(** Some key is one that [<] does not accept beside the first one. *)
Definition clash (keys : list pyval) : bool :=
  match keys with
  | [] => false
  | k :: _ => existsb (fun k' => negb (comparable k k')) keys
  end.

Section Pipeline.

(** [traceback.format_exc()] while the exception is handled: a text that
    depends on the installation. *)
Variable format_exc : exn -> string.

Definition error_record (e : exn) : dict :=
  [("error", VBool true);
   ("message", VStr (exn_str e));
   ("trace", VStr (format_exc e))].

(** The body of the [try] in [_process_single_sync]: the first [print]
    evaluates [len(resume_text)], then the engine runs. *)
Definition try_body (resume_text job_description required_skills : pyval)
    : res dict :=
  _ ← py_len resume_text;
  _fallback_score resume_text job_description required_skills.

(** [_process_single_sync]: the body of the [try], then the handler. *)
Definition _process_single_sync (resume_text job_description required_skills : pyval)
    : dict :=
  match try_body resume_text job_description required_skills with
  | Ok result => result
  | Raise e => error_record e
  end.

(** The arguments one item hands to its worker (lines 87 to 89). *)
Definition task_of (it : dict) : pyval * pyval * pyval :=
  (Dict.get_default "resume_text" (VStr "") it,
   Dict.get_default "job_description" (VStr "") it,
   Dict.get_default "required_skills" (VList []) it).

Definition run_task (t : pyval * pyval * pyval) : dict :=
  let '(resume_text, job_description, required_skills) := t in
  _process_single_sync resume_text job_description required_skills.

(** [asyncio.gather]: the workers finish in the order [schedule] gives;
    each one writes its result in its own slot. The call returns once
    every slot is filled, with the results in the order of the tasks. *)
Definition finish (tasks : list (pyval * pyval * pyval))
    (slots : list (option dict)) (i : nat) : list (option dict) :=
  match tasks !! i with
  | Some t => <[i := Some (run_task t)]> slots
  | None => slots
  end.

Definition gather (schedule : list nat) (tasks : list (pyval * pyval * pyval))
    : option (list dict) :=
  mapM id (fold_left (finish tasks) schedule (replicate (length tasks) None)).

(** Lines 94 to 98: [record = {**src}; record.update(res)]. *)
Definition merge (src res : dict) : dict := Dict.update src res.

Definition merge_all (items results : list dict) : list dict :=
  map (fun p => merge (fst p) (snd p)) (zip items results).

(** [sort_key]: [r.get("overall_score", -1)]. *)
Definition sort_key (r : dict) : pyval :=
  Dict.get_default "overall_score" (VNum (PyInt (-1))) r.

(** The number a key is ordered as: an int or a float that is no NaN, a
    [bool] as 0 or 1. *)
Definition rank (key : pyval) : option num :=
  match key with
  | VNum x =>
      match value x with
      | XNaN => None
      | _ => Some x
      end
  | VBool b => Some (PyInt (if b then 1 else 0))
  | _ => None
  end.

(** The text of a key that is a [str]. *)
Definition text (key : pyval) : option string :=
  match key with
  | VStr s => Some s
  | _ => None
  end.

(** The records beside their keys, when [key] reads every one of them. *)
Definition decorate {K : Type} (key : pyval -> option K) (out : list dict)
    : option (list (K * dict)) :=
  mapM (fun r => k ← key (sort_key r); Some (k, r)) out.

(** [sorted(out, key=sort_key, reverse=True)] (line 104).
    - Keys that are all numbers, none a NaN, are sorted as numbers; keys
      that are all strings are sorted by code points.
    - Fewer than two records are returned as they are: no key is
      compared.
    - Two records or more with keys that [<] does not accept together, or
      with a key it accepts with nothing, raise [TypeError]: the sort has
      to compare such keys before it can return.
    - What is left, a NaN among numbers or keys that are lists, is left
      open: the answers of [<] are then no order, or raise for some pairs
      only, and what [sorted] makes of them depends on the comparisons its
      algorithm happens to ask for. *)
Definition sorted_records (out : list dict) : outcome (list dict) :=
  match decorate rank out with
  | Some keyed => Returned (map snd (Sorted.sort_reverse lt keyed))
  | None =>
      match decorate text out with
      | Some keyed => Returned (map snd (Sorted.sort_reverse String.ltb keyed))
      | None =>
          if (length out <? 2)%nat then Returned out
          else if clash (map sort_key out) then Raised
          else Unsettled
      end
  end.

(** The aggregator: merge, then sort (lines 94 to 105). *)
Definition aggregate (items results : list dict) : outcome (list dict) :=
  sorted_records (merge_all items results).

(** [process_bulk_async]: the call is pending until every worker has
    finished. *)
Definition process_bulk_async (schedule : list nat) (items : list dict)
    : outcome (list dict) :=
  match gather schedule (map task_of items) with
  | Some results => aggregate items results
  | None => Pending
  end.

(** [score_candidates_batch] of [main.py]: each request object is reduced
    to the four fields of an item, with their defaults. An exception of
    [process_bulk_async] is raised again as an [HTTPException] with status
    500. *)
Definition entry_item (r : dict) : dict :=
  [("resume_text", Dict.get_default "resume_text" (VStr "") r);
   ("job_description", Dict.get_default "job_description" (VStr "") r);
   ("required_skills", Dict.get_default "required_skills" (VList []) r);
   ("fileName", Dict.get_default "fileName" (VStr "Unknown") r)].

Definition score_candidates_batch (schedule : list nat) (requests : list dict)
    : outcome (list dict) :=
  process_bulk_async schedule (map entry_item requests).

End Pipeline.

(** ** Vocabulary of the statements *)

(** A score lies between 0 and 100. *)
Definition in_range (x : num) : Prop :=
  le (PyInt 0) x = true /\ le x (PyInt 100) = true.

Definition in_rangeb (x : num) : bool :=
  le (PyInt 0) x && le x (PyInt 100).

(** A float carries the sign bit [s], or is a NaN. *)
Definition sign_is (s : bool) (f : spec_float) : Prop :=
  match f with
  | S754_nan => True
  | S754_zero s' | S754_infinity s' | S754_finite s' _ _ => s' = s
  end.

(** The doubles nearest to 0.1 and to -0.1. *)
Definition lit_0_1 : spec_float := int_truediv 1 10.
Definition lit_minus_0_1 : spec_float := int_truediv (-1) 10.

(** Every one of the [n] workers finishes under [schedule]. *)
Definition all_finish (schedule : list nat) (n : nat) : bool :=
  forallb (fun i => existsb (Nat.eqb i) schedule) (seq 0 n).

(** The record the batch builds for one request: the item of the request
    merged with what its worker returns. *)
Definition batch_record (format_exc : exn -> string) (r : dict) : dict :=
  merge (entry_item r) (run_task format_exc (task_of (entry_item r))).

(** The record [process_bulk_async] builds for one item. *)
Definition item_record (format_exc : exn -> string) (it : dict) : dict :=
  merge it (run_task format_exc (task_of it)).

(** An item that brings no [overall_score] and no [error] of its own. *)
Definition carries_no_outcome (it : dict) : bool :=
  match Dict.get "overall_score" it, Dict.get "error" it with
  | None, None => true
  | _, _ => false
  end.

(** The number a record is ranked by. *)
Definition key_of (record : dict) : num :=
  match rank (sort_key record) with
  | Some k => k
  | None => PyInt (-1)
  end.

(** A record carries the error flag; a record carries a score. *)
Definition is_errored (record : dict) : bool :=
  match Dict.get "error" record with
  | Some (VBool true) => true
  | _ => false
  end.

Definition is_scored (record : dict) : bool :=
  match Dict.get "overall_score" record with
  | Some (VNum _) => true
  | _ => false
  end.

(** The records in the order [sorted_records] puts them in. *)
Definition ranked (records : list dict) : list dict :=
  map snd (Sorted.sort_reverse lt (map (fun r => (key_of r, r)) records)).

(** A record with the given file name and score, as in the batch ordering
    example of the specification. *)
Definition scored_example (name : string) (score : Z) : dict :=
  [("fileName", VStr name); ("overall_score", VNum (PyInt score))].

(** What the [try] of the worker makes of a request. *)
Definition request_outcome (r : dict) : res dict :=
  let '(resume_text, job_description, required_skills) := task_of (entry_item r) in
  try_body resume_text job_description required_skills.

(** A trace text and a batch of three requests, the second of which has no
    resume text, for the examples. *)
Definition example_trace (e : exn) : string :=
  "Traceback (most recent call last): " ++ exn_str e.

Definition example_requests : list dict :=
  [[("resume_text", VStr "Python developer with Django skills");
    ("job_description", VStr "Looking for python developer");
    ("required_skills", VList [VStr "Python"; VStr "Django"]);
    ("fileName", VStr "a.pdf")];
   [("resume_text", VNone); ("fileName", VStr "b.pdf")];
   [("resume_text", VStr "Java engineer");
    ("job_description", VStr "Looking for python developer");
    ("required_skills", VList [VStr "Python"])]].

(** Records ranked alike: same key up to numeric equality. *)
Definition same_rank (k : num) (record : dict) : bool := eqb (key_of record) k.

(** The four fields the batch entry point accepts. *)
Definition passthrough_fields : list string :=
  ["resume_text"; "job_description"; "required_skills"; "fileName"].

(** The scoring algorithm as the specification words it (section 4.1,
    steps 1 to 10), in the same arithmetic as the code. *)
Module Spec.

Inductive Recommendation :=
| HighlyRecommended
| Recommended
| Maybe
| NotRecommended.

Definition label (r : Recommendation) : string :=
  match r with
  | HighlyRecommended => "Highly Recommended"
  | Recommended => "Recommended"
  | Maybe => "Maybe"
  | NotRecommended => "Not Recommended"
  end.

(** [clamp(x, lo, hi)]. *)
Definition clamp (x lo hi : num) : num := py_max lo (py_min hi x).

Section Score.

Variable resumeText jobDescription : string.
Variable requiredSkills : list string.

(** Case-insensitive substring test of a skill against the resume. *)
Definition matches (skill : string) : bool :=
  PyStr.contains (PyStr.lower skill) (PyStr.lower resumeText).

(** Step 1: the first eight hexadecimal digits of the digest, read as
    one integer, are its first four bytes, most significant first. *)
Definition seed : Z :=
  match MD5.digest (PyStr.encode resumeText) with
  | b0 :: b1 :: b2 :: b3 :: _ => ((b0 * 256 + b1) * 256 + b2) * 256 + b3
  | _ => 0
  end.

(** Step 2. *)
Definition matchedCount : Z :=
  Z.of_nat (length (List.filter matches requiredSkills)).

(** Step 3. *)
Definition skillsScore : num :=
  py_min (PyInt 100)
    (PyFloat (fmul (fmul (int_truediv matchedCount
                            (max1 (Z.of_nat (length requiredSkills))))
                         (of_int 100)) lit_1_2)).

(** Step 4: the distinct tokens longer than three characters. *)
Definition tokens (text : string) : list string :=
  remove_dups (List.filter (fun w => 3 <? PyStr.len w)
                           (PyStr.split (PyStr.lower text))).

Definition resumeWords : list string := tokens resumeText.
Definition jdWords : list string := tokens jobDescription.

Definition overlap : Z :=
  Z.of_nat (length (List.filter (fun w => bool_decide (w ∈ jdWords)) resumeWords)).

Definition semanticScore : num :=
  py_min (PyInt 100)
    (PyFloat (fmul (int_truediv overlap (max1 (Z.of_nat (length jdWords))))
                   (of_int 100))).

(** Step 5. *)
Definition lengthBonus : num :=
  py_min (PyInt 20) (PyFloat (int_truediv (PyStr.len resumeText) 500)).

(** Step 6. *)
Definition overallBase : num :=
  py_min (PyInt 100)
    (PyFloat (fadd (fadd (fmul (to_float skillsScore) lit_0_6)
                         (fmul (to_float semanticScore) lit_0_4))
                   (to_float lengthBonus))).

(** Step 7. *)
Definition variance : spec_float := int_truediv (seed mod 20 - 10) 100.

Definition overall : num :=
  clamp (PyFloat (fmul (to_float overallBase) (fadd (of_int 1) variance)))
        (PyInt 0) (PyInt 100).

(** Step 9. *)
Definition recommendation (overall : num) : Recommendation :=
  if le (PyInt 80) overall then HighlyRecommended
  else if le (PyInt 60) overall then Recommended
  else if le (PyInt 40) overall then Maybe
  else NotRecommended.

(** Step 10. *)
Definition strengths : list string :=
  ["Matched " ++ PyStr.str_of_Z matchedCount ++ "/"
     ++ PyStr.str_of_Z (Z.of_nat (length requiredSkills)) ++ " required skills"].

Definition gaps : list string :=
  List.filter (fun skill => negb (matches skill)) requiredSkills.

End Score.

End Spec.

(** ** Arguments the engine can score *)

(** A value is a [str]; a value [len] accepts. *)
Definition is_str (v : pyval) : bool :=
  match v with
  | VStr _ => true
  | _ => false
  end.

Definition has_len (v : pyval) : bool :=
  match v with
  | VStr _ | VList _ | VDict _ => true
  | _ => false
  end.

(** The three arguments are ones [_fallback_score] can score: two strings
    and an iterable of strings. *)
Definition scorable (resume_text job_description required_skills : pyval) : bool :=
  is_str resume_text && is_str job_description &&
  match py_iter required_skills with
  | Ok skills => forallb is_str skills
  | Raise _ => false
  end.

(** The worker of an item, of a request, can score its arguments. *)
Definition item_scorable (it : dict) : bool :=
  let '(resume_text, job_description, required_skills) := task_of it in
  scorable resume_text job_description required_skills.

Definition request_scorable (r : dict) : bool := item_scorable (entry_item r).

(** The keys of a score and the keys of an error, in the order the worker
    writes them. *)
Definition score_keys : list string :=
  ["overall_score"; "skills_score"; "semantic_score"; "found_skills";
   "matched_skills"; "missing_skills"; "explanation"].

Definition error_keys : list string := ["error"; "message"; "trace"].

(** The three fields the worker reads, and the defaults
    [score_candidates_batch] gives the four fields it accepts. *)
Definition scored_fields : list string :=
  ["resume_text"; "job_description"; "required_skills"].

Definition entry_defaults : list (string * pyval) :=
  [("resume_text", VStr ""); ("job_description", VStr "");
   ("required_skills", VList []); ("fileName", VStr "Unknown")].

(** An item that carries a score of its own and a resume that is no text,
    and an item that can be scored. *)
Definition carried_score_item : dict :=
  [("resume_text", VNone); ("overall_score", VNum (PyInt 500))].

Definition plain_item : dict :=
  [("resume_text", VStr "Python developer"); ("required_skills", VList [VStr "Python"])].

(** An item that can be scored and brings an error flag of its own, and an
    item that cannot be scored and brings a text as its score. *)
Definition flagged_item : dict :=
  [("resume_text", VStr "Python developer"); ("error", VBool true)].

Definition text_score_item : dict :=
  [("resume_text", VNone); ("overall_score", VStr "high")].

(** Three items as a caller of [process_bulk_async] may build them, with an
    identifier of their own; the second has no resume text. *)
Definition example_items : list dict :=
  [[("candidate_id", VStr "c-1");
    ("resume_text", VStr "Python developer with Django skills");
    ("job_description", VStr "Looking for python developer");
    ("required_skills", VList [VStr "Python"; VStr "Django"])];
   [("candidate_id", VStr "c-2"); ("resume_text", VNone)];
   [("candidate_id", VStr "c-3");
    ("resume_text", VStr "Java engineer");
    ("job_description", VStr "Looking for python developer");
    ("required_skills", VList [VStr "Python"])]].

(** A resume, with its job description and required skills, whose overall
    value falls just below the threshold 40. *)
Definition boundary_resume : string := "Python experience years".
Definition boundary_job : string := "Looking for python developer".
Definition boundary_skills : list string := ["Python"; "Django"; "SQL"].

(** The double 1.0. *)
Definition float_one : spec_float := S754_finite false 4503599627370496 (-52).

(** [check] holds of the [n] integers from [k] on. *)
Fixpoint all_from (n : nat) (k : Z) (check : Z -> bool) : bool :=
  match n with
  | O => true
  | S n' => check k && all_from n' (k + 1) check
  end.

(** The hundredth [k / 100], read back as a double, lies between the
    integers around it. *)
Definition between_hundreds (k : Z) : bool :=
  let f := PyFloat (int_truediv k 100) in
  le (PyInt (k / 100)) f && le f (PyInt (- (- k / 100))).

(** ** The lazily built services: [_init_services] *)

Module Services.

(** [HF_MODEL] of [hf_inference.py] and [DEFAULT_EMBEDDING_MODEL] of
    [semantic.py]. *)
Definition HF_MODEL : string := "jjzha/jobbert_skill_extraction".
Definition DEFAULT_EMBEDDING_MODEL : string := "sentence-transformers/all-MiniLM-L6-v2".

(** The exception the two constructors raise. *)
Inductive error :=
| RuntimeError (msg : string).

(** An [HFInferenceSkillExtractor] and a [SemanticSimilarity], by their
    attributes. *)
Record extractor := Extractor {
  extractor_model_name : string;
  extractor_api_url : string;
  extractor_api_key : string;
  extractor_headers : list (string * string)
}.

Record similarity := Similarity {
  similarity_model_name : string;
  similarity_api_key : string;
  similarity_url : string;
  similarity_headers : list (string * string)
}.

(** [not api_key] on what [os.getenv] returns: the variable is unset or
    empty. *)
Definition no_key (getenv : option string) : bool :=
  match getenv with
  | None => true
  | Some key => String.eqb key ""
  end.

(** [HFInferenceSkillExtractor()], with the default model. *)
Definition new_extractor (getenv : option string) : error + extractor :=
  match getenv with
  | Some key =>
      if String.eqb key "" then
        inl (RuntimeError "HUGGINGFACE_API_KEY environment variable is not set")
      else
        inr {| extractor_model_name := HF_MODEL;
               extractor_api_url :=
                 "https://api-inference.huggingface.co/models/" ++ HF_MODEL;
               extractor_api_key := key;
               extractor_headers := [("Authorization", "Bearer " ++ key)] |}
  | None => inl (RuntimeError "HUGGINGFACE_API_KEY environment variable is not set")
  end.

(** [SemanticSimilarity()], with the default model. *)
Definition new_similarity (getenv : option string) : error + similarity :=
  match getenv with
  | Some key =>
      if String.eqb key "" then
        inl (RuntimeError "HUGGINGFACE_API_KEY is required for HF inference embeddings")
      else
        inr {| similarity_model_name := DEFAULT_EMBEDDING_MODEL;
               similarity_api_key := key;
               similarity_url := "https://api-inference.huggingface.co/embeddings";
               similarity_headers :=
                 [("Authorization", "Bearer " ++ key);
                  ("Content-Type", "application/json")] |}
  | None => inl (RuntimeError "HUGGINGFACE_API_KEY is required for HF inference embeddings")
  end.

(** The two module globals. *)
Record globals := Globals {
  _skill_extractor : option extractor;
  _semantic : option similarity
}.

Definition unset : globals := Globals None None.

(** [_init_services]: the globals after the call, and the exception when
    the call raises. [getenv] is the value of HUGGINGFACE_API_KEY during the
    call. *)
Definition _init_services (getenv : option string) (g : globals)
    : globals * option error :=
  match
    match _skill_extractor g with
    | None =>
        match new_extractor getenv with
        | inr x => inr (Globals (Some x) (_semantic g))
        | inl e => inl e
        end
    | Some _ => inr g
    end
  with
  | inl e => (g, Some e)
  | inr g1 =>
      match _semantic g1 with
      | None =>
          match new_similarity getenv with
          | inr s => (Globals (_skill_extractor g1) (Some s), None)
          | inl e => (g1, Some e)
          end
      | Some _ => (g1, None)
      end
  end.

(** Both services are built. *)
Definition ready (g : globals) : bool :=
  match _skill_extractor g, _semantic g with
  | Some _, Some _ => true
  | _, _ => false
  end.

End Services.

(** ** The single-candidate endpoint of [main.py]: [score_candidate] *)

Module Main.

(** [CandidateScoringRequest], once validated. *)
Record CandidateScoringRequest := {
  request_resume_text : string;
  request_job_description : string;
  request_required_skills : list string;
  required_experience_years : option Z
}.

(** [CandidateScoringResponse]. *)
Record CandidateScoringResponse := {
  candidate_id : string;
  response_overall_score : spec_float;
  components : list (string * spec_float);
  response_explanation : explanation
}.

(** [years > 0] on an optional int: [None] cannot be compared. *)
Definition positive_years (years : option Z) : res bool :=
  match years with
  | Some y => Ok (0 <? y)
  | None =>
      Raise (TypeError "'>' not supported between instances of 'NoneType' and 'int'")
  end.

(** [score_candidate]. *)
Definition score_candidate (request : CandidateScoringRequest)
    : res CandidateScoringResponse :=
  let id :=
    String.substring 0 12
      (MD5.hexdigest (PyStr.encode (request_resume_text request))) in
  match positive_years (required_experience_years request) with
  | Raise e => Raise e
  | Ok exceeds =>
      Ok {| candidate_id := id;
            response_overall_score := int_truediv 875 10;
            components :=
              [("skills", of_int 92); ("experience", of_int 85);
               ("education", of_int 100); ("semantic_similarity", of_int 78)];
            response_explanation :=
              {| strengths :=
                   [("Strong match on required skills: "
                       ++ String.concat ", "
                            (firstn 3 (request_required_skills request)))%string;
                    if exceeds then "Exceeds experience requirement"
                    else "Relevant experience demonstrated"];
                 gaps := ["Consider additional training in advanced topics"];
                 recommendation := "STRONG FIT - Highly recommended for interview" |} |}
  end.

(** A lowercase hexadecimal digit. *)
Definition is_hex_char (c : ascii) : bool :=
  let n := PyStr.ord c in
  ((48 <=? n) && (n <=? 57)) || ((97 <=? n) && (n <=? 102)).

End Main.

(** ** More Python strings: [strip], slices, [rfind] and [replace] *)

Module PyText.

(** [s.lstrip()] on the characters of [s]. *)
Fixpoint lstrip (l : list ascii) : list ascii :=
  match l with
  | [] => []
  | c :: l' => if PyStr.isspace c then lstrip l' else l
  end.

(** [s.strip()]: the whitespace at both ends goes. *)
Definition strip (s : string) : string :=
  string_of_list_ascii (rev (lstrip (rev (lstrip (list_ascii_of_string s))))).

(** An index of a slice, as Python clips it to [0..n]: a negative index
    counts from the end. *)
Definition slice_index (n i : Z) : Z :=
  if i <? 0 then Z.max 0 (i + n) else Z.min i n.

(** [s[start:stop]]. *)
Definition slice (s : string) (start stop : Z) : string :=
  let n := PyStr.len s in
  let a := slice_index n start in
  let b := slice_index n stop in
  string_of_list_ascii
    (take (Z.to_nat (b - a)) (drop (Z.to_nat a) (list_ascii_of_string s))).

(** [s.rfind(c, start, stop)] for a one-character [c]: the highest index
    of [c] in [s[start:stop]], or -1. [i] is the index of the head of [l],
    [found] the highest index seen so far. *)
Fixpoint rfind_go (c : ascii) (l : list ascii) (i start stop found : Z) : Z :=
  match l with
  | [] => found
  | x :: l' =>
      rfind_go c l' (i + 1) start stop
        (if (start <=? i) && (i <? stop) && Ascii.eqb x c then i else found)
  end.

Definition rfind (s : string) (c : ascii) (start stop : Z) : Z :=
  let n := PyStr.len s in
  let stop := if n <? stop then n
              else if stop <? 0 then Z.max 0 (stop + n) else stop in
  let start := if start <? 0 then Z.max 0 (start + n) else start in
  rfind_go c (list_ascii_of_string s) 0 start stop (-1).

(** [s.replace(old, new)] for a non-empty [old]: the occurrences are
    taken from the left and do not overlap. [skip] counts the characters
    of an occurrence still to pass. *)
Fixpoint replace_go (old new : string) (skip : nat) (s : string) : string :=
  match s with
  | EmptyString => EmptyString
  | String c s' =>
      match skip with
      | S skip' => replace_go old new skip' s'
      | O =>
          if String.prefix old s
          then new ++ replace_go old new (String.length old - 1) s'
          else String c (replace_go old new 0 s')
      end
  end.

Definition replace (old new s : string) : string := replace_go old new 0 s.

End PyText.

Import PyText.

(** ** The entities of a token-classification answer *)

Module Entities.

(** [bool(v)]. *)
Definition truthy (v : pyval) : bool :=
  match v with
  | VNone => false
  | VBool b => b
  | VNum (PyInt z) => negb (z =? 0)
  | VNum (PyFloat f) =>
      match f with
      | S754_zero _ => false
      | _ => true
      end
  | VStr s => negb (String.eqb s "")
  | VList l =>
      match l with
      | [] => false
      | _ => true
      end
  | VDict d =>
      match d with
      | [] => false
      | _ => true
      end
  end.

(** [a or b]. *)
Definition py_or (a b : pyval) : pyval := if truthy a then a else b.

(** [score < min_score], for a number [min_score]: a [bool] counts as 0
    or 1, and nothing but a number can be compared with one. *)
Definition py_lt (score : pyval) (min_score : num) : res bool :=
  match score with
  | VNum x => Ok (lt x min_score)
  | VBool b => Ok (lt (PyInt (Z.b2z b)) min_score)
  | _ =>
      Raise (TypeError ("'<' not supported between instances of '"
                          ++ type_name score ++ "' and '"
                          ++ type_name (VNum min_score) ++ "'"))
  end.

(** [word.replace("##", "").replace("\u0120", " ").strip()]. The second
    replacement looks for U+0120, which no string of the modelled range
    U+0000..U+00FF holds, and so changes none. *)
Definition normalized (word : pyval) : res string :=
  s ← as_str "replace" word;
  Ok (strip (replace "##" "" s)).

(** The body of the loop over the entities: the skill an entity adds, if
    any. [word_of] is the choice of the word among the keys of the
    entity. *)
Definition entity_skill (word_of : dict -> pyval) (min_score : num) (ent : pyval)
    : res (option string) :=
  match ent with
  | VDict d =>
      let word := word_of d in
      let score := Dict.get_default "score" (VNum (PyFloat (S754_zero false))) d in
      if truthy word then
        below ← py_lt score min_score;
        if below : bool then Ok None
        else
          skill ← normalized word;
          Ok (if String.eqb skill "" then None else Some skill)
      else Ok None
  | _ => Raise (no_attribute ent "get")
  end.

(** The loop over the entities, on the set [skills]. *)
Fixpoint add_entities (word_of : dict -> pyval) (min_score : num)
    (ents : list pyval) (skills : gset string) : res (gset string) :=
  match ents with
  | [] => Ok skills
  | ent :: ents' =>
      found ← entity_skill word_of min_score ent;
      add_entities word_of min_score ents'
        match found with
        | Some skill => {[skill]} ∪ skills
        | None => skills
        end
  end.

(** [sorted(skills)] on a set of strings: ascending by code points. *)
Definition sorted (skills : gset string) : list string :=
  merge_sort String.le (elements skills).

(** The default of [min_score]. *)
Definition default_min_score : num := PyFloat (int_truediv 35 100).

End Entities.

Import Entities.

(** ** The remote extractor of [services/hf_inference.py] *)

Module HFInference.

(** What the call can raise: an exception of [requests] (the request, the
    status check or the decoding of the body), or one of the loop. *)
Inductive raised :=
| RequestError (msg : string)
| LoopError (e : exn).

(** [ent.get("word") or ent.get("token") or ent.get("text") or
    ent.get("entity")]. *)
Definition word_of (d : dict) : pyval :=
  py_or (Dict.get_default "word" VNone d)
    (py_or (Dict.get_default "token" VNone d)
       (py_or (Dict.get_default "text" VNone d)
          (Dict.get_default "entity" VNone d))).

(** [extract_skills(text, min_score)]. [post] is the exchange with the
    API: the decoded JSON body for a text, or the exception. *)
Definition extract_skills (post : string -> raised + pyval) (text : string)
    (min_score : num) : raised + list string :=
  if String.eqb text "" then inr []
  else
    match post text with
    | inl e => inl e
    | inr data =>
        match data with
        | VList ents =>
            match add_entities word_of min_score ents ∅ with
            | Ok skills => inr (sorted skills)
            | Raise e => inl (LoopError e)
            end
        | _ => inr (sorted ∅)
        end
    end.

End HFInference.

(** ** The local extractor of [services/hf_skill_extractor.py] *)

Module HFSkillExtractor.

(** The value of [end] when the chunk that starts at [start] is cut:
    [start + approx_max_chars], or the last space before it when the text
    goes on and there is one after [start]. *)
Definition chunk_end (text : string) (approx_max_chars start : Z) : Z :=
  let stop := start + approx_max_chars in
  if stop <? PyStr.len text then
    let last_space := rfind text " "%char start stop in
    if start <? last_space then last_space else stop
  else stop.

(** The [while] loop of [_chunk_text] from [start] on: the chunks it
    appends, or [None] when [fuel] iterations do not end it. *)
Fixpoint chunk_loop (fuel : nat) (text : string) (approx_max_chars start : Z)
    : option (list string) :=
  if start <? PyStr.len text then
    match fuel with
    | O => None
    | S fuel' =>
        let stop := chunk_end text approx_max_chars start in
        match chunk_loop fuel' text approx_max_chars stop with
        | Some chunks => Some (strip (slice text start stop) :: chunks)
        | None => None
        end
    end
  else Some [].

(** [_chunk_text(text, approx_max_chars)]. *)
Definition _chunk_text (fuel : nat) (text : string) (approx_max_chars : Z)
    : option (list string) :=
  if String.eqb text "" then Some []
  else
    let text := strip text in
    if PyStr.len text <=? approx_max_chars then Some [text]
    else chunk_loop fuel text approx_max_chars 0.

(** The default of [approx_max_chars]. *)
Definition default_max_chars : Z := 1800.

(** [ent.get("word") or ent.get("entity") or ""]. *)
Definition word_of (d : dict) : pyval :=
  py_or (Dict.get_default "word" VNone d)
    (py_or (Dict.get_default "entity" VNone d) (VStr "")).

(** The loop over the chunks. [ner] is the pipeline: its answer for a
    chunk, or [None] when it raises. *)
Fixpoint scan_chunks (ner : string -> option pyval) (min_score : num)
    (chunks : list string) (skills : gset string) : res (gset string) :=
  match chunks with
  | [] => Ok skills
  | chunk :: chunks' =>
      match ner chunk with
      | None => scan_chunks ner min_score chunks' skills
      | Some entities =>
          ents ← py_iter entities;
          skills' ← add_entities word_of min_score ents skills;
          scan_chunks ner min_score chunks' skills'
      end
  end.

(** [extract_skills(text, min_score)]; [None] when the chunking does not
    end within [fuel] iterations. *)
Definition extract_skills (ner : string -> option pyval) (fuel : nat)
    (text : string) (min_score : num) : option (res (list string)) :=
  if String.eqb text "" || String.eqb (strip text) "" then Some (Ok [])
  else
    match _chunk_text fuel text default_max_chars with
    | None => None
    | Some chunks =>
        Some (skills ← scan_chunks ner min_score chunks ∅; Ok (sorted skills))
    end.

End HFSkillExtractor.

(** ** Vocabulary of the statements on texts and skills *)

(** The characters of a text that are no whitespace, in order. *)
Definition inked (s : string) : list ascii :=
  List.filter (fun c => negb (PyStr.isspace c)) (list_ascii_of_string s).

(** A text has no whitespace at either end. *)
Definition stripped (s : string) : bool := String.eqb (strip s) s.

(** Every run of [width] characters of a text holds a space: no word of it
    has [width] characters or more. *)
Definition has_space (l : list ascii) : bool := existsb (Ascii.eqb " "%char) l.

Definition spaced (text : string) (width : nat) : bool :=
  forallb (fun i => has_space (take width (drop i (list_ascii_of_string text))))
    (seq 0 (S (String.length text) - width)).

Definition starts_with_hash (s : string) : bool :=
  match s with
  | String c _ => Ascii.eqb c "#"
  | EmptyString => false
  end.

(** A skill as the extractors return it: not empty, with no whitespace at
    either end and no ["##"] inside. *)
Definition clean (skill : string) : bool :=
  negb (String.eqb skill "") && stripped skill
  && negb (PyStr.contains "##" skill).

(** The entity is one the loop passes without an exception. *)
Definition passes (word_of : dict -> pyval) (min_score : num) (ent : pyval) : bool :=
  match entity_skill word_of min_score ent with
  | Ok _ => true
  | Raise _ => false
  end.

(** An answer of the API with three entities, whatever the text, and the
    same answer with the first two entities exchanged. *)
Definition example_answer : pyval :=
  VList
    [VDict [("word", VStr "##Python "); ("score", VNum (PyFloat (int_truediv 9 10)))];
     VDict [("entity", VStr "Django"); ("score", VNum (PyInt 1))];
     VDict [("word", VStr "java"); ("score", VNum (PyFloat (int_truediv 1 10)))]].

Definition example_post (text : string) : HFInference.raised + pyval :=
  inr example_answer.

Definition example_post_swapped (text : string) : HFInference.raised + pyval :=
  inr (VList
         [VDict [("entity", VStr "Django"); ("score", VNum (PyInt 1))];
          VDict [("word", VStr "##Python ");
                 ("score", VNum (PyFloat (int_truediv 9 10)))];
          VDict [("word", VStr "java"); ("score", VNum (PyFloat (int_truediv 1 10)))]]).

(** A text of 2399 characters, and a pipeline that raises on a chunk of
    more than 1000 characters and finds one entity in any other. *)
Definition long_text : string := String.concat " " (repeat "skill" 400).

Definition example_ner (chunk : string) : option pyval :=
  if 1000 <? PyStr.len chunk then None
  else Some (VList [VDict [("word", VStr "##Rust"); ("score", VNum (PyInt 1))]]).

(** The pipeline that answers with no entity where [ner] raises, and the
    one that raises on the texts of more than 1800 characters. *)
Definition quiet (ner : string -> option pyval) (chunk : string) : option pyval :=
  match ner chunk with
  | None => Some (VList [])
  | Some entities => Some entities
  end.

Definition short_only (ner : string -> option pyval) (chunk : string) : option pyval :=
  if 1800 <? PyStr.len chunk then None else ner chunk.

(** * Properties *)

(** ** Numbers *)

Section NumFacts.

Lemma Qltb_lt a b : Qltb a b = true <-> (a < b)%Q.
Proof. unfold Qltb. rewrite Qlt_alt. destruct (a ?= b)%Q; split; congruence. Qed.

Lemma Qltb_ge a b : Qltb a b = false <-> (b <= a)%Q.
Proof.
  rewrite <- not_true_iff_false, Qltb_lt. split.
  - apply Qnot_lt_le.
  - apply Qle_not_lt.
Qed.

Lemma xlt_asym a b : xlt a b = true -> xlt b a = false.
Proof.
  destruct a, b; simpl; try done.
  rewrite Qltb_lt, Qltb_ge. apply Qlt_le_weak.
Qed.

Lemma xlt_xle a b : xlt a b = true -> xle a b = true.
Proof.
  intros H. pose proof (xlt_asym _ _ H) as H'.
  destruct a, b; simpl in *; try done. by rewrite H'.
Qed.

Lemma lt_le a b : lt a b = true -> le a b = true.
Proof. apply xlt_xle. Qed.

(** What is not below a number that is no NaN is at least that number. *)
Lemma not_lt_ge a b :
  value a <> XNaN -> value b <> XNaN -> lt a b = false -> le b a = true.
Proof.
  unfold lt, le. destruct (value a), (value b); simpl; try done.
  by intros _ _ ->.
Qed.

Lemma Qvalue_pos m e : (0 < Qvalue false m e)%Q.
Proof.
  unfold Qvalue, Qlt; destruct e; simpl; lia.
Qed.

Lemma Qvalue_neg m e : (Qvalue true m e < 0)%Q.
Proof.
  unfold Qvalue, Qlt; destruct e; simpl; lia.
Qed.

(** The sign of a rounded result is the sign that was asked for. *)
Lemma binary_round_aux_sign s m e l :
  sign_is s (binary_round_aux prec emax s m e l).
Proof.
  unfold binary_round_aux.
  destruct (shr_fexp _ _ _ _ _) as [mrs' e'].
  destruct (shr_fexp _ _ _ _ _) as [mrs'' e''].
  destruct (shr_m mrs''); simpl; auto.
  destruct (_ <=? _); simpl; auto.
Qed.

Lemma fmul_sign x y :
  sign_is false x -> sign_is false y -> sign_is false (fmul x y).
Proof.
  destruct x as [sx|sx| |sx mx ex], y as [sy|sy| |sy my ey]; simpl;
    intros; subst; simpl; auto.
  apply binary_round_aux_sign.
Qed.

Lemma int_truediv_sign a b : 0 <= a -> sign_is false (int_truediv a b).
Proof.
  intros Ha. unfold int_truediv, fdiv, raw.
  destruct a as [|p|p]; simpl; [reflexivity| |lia].
  destruct (SFdiv_core_binary _ _ _ _ _ _) as [[mz ez] lz].
  apply binary_round_aux_sign.
Qed.

(** A float with a positive sign bit that is below 100 is a score. *)
Lemma positive_below_100 f :
  sign_is false f -> lt (PyFloat f) (PyInt 100) = true -> in_range (PyFloat f).
Proof.
  intros Hs Hlt. split; [|by apply lt_le].
  destruct f as [s|s| |s m e]; simpl in Hs; subst; try done.
  unfold le; simpl. rewrite negb_true_iff, Qltb_ge.
  apply Qlt_le_weak, Qvalue_pos.
Qed.

Lemma py_min_100_range f :
  sign_is false f -> in_range (py_min (PyInt 100) (PyFloat f)).
Proof.
  intros Hs. unfold py_min.
  destruct (lt (PyFloat f) (PyInt 100)) eqn:Hlt.
  - by apply positive_below_100.
  - done.
Qed.

(** [max(0, min(100, y))] is a score whatever [y] is. *)
Lemma clamp_range y : in_range (py_max (PyInt 0) (py_min (PyInt 100) y)).
Proof.
  unfold py_max, py_min.
  destruct (lt y (PyInt 100)) eqn:H100.
  - destruct (lt (PyInt 0) y) eqn:H0; [|done].
    split; by apply lt_le.
  - done.
Qed.

Lemma round_half_even_between (lo hi : Z) (x : Q) :
  (inject_Z lo <= x)%Q -> (x <= inject_Z hi)%Q ->
  lo <= round_half_even x <= hi.
Proof.
  intros Hlo Hhi. unfold round_half_even.
  pose proof (Qfloor_le x) as Hf.
  assert (lo <= Qfloor x) as H1.
  { rewrite <- (Qfloor_Z lo). by apply Qfloor_resp_le. }
  assert (Qfloor x <= hi) as H2.
  { rewrite <- (Qfloor_Z hi). by apply Qfloor_resp_le. }
  assert (((1 # 2) <= x - inject_Z (Qfloor x))%Q -> Qfloor x + 1 <= hi) as H3.
  { intros Hh. destruct (Z.eq_dec (Qfloor x) hi) as [E|E]; [|lia].
    exfalso. rewrite E in Hh. lra. }
  destruct (Qcompare _ _) eqn:Hc.
  - apply Qeq_alt in Hc. destruct (Z.even _); [lia|].
    split; [lia|]. apply H3. rewrite Hc. apply Qle_refl.
  - lia.
  - apply Qgt_alt in Hc. split; [lia|]. apply H3. by apply Qlt_le_weak.
Qed.

(** Every hundredth from 0.01 to 100.00, read back as a double, is a
    score: checked on the ten thousand values. *)
Lemma hundredths_range n :
  1 <= n <= 10000 -> in_range (PyFloat (int_truediv n 100)).
Proof.
  intros Hn.
  assert (forallb (fun k => in_rangeb (PyFloat (int_truediv (Z.of_nat k) 100)))
            (seq 1 (Z.to_nat 10000)) = true) as Hall by (vm_compute; reflexivity).
  rewrite forallb_forall in Hall.
  specialize (Hall (Z.to_nat n)).
  rewrite Z2Nat.id in Hall by lia.
  unfold in_range. apply andb_prop, Hall, in_seq. lia.
Qed.

Lemma fround2_range f : in_range (PyFloat f) -> in_range (PyFloat (fround2 f)).
Proof.
  intros [H0 H100]. destruct f as [s|s| |s m e]; try done.
  unfold le in *; simpl in *.
  rewrite negb_true_iff, Qltb_ge in H0, H100.
  change (inject_Z 0) with 0%Q in H0.
  change (inject_Z 100) with 100%Q in H100.
  destruct s.
  { pose proof (Qvalue_neg m e). lra. }
  pose proof (round_half_even_between 0 10000 (Qvalue false m e * 100)) as Hr.
  destruct (round_half_even _) as [|n|n].
  - done.
  - apply hundredths_range. simpl.
    enough (0 <= Z.pos n <= 10000) by lia. apply Hr.
    + change (inject_Z 0) with 0%Q. lra.
    + change (inject_Z 10000) with 10000%Q. lra.
  - done.
Qed.

Lemma round2_range x : in_range x -> in_range (round2 x).
Proof. destruct x; [done|]. apply fround2_range. Qed.


Lemma le_not_nan a b : le a b = true -> value a <> XNaN /\ value b <> XNaN.
Proof. unfold le. by destruct (value a), (value b). Qed.

Lemma le_false_lt a b :
  value a <> XNaN -> value b <> XNaN -> le b a = false -> lt a b = true.
Proof.
  unfold le, lt. destruct (value a), (value b); simpl; try done.
  by rewrite negb_false_iff.
Qed.

Lemma lt_not_le a b : lt a b = true -> le b a = false.
Proof.
  unfold le, lt. destruct (value a), (value b); simpl; try done.
  by intros ->.
Qed.

Lemma le_int_trans (a b : Z) t :
  a <= b -> le (PyInt b) t = true -> le (PyInt a) t = true.
Proof.
  intros Hab. unfold le. simpl. destruct (value t); simpl; try done.
  rewrite !negb_true_iff, !Qltb_ge. intros Hb.
  apply Qle_trans with (y := inject_Z b); [|done].
  by rewrite <- Zle_Qle.
Qed.

(** The four bands the thresholds 80, 60 and 40 cut. *)
Lemma threshold_bands t :
  (le (PyInt 80) t = true /\ le (PyInt 60) t = true /\ le (PyInt 40) t = true) \/
  (le (PyInt 80) t = false /\ le (PyInt 60) t = true /\ le (PyInt 40) t = true) \/
  (le (PyInt 80) t = false /\ le (PyInt 60) t = false /\ le (PyInt 40) t = true) \/
  (le (PyInt 80) t = false /\ le (PyInt 60) t = false /\ le (PyInt 40) t = false).
Proof.
  pose proof (le_int_trans 60 80 t ltac:(lia)) as H86.
  pose proof (le_int_trans 40 60 t ltac:(lia)) as H64.
  destruct (le (PyInt 80) t), (le (PyInt 60) t), (le (PyInt 40) t);
    intuition congruence.
Qed.

End NumFacts.

Section RankFacts.

Lemma le_trans a b c : le a b = true -> le b c = true -> le a c = true.
Proof.
  unfold le. destruct (value a), (value b), (value c); simpl; try done.
  rewrite !negb_true_iff, !Qltb_ge. intros H1 H2. by eapply Qle_trans.
Qed.

Lemma eqb_le a b : eqb a b = true <-> le a b = true /\ le b a = true.
Proof. unfold eqb. apply andb_true_iff. Qed.

(** Two numbers of one rank are not below one another. *)
Lemma same_rank_not_lt a b k :
  eqb a k = true -> eqb b k = true -> lt a b = false.
Proof.
  rewrite !eqb_le. intros [_ Hka] [Hbk _].
  pose proof (le_trans _ _ _ Hbk Hka) as Hba.
  destruct (lt a b) eqn:Hlt; [|done].
  apply lt_not_le in Hlt. congruence.
Qed.

End RankFacts.

Section BandFacts.

Lemma all_from_spec n k check j :
  all_from n k check = true -> k <= j < k + Z.of_nat n -> check j = true.
Proof.
  revert k. induction n as [|n IH]; intros k H Hj; [lia|].
  cbn [all_from] in H. apply andb_prop in H as [H1 H2].
  destruct (decide (j = k)) as [->|Hne]; [done|].
  apply (IH (k + 1)); [done|lia].
Qed.

(** Every hundredth, read back as a double, lies between the integers
    around it: checked on the ten thousand values. *)
Lemma hundredths_between n lo hi :
  1 <= n <= 10000 -> 100 * lo <= n <= 100 * hi ->
  le (PyInt lo) (PyFloat (int_truediv n 100)) = true /\
  le (PyFloat (int_truediv n 100)) (PyInt hi) = true.
Proof.
  intros Hn Hb.
  assert (all_from (Z.to_nat 10000) 1 between_hundreds = true) as Hall
    by (vm_compute; reflexivity).
  pose proof (all_from_spec _ _ _ n Hall ltac:(lia)) as Hc.
  unfold between_hundreds in Hc. cbv zeta in Hc. apply andb_prop in Hc as [H1 H2].
  split.
  - apply (le_int_trans lo (n / 100)); [|done].
    apply Z.div_le_lower_bound; lia.
  - eapply le_trans; [exact H2|].
    unfold le. simpl. rewrite negb_true_iff, Qltb_ge, <- Zle_Qle.
    assert (- n / 100 >= - hi) by (apply Z.le_ge, Z.div_le_lower_bound; lia). lia.
Qed.

Lemma fround2_between lo hi f :
  0 <= lo -> hi <= 100 ->
  le (PyInt lo) (PyFloat f) = true -> le (PyFloat f) (PyInt hi) = true ->
  le (PyInt lo) (PyFloat (fround2 f)) = true /\
  le (PyFloat (fround2 f)) (PyInt hi) = true.
Proof.
  intros Hlo Hhi H0 H1. destruct f as [s|s| |s m e]; try done.
  unfold le in H0, H1; simpl in H0, H1.
  rewrite negb_true_iff, Qltb_ge in H0, H1.
  assert (0 <= inject_Z lo)%Q as Hlo'.
  { change 0%Q with (inject_Z 0). by rewrite <- Zle_Qle. }
  destruct s.
  { pose proof (Qvalue_neg m e). lra. }
  pose proof (round_half_even_between (100 * lo) (100 * hi) (Qvalue false m e * 100))
    as Hr.
  rewrite !inject_Z_mult in Hr. change (inject_Z 100) with 100%Q in Hr.
  specialize (Hr ltac:(lra) ltac:(lra)).
  simpl. destruct (round_half_even _) as [|n|n] eqn:E.
  - assert (lo = 0) as -> by lia.
    split; [done|]. unfold le. simpl. rewrite negb_true_iff, Qltb_ge.
    change 0%Q with (inject_Z 0). rewrite <- Zle_Qle. lia.
  - apply hundredths_between; simpl; lia.
  - lia.
Qed.

Lemma round2_between lo hi x :
  0 <= lo -> hi <= 100 ->
  le (PyInt lo) x = true -> le x (PyInt hi) = true ->
  le (PyInt lo) (round2 x) = true /\ le (round2 x) (PyInt hi) = true.
Proof. destruct x; [done|]. apply fround2_between. Qed.

End BandFacts.

(** ** Lists *)

Section ListFacts.
Context {A : Type}.

Lemma filter_sublist (f : A -> bool) (l : list A) : sublist (List.filter f l) l.
Proof.
  induction l as [|a l IH]; simpl; [constructor|].
  destruct (f a); by constructor.
Qed.

Lemma elem_of_filter (f : A -> bool) (l : list A) (x : A) :
  x ∈ List.filter f l <-> x ∈ l /\ f x = true.
Proof. by rewrite !list_elem_of_In, filter_In. Qed.
End ListFacts.

(** ** The scoring engine *)

Section EngineFacts.

Lemma contains_empty s : PyStr.contains "" s = true.
Proof. by destruct s. Qed.

Lemma py_sum_ones {A} (l : list A) :
  py_sum (map (fun _ => 1) l) = Z.of_nat (length l).
Proof.
  unfold py_sum.
  enough (forall acc, fold_left Z.add (map (fun _ => 1) l) acc = acc + Z.of_nat (length l))
    as H by (rewrite H; lia).
  induction l as [|a l IH]; intros acc; simpl length; simpl fold_left.
  - lia.
  - rewrite IH. lia.
Qed.

Lemma matched_count_length resume_text required_skills :
  matched_count resume_text required_skills
  = Z.of_nat (length (matched resume_text required_skills)).
Proof. apply py_sum_ones. Qed.

Lemma matched_count_bounds resume_text required_skills :
  0 <= matched_count resume_text required_skills <= skills_total required_skills.
Proof.
  rewrite matched_count_length. unfold skills_total, matched.
  pose proof (List.filter_length_le (skill_in_resume resume_text) required_skills).
  lia.
Qed.

Lemma of_int_100_sign : sign_is false (of_int 100).
Proof. reflexivity. Qed.

Lemma skills_raw_range resume_text required_skills :
  in_range (skills_raw resume_text required_skills).
Proof.
  apply py_min_100_range.
  repeat apply fmul_sign; try reflexivity.
  apply int_truediv_sign, matched_count_bounds.
Qed.

Lemma semantic_raw_range resume_text job_description :
  in_range (semantic_raw resume_text job_description).
Proof.
  apply py_min_100_range.
  apply fmul_sign; [|reflexivity].
  apply int_truediv_sign. unfold overlap. lia.
Qed.

Lemma overall_range resume_text job_description required_skills :
  in_range (overall resume_text job_description required_skills).
Proof. apply clamp_range. Qed.

End EngineFacts.

Section SeedFacts.

Lemma hex_digit_value n : 0 <= n < 16 -> hex_value (MD5.hex_digit n) = n.
Proof.
  intros Hn.
  assert (forallb (fun k => hex_value (MD5.hex_digit (Z.of_nat k)) =? Z.of_nat k)
            (seq 0 16) = true) as Hall by reflexivity.
  rewrite forallb_forall in Hall.
  specialize (Hall (Z.to_nat n)).
  rewrite Z2Nat.id in Hall by lia.
  apply Z.eqb_eq, Hall, in_seq. lia.
Qed.

Lemma byte_high b : 0 <= b < 256 -> 0 <= Z.shiftr b 4 < 16.
Proof.
  intros Hb. rewrite Z.shiftr_div_pow2 by lia. change (2 ^ 4) with 16.
  split; [apply Z.div_pos; lia | apply Z.div_lt_upper_bound; lia].
Qed.

Lemma byte_low b : 0 <= Z.land b 15 < 16.
Proof.
  change 15 with (Z.ones 4). rewrite Z.land_ones by lia.
  apply Z.mod_pos_bound. lia.
Qed.

Lemma byte_split b : 0 <= b < 256 -> Z.shiftr b 4 * 16 + Z.land b 15 = b.
Proof.
  intros Hb. rewrite Z.shiftr_div_pow2 by lia.
  change 15 with (Z.ones 4). rewrite Z.land_ones by lia.
  change (2 ^ 4) with 16. pose proof (Z.div_mod b 16). lia.
Qed.

Lemma le_byte x : 0 <= Z.land x 255 < 256.
Proof.
  change 255 with (Z.ones 8). rewrite Z.land_ones by lia.
  apply Z.mod_pos_bound. lia.
Qed.

(** The seed the code parses out of the hexadecimal text is the integer
    the first four digest bytes spell. *)
Lemma seed_bytes resume_text : seed resume_text = Spec.seed resume_text.
Proof.
  unfold seed, Spec.seed, MD5.hexdigest, MD5.digest.
  destruct (MD5.blocks _ _ _) as [a b c d].
  cbn [MD5.le_bytes app flat_map MD5.hex_byte string_of_list_ascii String.substring].
  unfold int_of_hex. cbn [list_ascii_of_string fold_left].
  pose proof (le_byte a) as H0.
  pose proof (le_byte (Z.shiftr a 8)) as H1.
  pose proof (le_byte (Z.shiftr (Z.shiftr a 8) 8)) as H2.
  pose proof (le_byte (Z.shiftr (Z.shiftr (Z.shiftr a 8) 8) 8)) as H3.
  rewrite !hex_digit_value by (apply byte_high || apply byte_low; done).
  pose proof (byte_split _ H0). pose proof (byte_split _ H1).
  pose proof (byte_split _ H2). pose proof (byte_split _ H3).
  lia.
Qed.

Lemma seed_32_bits resume_text : 0 <= seed resume_text < 2 ^ 32.
Proof.
  rewrite seed_bytes. unfold Spec.seed, MD5.digest.
  destruct (MD5.blocks _ _ _) as [a b c d].
  cbn [MD5.le_bytes app].
  pose proof (le_byte a) as H0.
  pose proof (le_byte (Z.shiftr a 8)) as H1.
  pose proof (le_byte (Z.shiftr (Z.shiftr a 8) 8)) as H2.
  pose proof (le_byte (Z.shiftr (Z.shiftr (Z.shiftr a 8) 8) 8)) as H3.
  change (2 ^ 32) with 4294967296. lia.
Qed.

Lemma variance_range resume_text :
  le (PyFloat lit_minus_0_1) (PyFloat (variance resume_text)) = true /\
  le (PyFloat (variance resume_text)) (PyFloat lit_0_1) = true.
Proof.
  unfold variance.
  pose proof (Z.mod_pos_bound (seed resume_text) 20 ltac:(lia)) as Hk.
  assert (forallb (fun k => le (PyFloat lit_minus_0_1) (PyFloat (int_truediv (Z.of_nat k - 10) 100))
                          && le (PyFloat (int_truediv (Z.of_nat k - 10) 100)) (PyFloat lit_0_1))
            (seq 0 20) = true) as Hall by (vm_compute; reflexivity).
  rewrite forallb_forall in Hall.
  specialize (Hall (Z.to_nat (seed resume_text mod 20))).
  rewrite Z2Nat.id in Hall by lia.
  apply andb_prop, Hall, in_seq. lia.
Qed.

End SeedFacts.

Section WordFacts.

Lemma elem_of_words_of text w :
  w ∈ words_of text <-> w ∈ PyStr.split text /\ 3 < PyStr.len w.
Proof.
  unfold words_of. rewrite elem_of_list_to_set, !list_elem_of_In, filter_In.
  by rewrite Z.ltb_lt.
Qed.

Lemma elem_of_tokens text w :
  w ∈ Spec.tokens text <-> w ∈ words_of (PyStr.lower text).
Proof.
  unfold Spec.tokens, words_of.
  by rewrite elem_of_remove_dups, elem_of_list_to_set.
Qed.

Lemma NoDup_tokens text : NoDup (Spec.tokens text).
Proof. apply NoDup_remove_dups. Qed.

Lemma size_words_of text :
  size (words_of (PyStr.lower text)) = length (Spec.tokens text).
Proof.
  rewrite <- (size_list_to_set (C := gset string)) by apply NoDup_tokens.
  f_equal. apply set_eq. intros w.
  by rewrite elem_of_list_to_set, elem_of_tokens.
Qed.

Lemma overlap_tokens resume_text job_description :
  overlap resume_text job_description = Spec.overlap resume_text job_description.
Proof.
  unfold overlap, Spec.overlap, resume_words, jd_words, resume_lower, jd_lower.
  f_equal.
  rewrite <- (size_list_to_set (C := gset string)).
  - f_equal. apply set_eq. intros w.
    rewrite elem_of_intersection, elem_of_list_to_set, list_elem_of_In, filter_In.
    rewrite <- list_elem_of_In, bool_decide_eq_true.
    unfold Spec.resumeWords, Spec.jdWords. by rewrite !elem_of_tokens.
  - apply NoDup_ListNoDup, List.NoDup_filter, NoDup_ListNoDup, NoDup_tokens.
Qed.

End WordFacts.

Section ScoreFacts.

Variable resume_text job_description : string.
Variable required_skills : list string.

Lemma matched_count_spec :
  matched_count resume_text required_skills
  = Spec.matchedCount resume_text required_skills.
Proof. apply matched_count_length. Qed.

Lemma skills_raw_spec :
  skills_raw resume_text required_skills
  = Spec.skillsScore resume_text required_skills.
Proof. unfold skills_raw, Spec.skillsScore. by rewrite matched_count_spec. Qed.

Lemma semantic_raw_spec :
  semantic_raw resume_text job_description
  = Spec.semanticScore resume_text job_description.
Proof.
  unfold semantic_raw, Spec.semanticScore.
  rewrite overlap_tokens. unfold jd_words, jd_lower.
  by rewrite size_words_of.
Qed.

Lemma overall_base_spec :
  overall_base resume_text job_description required_skills
  = Spec.overallBase resume_text job_description required_skills.
Proof.
  unfold overall_base, Spec.overallBase, _score_from_components.
  by rewrite skills_raw_spec, semantic_raw_spec.
Qed.

Lemma overall_spec :
  overall resume_text job_description required_skills
  = Spec.overall resume_text job_description required_skills.
Proof.
  unfold overall, Spec.overall, Spec.clamp, variance, Spec.variance.
  by rewrite overall_base_spec, seed_bytes.
Qed.

End ScoreFacts.

(** Reads a field off the record [fallback_score] builds. *)
Ltac fields :=
  cbv zeta;
  repeat match goal with b := fallback_score _ _ _ |- _ => subst b end;
  cbn [fallback_score overall_score skills_score semantic_score found_skills
       matched_skills missing_skills explain strengths gaps recommendation].

(** ** Evaluations *)

(** The test suite of RFC 1321. *)
Example md5_empty : MD5.hexdigest (PyStr.encode "") = "d41d8cd98f00b204e9800998ecf8427e".
Proof. reflexivity. Qed.

Example md5_abc : MD5.hexdigest (PyStr.encode "abc") = "900150983cd24fb0d6963f7d28e17f72".
Proof. reflexivity. Qed.

Example md5_message_digest :
  MD5.hexdigest (PyStr.encode "message digest") = "f96b697d7cb7938d525a2f31aaf161d0".
Proof. reflexivity. Qed.

(** The literal [1.2] is the double 0x1.3333333333333p+0. *)
Example lit_1_2_bits : lit_1_2 = S754_finite false 5404319552844595 (-52).
Proof. reflexivity. Qed.

(** [round(0.125, 2)] is 0.12, a tie going to the even hundredth, and
    [round(2.675, 2)] is 2.67, the double 2.675 being below the tie. *)
Example round_tie : fround2 (int_truediv 125 1000) = int_truediv 12 100.
Proof. reflexivity. Qed.

Example round_below_tie : fround2 (int_truediv 2675 1000) = int_truediv 267 100.
Proof. reflexivity. Qed.

Example split_example :
  PyStr.split "  Senior  Python developer " = ["Senior"; "Python"; "developer"].
Proof. reflexivity. Qed.

(** One skill out of seven: 17.142857142857142 before rounding, 17.14
    after. *)
Example one_of_seven :
  let skills := ["a"; "b"; "c"; "d"; "e"; "f"; "g"] in
  skills_raw "a" skills = PyFloat (S754_finite false 4825285315039817 (-48)) /\
  skills_score (fallback_score "a" "" skills) = PyFloat (int_truediv 1714 100).
Proof. split; reflexivity. Qed.

Example explanation_example :
  explain (fallback_score "Experienced Python developer with Django and REST skills"
             "Looking for python developer with django experience"
             ["Python"; "Django"; "Kubernetes"])
  = {| strengths := ["Matched 2/3 required skills"];
       gaps := ["Kubernetes"];
       recommendation := "Highly Recommended" |}.
Proof. reflexivity. Qed.

(** ** Claims on the scoring engine *)

(** C1. The skills score computed at line 35 is
    [min(100, (matchedCount / max(1, |requiredSkills|)) * 100 * 1.2)] with
    [matchedCount] the number of skills whose lowercase form is a substring
    of the lowercased resume; the semantic score computed at line 41 is
    [min(100, (overlap / max(1, |jdWords|)) * 100)] over the sets of tokens
    longer than three characters; the two returned fields are these values
    rounded to two decimals. No required skill gives a skills score of 0 and
    an empty job description gives a semantic score of 0. *)
Theorem skills_and_semantic_scores resume_text job_description required_skills :
  let b := fallback_score resume_text job_description required_skills in
  matched_count resume_text required_skills
    = Spec.matchedCount resume_text required_skills /\
  skills_raw resume_text required_skills
    = Spec.skillsScore resume_text required_skills /\
  (forall w, w ∈ resume_words resume_text <-> w ∈ Spec.resumeWords resume_text) /\
  (forall w, w ∈ jd_words job_description <-> w ∈ Spec.jdWords job_description) /\
  overlap resume_text job_description = Spec.overlap resume_text job_description /\
  Z.of_nat (size (jd_words job_description))
    = Z.of_nat (length (Spec.jdWords job_description)) /\
  semantic_raw resume_text job_description
    = Spec.semanticScore resume_text job_description /\
  skills_score b = round2 (Spec.skillsScore resume_text required_skills) /\
  semantic_score b = round2 (Spec.semanticScore resume_text job_description) /\
  skills_score (fallback_score resume_text job_description [])
    = PyFloat (S754_zero false) /\
  semantic_score (fallback_score resume_text "" required_skills)
    = PyFloat (S754_zero false).
Proof.
  intros b.
  split; [apply matched_count_spec|].
  split; [apply skills_raw_spec|].
  split; [intros w; symmetry; apply elem_of_tokens|].
  split; [intros w; symmetry; apply elem_of_tokens|].
  split; [apply overlap_tokens|].
  split; [unfold jd_words, jd_lower; by rewrite size_words_of|].
  split; [apply semantic_raw_spec|].
  split; [fields; by rewrite skills_raw_spec|].
  split; [fields; by rewrite semantic_raw_spec|].
  split; [reflexivity|].
  fields. unfold semantic_raw, overlap, jd_words, jd_lower.
  change (PyStr.lower "") with "".
  change (words_of "") with (∅ : gset string).
  rewrite intersection_empty_r_L, size_empty. reflexivity.
Qed.

(** C2. The length bonus is [min(20, len(resume_text) / 500)], the overall
    score before variance is
    [min(100, skills*0.6 + semantic*0.4 + bonus)], the seed is the integer
    the first eight hexadecimal digits of the MD5 digest spell and fits 32
    bits, the variance [((seed mod 20) - 10) / 100] lies between -0.10 and
    +0.10, the overall score is [clamp(overall * (1 + variance), 0, 100)],
    and the three returned scores are rounded to two decimals. *)
Theorem overall_score_steps resume_text job_description required_skills :
  let b := fallback_score resume_text job_description required_skills in
  length_bonus resume_text = Spec.lengthBonus resume_text /\
  overall_base resume_text job_description required_skills
    = Spec.overallBase resume_text job_description required_skills /\
  seed resume_text = Spec.seed resume_text /\
  0 <= seed resume_text < 2 ^ 32 /\
  variance resume_text = Spec.variance resume_text /\
  le (PyFloat lit_minus_0_1) (PyFloat (variance resume_text)) = true /\
  le (PyFloat (variance resume_text)) (PyFloat lit_0_1) = true /\
  overall resume_text job_description required_skills
    = Spec.overall resume_text job_description required_skills /\
  overall_score b
    = round2 (Spec.overall resume_text job_description required_skills) /\
  skills_score b = round2 (Spec.skillsScore resume_text required_skills) /\
  semantic_score b = round2 (Spec.semanticScore resume_text job_description).
Proof.
  intros b.
  split; [reflexivity|].
  split; [apply overall_base_spec|].
  split; [apply seed_bytes|].
  split; [apply seed_32_bits|].
  split; [unfold variance, Spec.variance; by rewrite seed_bytes|].
  split; [apply variance_range|].
  split; [apply variance_range|].
  split; [apply overall_spec|].
  split; [fields; by rewrite overall_spec|].
  split; [fields; by rewrite skills_raw_spec|].
  fields; by rewrite semantic_raw_spec.
Qed.

(** C6. [matched_skills] and [missing_skills] partition the required skills:
    as sets they are disjoint and their union is the set of required
    skills, and a required skill is in the first exactly when its lowercase
    form is a substring of the lowercased resume, in the second exactly
    when it is not. *)
Theorem skills_partition resume_text job_description required_skills :
  let b := fallback_score resume_text job_description required_skills in
  let matched_set : gset string := list_to_set (matched_skills b) in
  let missing_set : gset string := list_to_set (missing_skills b) in
  matched_set ## missing_set /\
  matched_set ∪ missing_set = list_to_set required_skills /\
  (forall skill, skill ∈ required_skills ->
     (skill ∈ matched_skills b <->
        PyStr.contains (PyStr.lower skill) (PyStr.lower resume_text) = true) /\
     (skill ∈ missing_skills b <->
        PyStr.contains (PyStr.lower skill) (PyStr.lower resume_text) = false) /\
     (skill ∈ matched_skills b <-> skill ∉ missing_skills b)).
Proof.
  intros b matched_set missing_set.
  assert (forall skill, skill ∈ matched_skills b <->
            skill ∈ required_skills /\ skill_in_resume resume_text skill = true) as Hm.
  { intros skill. apply elem_of_filter. }
  assert (forall skill, skill ∈ missing_skills b <->
            skill ∈ required_skills /\ skill_in_resume resume_text skill = false) as Hx.
  { intros skill. fields. unfold missing. by rewrite elem_of_filter, negb_true_iff. }
  split; [|split].
  - apply elem_of_disjoint. intros skill.
    unfold matched_set, missing_set. rewrite !elem_of_list_to_set, Hm, Hx.
    intros [_ H1] [_ H2]. congruence.
  - apply set_eq. intros skill.
    unfold matched_set, missing_set.
    rewrite elem_of_union, !elem_of_list_to_set, Hm, Hx.
    destruct (skill_in_resume resume_text skill); intuition congruence.
  - intros skill Hin. rewrite Hm, Hx.
    change (PyStr.contains (PyStr.lower skill) (PyStr.lower resume_text))
      with (skill_in_resume resume_text skill).
    destruct (skill_in_resume resume_text skill); intuition congruence.
Qed.

(** C7. Whatever the texts and the skills are, the three returned scores
    lie between 0 and 100. *)
Theorem scores_within_bounds resume_text job_description required_skills :
  let b := fallback_score resume_text job_description required_skills in
  in_range (overall_score b) /\ in_range (skills_score b) /\ in_range (semantic_score b).
Proof.
  fields. split; [|split]; apply round2_range.
  - apply overall_range.
  - apply skills_raw_range.
  - apply semantic_raw_range.
Qed.

(** C9. The explanation is the reference one, the thresholds being taken
    on [overall], the clamped value of line 51, before it is rounded for
    the [overall_score] field: the recommendation is Highly Recommended
    exactly from 80 on, Recommended from 60 to below 80, Maybe from 40 to
    below 60 and Not Recommended below 40. The [overall_score] returned
    beside it is that value rounded to two decimals and lies in the band of
    the label with both bounds included. [strengths] is the single
    sentence "Matched m/total required skills", and [gaps] lists, in input
    order, the required skills whose lowercase form is no substring of the
    lowercased resume. *)
Theorem explanation_matches_reference resume_text job_description required_skills :
  let b := fallback_score resume_text job_description required_skills in
  let total := overall resume_text job_description required_skills in
  recommendation (explain b) = Spec.label (Spec.recommendation total) /\
  (Spec.recommendation total = Spec.HighlyRecommended <-> le (PyInt 80) total = true) /\
  (Spec.recommendation total = Spec.Recommended <->
     le (PyInt 60) total = true /\ lt total (PyInt 80) = true) /\
  (Spec.recommendation total = Spec.Maybe <->
     le (PyInt 40) total = true /\ lt total (PyInt 60) = true) /\
  (Spec.recommendation total = Spec.NotRecommended <-> lt total (PyInt 40) = true) /\
  overall_score b = round2 total /\
  (Spec.recommendation total = Spec.HighlyRecommended ->
     le (PyInt 80) (overall_score b) = true) /\
  (Spec.recommendation total = Spec.Recommended ->
     le (PyInt 60) (overall_score b) = true /\ le (overall_score b) (PyInt 80) = true) /\
  (Spec.recommendation total = Spec.Maybe ->
     le (PyInt 40) (overall_score b) = true /\ le (overall_score b) (PyInt 60) = true) /\
  (Spec.recommendation total = Spec.NotRecommended ->
     le (overall_score b) (PyInt 40) = true) /\
  strengths (explain b) = Spec.strengths resume_text required_skills /\
  gaps (explain b) = Spec.gaps resume_text required_skills /\
  sublist (gaps (explain b)) required_skills /\
  (forall skill, skill ∈ gaps (explain b) <->
     skill ∈ required_skills /\
     PyStr.contains (PyStr.lower skill) (PyStr.lower resume_text) = false).
Proof.
  intros b total.
  pose proof (overall_range resume_text job_description required_skills) as [H0 H100].
  pose proof (le_not_nan _ _ H0) as [_ Hnan]. fold total in H0, H100, Hnan.
  assert (forall z, le (PyInt z) total = false <-> lt total (PyInt z) = true) as Hlt.
  { intros z; split; [by apply le_false_lt | apply lt_not_le]. }
  assert (forall z, le (PyInt z) total = false -> le total (PyInt z) = true) as Hle.
  { intros z Hz. by apply lt_le, le_false_lt. }
  split; [|split; [|split; [|split; [|split]]]].
  - fields. unfold recommend, Spec.recommendation, ge. fold total.
    by destruct (le (PyInt 80) total), (le (PyInt 60) total), (le (PyInt 40) total).
  - unfold Spec.recommendation.
    destruct (threshold_bands total) as [(E1&E2&E3)|[(E1&E2&E3)|[(E1&E2&E3)|(E1&E2&E3)]]];
      rewrite ?E1, ?E2, ?E3; intuition congruence.
  - unfold Spec.recommendation. rewrite <- Hlt.
    destruct (threshold_bands total) as [(E1&E2&E3)|[(E1&E2&E3)|[(E1&E2&E3)|(E1&E2&E3)]]];
      rewrite ?E1, ?E2, ?E3; intuition congruence.
  - unfold Spec.recommendation. rewrite <- Hlt.
    destruct (threshold_bands total) as [(E1&E2&E3)|[(E1&E2&E3)|[(E1&E2&E3)|(E1&E2&E3)]]];
      rewrite ?E1, ?E2, ?E3; intuition congruence.
  - unfold Spec.recommendation. rewrite <- Hlt.
    destruct (threshold_bands total) as [(E1&E2&E3)|[(E1&E2&E3)|[(E1&E2&E3)|(E1&E2&E3)]]];
      rewrite ?E1, ?E2, ?E3; intuition congruence.
  - split; [reflexivity|].
    change (overall_score b) with (round2 total).
    split; [|split; [|split; [|split; [|split; [|split; [|split]]]]]].
    + unfold Spec.recommendation.
      destruct (threshold_bands total)
        as [(E1&E2&E3)|[(E1&E2&E3)|[(E1&E2&E3)|(E1&E2&E3)]]];
        rewrite ?E1, ?E2, ?E3; try discriminate.
      intros _. by apply (round2_between 80 100).
    + unfold Spec.recommendation.
      destruct (threshold_bands total)
        as [(E1&E2&E3)|[(E1&E2&E3)|[(E1&E2&E3)|(E1&E2&E3)]]];
        rewrite ?E1, ?E2, ?E3; try discriminate.
      intros _. apply (round2_between 60 80); auto; lia.
    + unfold Spec.recommendation.
      destruct (threshold_bands total)
        as [(E1&E2&E3)|[(E1&E2&E3)|[(E1&E2&E3)|(E1&E2&E3)]]];
        rewrite ?E1, ?E2, ?E3; try discriminate.
      intros _. apply (round2_between 40 60); auto; lia.
    + unfold Spec.recommendation.
      destruct (threshold_bands total)
        as [(E1&E2&E3)|[(E1&E2&E3)|[(E1&E2&E3)|(E1&E2&E3)]]];
        rewrite ?E1, ?E2, ?E3; try discriminate.
      intros _. apply (round2_between 0 40); auto; lia.
    + fields. unfold strength, Spec.strengths, Spec.matchedCount.
      rewrite matched_count_length. reflexivity.
    + reflexivity.
    + apply filter_sublist.
    + intros skill. fields. unfold missing. rewrite elem_of_filter, negb_true_iff.
      reflexivity.
Qed.

(** The thresholds do not hold of the score that is returned. The resume
    "Python experience years" has an overall value just below 40: it is
    returned as 40.0, which the reference labels Maybe, with the
    recommendation "Not Recommended". *)
Lemma explanation_counterexample :
  overall_score (fallback_score boundary_resume boundary_job boundary_skills)
  = PyFloat (of_int 40) /\
  le (PyInt 40)
     (overall_score (fallback_score boundary_resume boundary_job boundary_skills))
  = true /\
  lt (overall_score (fallback_score boundary_resume boundary_job boundary_skills))
     (PyInt 60)
  = true /\
  Spec.recommendation
    (overall_score (fallback_score boundary_resume boundary_job boundary_skills))
  = Spec.Maybe /\
  recommendation (explain (fallback_score boundary_resume boundary_job boundary_skills))
  = "Not Recommended" /\
  lt (overall boundary_resume boundary_job boundary_skills) (PyInt 40) = true.
Proof. vm_compute. repeat split. Qed.

(** C10. An empty string among the required skills always counts as
    matched, since it is a substring of every text; on the empty resume
    with the single skill [""] the count is 1 and the skills score is
    positive. *)
Theorem empty_skill_always_matches resume_text job_description required_skills :
  "" ∈ required_skills ->
  "" ∈ matched_skills (fallback_score resume_text job_description required_skills) /\
  ("" ∉ missing_skills (fallback_score resume_text job_description required_skills)) /\
  1 <= matched_count resume_text required_skills /\
  matched_count "" [""] = 1 /\
  lt (PyInt 0) (skills_score (fallback_score "" job_description [""])) = true.
Proof.
  intros Hin.
  assert ("" ∈ matched resume_text required_skills) as Hm.
  { apply elem_of_filter. split; [done|]. apply contains_empty. }
  split; [done|]. split; [|split; [|split]].
  - fields. unfold missing. rewrite elem_of_filter.
    unfold skill_in_resume. change (PyStr.lower "") with "". rewrite contains_empty. by intros [_ ?].
  - rewrite matched_count_length.
    destruct (matched resume_text required_skills); [by apply elem_of_nil in Hm|].
    simpl length. lia.
  - reflexivity.
  - reflexivity.
Qed.

Lemma empty_skill_always_matches_witness :
  "" ∈ [""] /\
  "" ∈ matched_skills (fallback_score "" "" [""]) /\
  ("" ∉ missing_skills (fallback_score "" "" [""])) /\
  1 <= matched_count "" [""] /\
  matched_count "" [""] = 1 /\
  lt (PyInt 0) (skills_score (fallback_score "" "" [""])) = true.
Proof.
  split; [constructor|].
  apply (empty_skill_always_matches "" "" [""]). constructor.
Defined.

(** ** Dictionaries *)

Section DictFacts.

Lemma get_set k k' v d :
  Dict.get k (Dict.set k' v d) = if String.eqb k k' then Some v else Dict.get k d.
Proof.
  induction d as [|[k0 v0] d IH]; simpl.
  - reflexivity.
  - destruct (String.eqb k' k0) eqn:E0; simpl.
    + apply String.eqb_eq in E0 as ->. by destruct (String.eqb k k0).
    + rewrite IH. destruct (String.eqb k k0) eqn:E1, (String.eqb k k') eqn:E2;
        try reflexivity.
      apply String.eqb_eq in E1, E2. subst.
      by rewrite String.eqb_refl in E0.
Qed.

Lemma get_update_other k d other :
  k ∉ Dict.keys other -> Dict.get k (Dict.update d other) = Dict.get k d.
Proof.
  unfold Dict.update, Dict.keys. revert d.
  induction other as [|[k' v] other IH]; intros d Hk; simpl.
  - reflexivity.
  - simpl in Hk. apply not_elem_of_cons in Hk as [Hne Hk].
    rewrite IH by done. rewrite get_set.
    apply String.eqb_neq in Hne. by rewrite Hne.
Qed.

End DictFacts.

(** ** The coordinator *)

Section GatherFacts.

Variable format_exc : exn -> string.
Variable tasks : list (pyval * pyval * pyval).

Lemma finish_length slots i :
  length (finish format_exc tasks slots i) = length slots.
Proof. unfold finish. destruct (tasks !! i); [apply length_insert | done]. Qed.

Lemma finish_all_length schedule slots :
  length (fold_left (finish format_exc tasks) schedule slots) = length slots.
Proof.
  revert slots. induction schedule as [|i schedule IH]; intros slots; simpl.
  - done.
  - by rewrite IH, finish_length.
Qed.

(** A slot that was filled with its result stays as it is. *)
Lemma finish_all_filled schedule slots i t :
  tasks !! i = Some t ->
  slots !! i = Some (Some (run_task format_exc t)) ->
  fold_left (finish format_exc tasks) schedule slots !! i
  = Some (Some (run_task format_exc t)).
Proof.
  intros Ht. revert slots.
  induction schedule as [|j schedule IH]; intros slots Hs; simpl; [done|].
  apply IH. unfold finish.
  destruct (tasks !! j) as [u|] eqn:Hj; [|done].
  destruct (decide (j = i)) as [->|Hne].
  - rewrite Ht in Hj. injection Hj as <-.
    apply list_lookup_insert_eq. by eapply lookup_lt_Some.
  - by rewrite list_lookup_insert_ne.
Qed.

(** A worker that is in the schedule has filled its slot at the end. *)
Lemma finish_all_scheduled schedule slots i t :
  tasks !! i = Some t -> i ∈ schedule -> (i < length slots)%nat ->
  fold_left (finish format_exc tasks) schedule slots !! i
  = Some (Some (run_task format_exc t)).
Proof.
  intros Ht. revert slots.
  induction schedule as [|j schedule IH]; intros slots Hin Hlen; simpl.
  - by apply elem_of_nil in Hin.
  - destruct (decide (j = i)) as [->|Hne].
    + apply finish_all_filled; [done|]. unfold finish. rewrite Ht.
      by apply list_lookup_insert_eq.
    + apply IH.
      * apply elem_of_cons in Hin as [->|]; done.
      * by rewrite finish_length.
Qed.

Lemma all_finish_elem schedule n i :
  all_finish schedule n = true -> (i < n)%nat -> i ∈ schedule.
Proof.
  unfold all_finish. rewrite forallb_forall. intros Hall Hi.
  specialize (Hall i). rewrite in_seq in Hall.
  specialize (Hall ltac:(lia)).
  apply existsb_exists in Hall as (j & Hj & Heq).
  apply Nat.eqb_eq in Heq as ->. by apply list_elem_of_In.
Qed.

Lemma mapM_id_Some {A} (l : list A) : mapM id (Some <$> l) = Some l.
Proof. by apply mapM_fmap_Some. Qed.

(** Once every worker has finished, [gather] returns the results in the
    order of the tasks, whatever the order they finished in. *)
Lemma gather_all_finish schedule :
  all_finish schedule (length tasks) = true ->
  gather format_exc schedule tasks = Some (map (run_task format_exc) tasks).
Proof.
  intros Hall. unfold gather.
  rewrite <- mapM_id_Some. f_equal.
  apply list_eq. intros i.
  destruct (tasks !! i) as [t|] eqn:Ht.
  - rewrite (finish_all_scheduled schedule _ i t); try done.
    + by rewrite list_lookup_fmap, list_lookup_fmap, Ht.
    + eapply all_finish_elem; [done|]. by eapply lookup_lt_Some.
    + rewrite length_replicate. by eapply lookup_lt_Some.
  - rewrite !list_lookup_fmap, Ht. simpl.
    apply lookup_ge_None. rewrite finish_all_length, length_replicate.
    by apply lookup_ge_None.
Qed.

End GatherFacts.

(** ** The sort *)


Section SortFacts.

Context {A : Type}.
Implicit Types (x y : num * A) (l : list (num * A)).

Abbreviation asc := Sorted.ascending.
Abbreviation desc := Sorted.descending.
Abbreviation ordered := Sorted.ordered.

Lemma insert_perm x l : Sorted.insert lt x l ≡ₚ x :: l.
Proof.
  induction l as [|y l IH]; simpl; [done|].
  destruct (lt (fst y) (fst x)); [|done].
  rewrite IH. apply Permutation_swap.
Qed.

Lemma sort_perm l : Sorted.sort lt l ≡ₚ l.
Proof.
  induction l as [|x l IH]; simpl; [done|].
  by rewrite insert_perm, IH.
Qed.

Lemma sort_reverse_perm l : Sorted.sort_reverse lt l ≡ₚ l.
Proof.
  unfold Sorted.sort_reverse.
  by rewrite <- Permutation_rev, sort_perm, <- Permutation_rev.
Qed.

Lemma insert_sorted x l :
  ordered x -> Forall ordered l ->
  StronglySorted asc l -> StronglySorted asc (Sorted.insert lt x l).
Proof.
  intros Hx Hl Hs. induction Hs as [|y l Hs IH Hy]; simpl.
  - repeat constructor.
  - apply Forall_cons in Hl as [Hoy Hl].
    destruct (lt (fst y) (fst x)) eqn:Hlt.
    + constructor; [by apply IH|].
      rewrite insert_perm. constructor; [|done].
      by apply lt_le.
    + assert (asc x y) as Hxy by (by apply not_lt_ge).
      constructor; [by constructor|].
      constructor; [done|].
      eapply Forall_impl; [exact Hy|].
      intros z Hyz. by eapply le_trans.
Qed.

Lemma sort_sorted l : Forall ordered l -> StronglySorted asc (Sorted.sort lt l).
Proof.
  induction l as [|x l IH]; intros Hl; simpl; [constructor|].
  apply Forall_cons in Hl as [Hx Hl].
  apply insert_sorted; [done| |by apply IH].
  by rewrite sort_perm.
Qed.

Lemma rev_sorted l : StronglySorted asc l -> StronglySorted desc (rev l).
Proof.
  induction 1 as [|x l Hs IH Hx]; simpl; [constructor|].
  apply StronglySorted_app_2; [|done|repeat constructor].
  intros y z Hy Hz. apply list_elem_of_singleton in Hz as ->.
  rewrite Forall_forall in Hx. apply Hx.
  apply list_elem_of_In, in_rev. by apply list_elem_of_In.
Qed.

(** The result of [sorted(..., reverse=True)] is in descending order. *)
Lemma sort_reverse_sorted l :
  Forall ordered l -> StronglySorted desc (Sorted.sort_reverse lt l).
Proof.
  intros Hl. apply rev_sorted, sort_sorted.
  by rewrite <- Permutation_rev.
Qed.

(** Stability: the elements of one rank come out in the order they went
    in. *)
Lemma filter_insert k x l :
  List.filter (fun z => eqb (fst z) k) (Sorted.insert lt x l)
  = List.filter (fun z => eqb (fst z) k) (x :: l).
Proof.
  induction l as [|y l IH]; [done|].
  cbn [Sorted.insert]. destruct (lt (fst y) (fst x)) eqn:Hlt; [|done].
  cbn [List.filter] in *. rewrite IH.
  destruct (eqb (fst y) k) eqn:Hy, (eqb (fst x) k) eqn:Hx; try done.
  by rewrite (same_rank_not_lt _ _ _ Hy Hx) in Hlt.
Qed.

Lemma filter_sort k l :
  List.filter (fun z => eqb (fst z) k) (Sorted.sort lt l)
  = List.filter (fun z => eqb (fst z) k) l.
Proof.
  induction l as [|x l IH]; [done|].
  cbn [Sorted.sort]. rewrite filter_insert. cbn [List.filter]. by rewrite IH.
Qed.

Lemma filter_sort_reverse k l :
  List.filter (fun z => eqb (fst z) k) (Sorted.sort_reverse lt l)
  = List.filter (fun z => eqb (fst z) k) l.
Proof.
  unfold Sorted.sort_reverse.
  by rewrite List.filter_rev, filter_sort, List.filter_rev, rev_involutive.
Qed.

End SortFacts.

(** ** Records of the batch *)

Section TypingFacts.

Lemma res_map_as_str skills :
  forallb is_str skills = true ->
  exists names, res_map (as_str "lower") skills = Ok names /\ skills = map VStr names.
Proof.
  induction skills as [|v skills IH]; simpl; intros H.
  - by exists [].
  - apply andb_prop in H as [Hv Hs]. destruct v; try done.
    destruct (IH Hs) as (names & -> & ->). by exists (s :: names).
Qed.

Lemma res_map_as_str_raise skills :
  forallb is_str skills = false ->
  exists v, v ∈ skills /\ is_str v = false /\
    res_map (as_str "lower") skills = Raise (no_attribute v "lower").
Proof.
  induction skills as [|v skills IH]; simpl; intros H; [done|].
  destruct (is_str v) eqn:Hv.
  - destruct (IH H) as (w & Hw & Hs & ->).
    exists w. split; [by right|]. split; [done|]. by destruct v.
  - exists v. split; [by left|]. split; [done|]. by destruct v.
Qed.

(** On arguments it can score the engine returns the score of the texts
    and names they carry. *)
Lemma engine_scorable resume_text job_description required_skills :
  scorable resume_text job_description required_skills = true ->
  exists r j names,
    resume_text = VStr r /\ job_description = VStr j /\
    py_iter required_skills = Ok (map VStr names) /\
    _fallback_score resume_text job_description required_skills
    = Ok (breakdown_dict (fallback_score r j names)).
Proof.
  unfold scorable, _fallback_score. intros Hs.
  destruct resume_text as [| | |r| |]; try done.
  destruct job_description as [| | |j| |]; try done.
  cbn [is_str andb] in Hs.
  destruct (py_iter required_skills) as [skills|e] eqn:Hiter; [|done].
  destruct (res_map_as_str skills Hs) as (names & Hmap & ->).
  exists r, j, names. cbn [as_str mbind res_bind]. by rewrite Hmap.
Qed.

(** On any other arguments it raises. *)
Lemma engine_not_scorable resume_text job_description required_skills :
  scorable resume_text job_description required_skills = false ->
  exists e, _fallback_score resume_text job_description required_skills = Raise e.
Proof.
  unfold scorable, _fallback_score. intros Hs.
  destruct resume_text as [| | |r| |]; try by eexists.
  destruct job_description as [| | |j| |]; try by eexists.
  cbn [is_str andb as_str mbind res_bind] in *.
  destruct (py_iter required_skills) as [skills|e]; cbn [mbind res_bind]; [|by eexists].
  destruct (res_map_as_str_raise skills Hs) as (v & _ & _ & ->). by eexists.
Qed.

End TypingFacts.

Section RecordFacts.

Variable format_exc : exn -> string.

(** A key that [rank] accepts is no NaN, and so is the default. *)
Lemma key_of_ordered record : value (key_of record) <> XNaN.
Proof.
  unfold key_of, rank.
  destruct (sort_key record) as [| b | x | s | l | d]; try done.
  destruct (value x) eqn:Hx; [done|by rewrite Hx..].
Qed.

(** The worker returns the dictionary of a score or the record of an
    error. *)
Lemma worker_cases resume_text job_description required_skills :
  (exists r j names,
     resume_text = VStr r /\ job_description = VStr j /\
     try_body resume_text job_description required_skills
     = Ok (breakdown_dict (fallback_score r j names))) \/
  (exists e, try_body resume_text job_description required_skills = Raise e).
Proof.
  unfold try_body, _fallback_score.
  destruct resume_text as [| | | r | |]; try by (right; eexists).
  destruct job_description as [| | | j | |]; try by (right; eexists).
  cbn [py_len as_str mbind res_bind].
  destruct (py_iter required_skills) as [skills|e]; [|right; by eexists].
  cbn [mbind res_bind].
  destruct (res_map (as_str "lower") skills) as [names|e]; [|right; by eexists].
  left. by exists r, j, names.
Qed.

Lemma merge_scored r b :
  merge (entry_item r) (breakdown_dict b) = (entry_item r ++ breakdown_dict b)%list.
Proof. reflexivity. Qed.

Lemma merge_errored r e :
  merge (entry_item r) (error_record format_exc e)
  = (entry_item r ++ error_record format_exc e)%list.
Proof. reflexivity. Qed.

Lemma in_range_not_nan x : in_range x -> value x <> XNaN.
Proof. intros [H _]. by apply le_not_nan in H as [_ ?]. Qed.

End RecordFacts.

Section WorkerFacts.

Variable format_exc : exn -> string.

(** On arguments the engine can score the worker returns the score. *)
Lemma process_scorable resume_text job_description required_skills :
  scorable resume_text job_description required_skills = true ->
  exists r j names,
    resume_text = VStr r /\ job_description = VStr j /\
    py_iter required_skills = Ok (map VStr names) /\
    _process_single_sync format_exc resume_text job_description required_skills
    = breakdown_dict (fallback_score r j names).
Proof.
  intros Hs.
  destruct (engine_scorable _ _ _ Hs) as (r & j & names & -> & -> & Hiter & Hrun).
  exists r, j, names. unfold _process_single_sync, try_body.
  cbn [py_len mbind res_bind]. by rewrite Hrun.
Qed.

(** On any other arguments it returns the record of the exception. *)
Lemma process_not_scorable resume_text job_description required_skills :
  scorable resume_text job_description required_skills = false ->
  exists e,
    try_body resume_text job_description required_skills = Raise e /\
    _process_single_sync format_exc resume_text job_description required_skills
    = error_record format_exc e.
Proof.
  intros Hs. destruct (engine_not_scorable _ _ _ Hs) as [e He].
  unfold _process_single_sync, try_body.
  destruct (py_len resume_text) as [n|e'] eqn:Hlen; cbn [mbind res_bind].
  - rewrite He. by exists e.
  - by exists e'.
Qed.

Lemma get_None_keys k d : Dict.get k d = None <-> k ∉ Dict.keys d.
Proof.
  induction d as [|[k' v] d IH]; simpl.
  - split; [intros _; apply not_elem_of_nil|done].
  - rewrite not_elem_of_cons, <- IH.
    destruct (String.eqb k k') eqn:E.
    + apply String.eqb_eq in E. split; [done|]. by intros [? _].
    + apply String.eqb_neq in E. by split; [|intros [_ ?]].
Qed.

Lemma get_update_written k d other :
  NoDup (Dict.keys other) -> k ∈ Dict.keys other ->
  Dict.get k (Dict.update d other) = Dict.get k other.
Proof.
  revert d.
  induction other as [|[k' v] other IH]; intros d Hnd Hk.
  - by apply elem_of_nil in Hk.
  - change (Dict.update d ((k', v) :: other))
      with (Dict.update (Dict.set k' v d) other).
    cbn [Dict.keys map fst] in Hnd, Hk. apply NoDup_cons in Hnd as [Hk' Hnd].
    cbn [Dict.get]. destruct (String.eqb k k') eqn:E.
    + apply String.eqb_eq in E as ->.
      rewrite get_update_other by done. rewrite get_set. by rewrite String.eqb_refl.
    + apply IH; [done|]. apply elem_of_cons in Hk as [->|Hk]; [|done].
      by rewrite String.eqb_refl in E.
Qed.

(** The worker writes no key twice. *)
Lemma process_keys_NoDup resume_text job_description required_skills :
  NoDup (Dict.keys (_process_single_sync format_exc resume_text job_description
                      required_skills)).
Proof.
  destruct (scorable resume_text job_description required_skills) eqn:Hs.
  - destruct (process_scorable _ _ _ Hs) as (r & j & names & _ & _ & _ & ->).
    apply NoDup_ListNoDup. repeat constructor; simpl; intuition discriminate.
  - destruct (process_not_scorable _ _ _ Hs) as (e & _ & ->).
    apply NoDup_ListNoDup. repeat constructor; simpl; intuition discriminate.
Qed.

Lemma batch_record_scorable r :
  request_scorable r = true ->
  exists rt jd names,
    batch_record format_exc r
    = (entry_item r ++ breakdown_dict (fallback_score rt jd names))%list.
Proof.
  unfold request_scorable, item_scorable, batch_record, run_task.
  destruct (task_of (entry_item r)) as [[rt jd] rs]. intros Hs.
  destruct (process_scorable rt jd rs Hs) as (r' & j' & names & _ & _ & _ & ->).
  exists r', j', names. apply merge_scored.
Qed.

Lemma batch_record_not_scorable r :
  request_scorable r = false ->
  exists e,
    request_outcome r = Raise e /\
    batch_record format_exc r = (entry_item r ++ error_record format_exc e)%list.
Proof.
  unfold request_scorable, item_scorable, batch_record, run_task, request_outcome.
  destruct (task_of (entry_item r)) as [[rt jd] rs]. intros Hs.
  destruct (process_not_scorable rt jd rs Hs) as (e & He & ->).
  exists e. split; [done|]. apply merge_errored.
Qed.

End WorkerFacts.

Section ItemFacts.

Variable format_exc : exn -> string.

(** The items of the entry point bring no outcome of their own. *)
Lemma entry_item_carries r : carries_no_outcome (entry_item r) = true.
Proof. reflexivity. Qed.

Lemma score_keys_NoDup : NoDup score_keys.
Proof. apply NoDup_ListNoDup. repeat constructor; simpl; intuition discriminate. Qed.

Lemma error_keys_NoDup : NoDup error_keys.
Proof. apply NoDup_ListNoDup. repeat constructor; simpl; intuition discriminate. Qed.

(** What the merge holds under a key, for a score and for an error. *)
Lemma get_merge_score it b k :
  Dict.get k (merge it (breakdown_dict b))
  = if bool_decide (k ∈ score_keys) then Dict.get k (breakdown_dict b)
    else Dict.get k it.
Proof.
  unfold merge. case_bool_decide as Hk.
  - apply get_update_written; [apply score_keys_NoDup|done].
  - by apply get_update_other.
Qed.

Lemma get_merge_error it e k :
  Dict.get k (merge it (error_record format_exc e))
  = if bool_decide (k ∈ error_keys) then Dict.get k (error_record format_exc e)
    else Dict.get k it.
Proof.
  unfold merge. case_bool_decide as Hk.
  - apply get_update_written; [apply error_keys_NoDup|done].
  - by apply get_update_other.
Qed.

(** The record of an item the engine can score, and of one it cannot. *)
Lemma item_record_scored it resume_text job_description required_skills :
  task_of it = (resume_text, job_description, required_skills) ->
  item_scorable it = true ->
  exists r j names,
    resume_text = VStr r /\ job_description = VStr j /\
    py_iter required_skills = Ok (map VStr names) /\
    _fallback_score resume_text job_description required_skills
    = Ok (breakdown_dict (fallback_score r j names)) /\
    item_record format_exc it = merge it (breakdown_dict (fallback_score r j names)).
Proof.
  unfold item_scorable, item_record, run_task. intros -> Hs.
  destruct (engine_scorable _ _ _ Hs) as (r & j & names & -> & -> & Hiter & Hrun).
  exists r, j, names. repeat split; try done.
  unfold _process_single_sync, try_body. cbn [py_len mbind res_bind].
  by rewrite Hrun.
Qed.

Lemma item_record_errored it resume_text job_description required_skills :
  task_of it = (resume_text, job_description, required_skills) ->
  item_scorable it = false ->
  exists e,
    try_body resume_text job_description required_skills = Raise e /\
    item_record format_exc it = merge it (error_record format_exc e).
Proof.
  unfold item_scorable, item_record, run_task. intros -> Hs.
  destruct (process_not_scorable format_exc _ _ _ Hs) as (e & He & ->).
  by exists e.
Qed.

(** The keys of a score and of an error that the statements look up. *)
Lemma overall_score_key : "overall_score" ∈ score_keys /\ "overall_score" ∉ error_keys.
Proof.
  unfold score_keys, error_keys. rewrite !list_elem_of_In. simpl.
  split; [tauto|intuition discriminate].
Qed.

Lemma error_key : "error" ∈ error_keys /\ "error" ∉ score_keys.
Proof.
  unfold score_keys, error_keys. rewrite !list_elem_of_In. simpl.
  split; [tauto|intuition discriminate].
Qed.

Lemma message_key : "message" ∈ error_keys.
Proof. unfold error_keys. rewrite list_elem_of_In. simpl. tauto. Qed.

Lemma get_score_written it b k :
  k ∈ score_keys -> Dict.get k (merge it (breakdown_dict b)) = Dict.get k (breakdown_dict b).
Proof. intros Hk. by rewrite get_merge_score, bool_decide_eq_true_2. Qed.

Lemma get_score_kept it b k :
  k ∉ score_keys -> Dict.get k (merge it (breakdown_dict b)) = Dict.get k it.
Proof. intros Hk. by rewrite get_merge_score, bool_decide_eq_false_2. Qed.

Lemma get_error_written it e k :
  k ∈ error_keys ->
  Dict.get k (merge it (error_record format_exc e))
  = Dict.get k (error_record format_exc e).
Proof. intros Hk. by rewrite get_merge_error, bool_decide_eq_true_2. Qed.

Lemma get_error_kept it e k :
  k ∉ error_keys -> Dict.get k (merge it (error_record format_exc e)) = Dict.get k it.
Proof. intros Hk. by rewrite get_merge_error, bool_decide_eq_false_2. Qed.

(** What the batch builds for an item that brings no outcome of its own is
    a scored record, ranked by a score of at least 0, or an errored record,
    ranked at -1. *)
Lemma item_record_kinds it :
  carries_no_outcome it = true ->
  (item_scorable it = true /\
   is_scored (item_record format_exc it) = true /\
   is_errored (item_record format_exc it) = false /\
   le (PyInt 0) (key_of (item_record format_exc it)) = true /\
   sort_key (item_record format_exc it) = VNum (key_of (item_record format_exc it)) /\
   Dict.get "overall_score" (item_record format_exc it)
   = Some (VNum (key_of (item_record format_exc it))) /\
   Dict.get "error" (item_record format_exc it) = None) \/
  (item_scorable it = false /\
   is_scored (item_record format_exc it) = false /\
   is_errored (item_record format_exc it) = true /\
   key_of (item_record format_exc it) = PyInt (-1) /\
   sort_key (item_record format_exc it) = VNum (PyInt (-1)) /\
   Dict.get "overall_score" (item_record format_exc it) = None /\
   Dict.get "error" (item_record format_exc it) = Some (VBool true) /\
   exists e, Dict.get "message" (item_record format_exc it) = Some (VStr (exn_str e))).
Proof.
  unfold carries_no_outcome. intros Hc.
  destruct (Dict.get "overall_score" it) eqn:Ho; [done|].
  destruct (Dict.get "error" it) eqn:He; [done|]. clear Hc.
  destruct (task_of it) as [[rt jd] rs] eqn:Ht.
  destruct overall_score_key as [Hos Hoe]. destruct error_key as [Hee Hes].
  destruct (item_scorable it) eqn:Hs.
  - left. destruct (item_record_scored it rt jd rs Ht Hs)
      as (r & j & names & _ & _ & _ & _ & ->).
    assert (in_range (overall_score (fallback_score r j names))) as Hb
      by apply round2_range, overall_range.
    revert Hb. generalize (fallback_score r j names). intros b Hb.
    assert (Dict.get "overall_score" (merge it (breakdown_dict b))
            = Some (VNum (overall_score b))) as Hget
      by (rewrite get_score_written by done; reflexivity).
    assert (Dict.get "error" (merge it (breakdown_dict b)) = None) as Herr
      by (rewrite get_score_kept by done; exact He).
    assert (rank (VNum (overall_score b)) = Some (overall_score b)) as Hrank.
    { cbn [rank]. pose proof (in_range_not_nan _ Hb).
      by destruct (value (overall_score b)). }
    assert (key_of (merge it (breakdown_dict b)) = overall_score b) as Hkey.
    { unfold key_of, sort_key, Dict.get_default. by rewrite Hget, Hrank. }
    unfold is_scored, is_errored, sort_key, Dict.get_default.
    rewrite Hkey, Hget, Herr.
    split; [done|]. split; [done|]. split; [done|]. split; [apply Hb|].
    split; [done|]. split; done.
  - right. destruct (item_record_errored it rt jd rs Ht Hs) as (e & _ & ->).
    assert (Dict.get "overall_score" (merge it (error_record format_exc e)) = None)
      as Hget by (rewrite get_error_kept by done; exact Ho).
    assert (Dict.get "error" (merge it (error_record format_exc e))
            = Some (VBool true)) as Herr
      by (rewrite get_error_written by done; reflexivity).
    unfold is_scored, is_errored, key_of, sort_key, Dict.get_default.
    rewrite Hget, Herr.
    split; [done|]. split; [done|]. split; [done|]. split; [done|].
    split; [done|]. split; [done|]. split; [done|].
    exists e. rewrite get_error_written by apply message_key. reflexivity.
Qed.

Lemma item_record_key it :
  carries_no_outcome it = true ->
  rank (sort_key (item_record format_exc it))
  = Some (key_of (item_record format_exc it)).
Proof.
  intros Hc.
  destruct (item_record_kinds it Hc)
    as [(_ & _ & _ & Hk & Hs & _)|(_ & _ & _ & Hk & Hs & _)].
  - rewrite Hs. cbn [rank].
    apply le_not_nan in Hk as [_ Hk].
    by destruct (value (key_of (item_record format_exc it))).
  - by rewrite Hs, Hk.
Qed.

End ItemFacts.

Section RankedFacts.

Lemma decorate_snd (records : list dict) :
  map snd (map (fun r => (key_of r, r)) records) = records.
Proof. rewrite map_map. simpl. apply map_id. Qed.

Lemma ranked_perm records : ranked records ≡ₚ records.
Proof.
  unfold ranked. rewrite <- (decorate_snd records) at 2.
  apply Permutation_map, sort_reverse_perm.
Qed.

Lemma ranked_decorated records p :
  In p (Sorted.sort_reverse lt (map (fun r => (key_of r, r)) records)) ->
  fst p = key_of (snd p).
Proof.
  intros Hp. apply (Permutation_in _ (sort_reverse_perm _)) in Hp.
  apply in_map_iff in Hp as (r & <- & _). reflexivity.
Qed.

(** The ranked records are in descending order of their keys. *)
Lemma ranked_sorted records :
  StronglySorted (fun a b => ge (key_of a) (key_of b) = true) (ranked records).
Proof.
  unfold ranked.
  pose proof (ranked_decorated records) as Hdec.
  assert (StronglySorted Sorted.descending
            (Sorted.sort_reverse lt (map (fun r => (key_of r, r)) records))) as Hs.
  { apply sort_reverse_sorted, Forall_forall. intros p Hp.
    apply list_elem_of_In, in_map_iff in Hp as (r & <- & _). apply key_of_ordered. }
  induction Hs as [|p l Hs IH Hp]; simpl; constructor.
  - apply IH. intros q Hq. apply Hdec. by right.
  - rewrite Forall_forall in Hp. apply Forall_forall. intros b Hb.
    apply list_elem_of_In, in_map_iff in Hb as (q & <- & Hq).
    unfold ge. rewrite <- (Hdec p) by (by left). rewrite <- (Hdec q) by (by right).
    apply Hp. by apply list_elem_of_In.
Qed.

(** The ranked records of one rank are in the order they had before. *)
Lemma ranked_stable k records :
  List.filter (same_rank k) (ranked records) = List.filter (same_rank k) records.
Proof.
  unfold ranked. rewrite filter_map_swap.
  rewrite (filter_ext_in _ (fun z => eqb (fst z) k)).
  - rewrite filter_sort_reverse.
    induction records as [|r records IH]; [done|].
    cbn [map List.filter fst]. unfold same_rank at 1.
    destruct (eqb (key_of r) k); cbn [map snd]; by rewrite IH.
  - intros p Hp. unfold same_rank. by rewrite (ranked_decorated records p Hp).
Qed.

(** Records whose keys are all numbers that can be ordered are returned
    ranked. *)
Lemma sorted_records_ranked records :
  Forall (fun r => rank (sort_key r) = Some (key_of r)) records ->
  sorted_records records = Returned (ranked records).
Proof.
  intros Hk. unfold sorted_records, decorate, ranked.
  rewrite (mapM_Some_2 _ _ (map (fun r => (key_of r, r)) records)); [done|].
  induction Hk as [|r l Hr Hl IH]; simpl; constructor; [|done].
  by rewrite Hr.
Qed.

Lemma filter_none {A} (p : A -> bool) (l : list A) :
  (forall a, In a l -> p a = false) -> List.filter p l = [].
Proof.
  induction l as [|a l IH]; intros Hl; simpl; [done|].
  rewrite (Hl a) by (by left). apply IH. intros b Hb. apply Hl. by right.
Qed.

Lemma filter_all {A} (p : A -> bool) (l : list A) :
  (forall a, In a l -> p a = true) -> List.filter p l = l.
Proof.
  induction l as [|a l IH]; intros Hl; simpl; [done|].
  rewrite (Hl a) by (by left). f_equal. apply IH. intros b Hb. apply Hl. by right.
Qed.

(** In a sorted list, what a test rejects comes after all it accepts, when
    the test rejects whatever follows a rejected element. *)
Lemma sorted_split {A} (R : relation A) (p : A -> bool) (l : list A) :
  StronglySorted R l ->
  (forall a b, In a l -> In b l -> R a b -> p a = false -> p b = false) ->
  l = (List.filter p l ++ List.filter (fun a => negb (p a)) l)%list.
Proof.
  intros Hs Hp. induction Hs as [|a l Hs IH Ha]; simpl; [done|].
  rewrite Forall_forall in Ha.
  assert (forall b c, In b l -> In c l -> R b c -> p b = false -> p c = false) as Hp'.
  { intros b c Hb Hc. apply Hp; by right. }
  destruct (p a) eqn:Hpa; simpl.
  - by rewrite <- IH.
  - rewrite filter_none, filter_all; [done| |].
    + intros b Hb. apply negb_true_iff, (Hp a); [by left|by right| |done].
      by apply Ha, list_elem_of_In.
    + intros b Hb. apply (Hp a); [by left|by right| |done].
      by apply Ha, list_elem_of_In.
Qed.

End RankedFacts.

(** ** The batch *)

Section BatchFacts.

Variable format_exc : exn -> string.

Lemma zip_map {A B C} (f : A -> B) (g : A -> C) (l : list A) :
  zip (map f l) (map g l) = map (fun a => (f a, g a)) l.
Proof. induction l as [|a l IH]; simpl; [done|]. by rewrite IH. Qed.

(** Once every worker has finished, the batch is the aggregate of the items
    and of their results in task order: the schedule does not show. *)
Lemma process_bulk_async_returns schedule items :
  all_finish schedule (length items) = true ->
  process_bulk_async format_exc schedule items
  = aggregate items (map (fun it => run_task format_exc (task_of it)) items).
Proof.
  intros Hall. unfold process_bulk_async.
  rewrite gather_all_finish by (by rewrite length_map).
  by rewrite map_map.
Qed.

Lemma merge_all_items items :
  merge_all items (map (fun it => run_task format_exc (task_of it)) items)
  = map (item_record format_exc) items.
Proof.
  unfold merge_all. rewrite <- (map_id items) at 1. rewrite zip_map, map_map.
  reflexivity.
Qed.

(** A batch of items that bring no outcome of their own returns its
    records ranked. *)
Lemma bulk_returns schedule items :
  all_finish schedule (length items) = true ->
  Forall (fun it => carries_no_outcome it = true) items ->
  process_bulk_async format_exc schedule items
  = Returned (ranked (map (item_record format_exc) items)).
Proof.
  intros Hall Hc. rewrite process_bulk_async_returns by done.
  unfold aggregate. rewrite merge_all_items.
  apply sorted_records_ranked, Forall_forall. intros rec Hrec.
  apply list_elem_of_In, in_map_iff in Hrec as (it & <- & Hit).
  apply item_record_key. rewrite Forall_forall in Hc.
  by apply Hc, list_elem_of_In.
Qed.

Lemma batch_returns schedule requests :
  all_finish schedule (length requests) = true ->
  score_candidates_batch format_exc schedule requests
  = Returned (ranked (map (batch_record format_exc) requests)).
Proof.
  intros Hall. unfold score_candidates_batch.
  rewrite bulk_returns.
  - by rewrite map_map.
  - by rewrite length_map.
  - apply Forall_forall. intros it Hit.
    apply list_elem_of_In, in_map_iff in Hit as (r & <- & _). apply entry_item_carries.
Qed.

(** An errored record of the batch is ranked at -1 and a scored one is
    not. *)
Lemma is_errored_rank it :
  carries_no_outcome it = true ->
  is_errored (item_record format_exc it)
  = same_rank (PyInt (-1)) (item_record format_exc it).
Proof.
  intros Hc. unfold same_rank.
  destruct (item_record_kinds format_exc it Hc)
    as [(_ & _ & -> & Hk & _)|(_ & _ & -> & -> & _)]; [|done].
  symmetry. apply not_true_iff_false. rewrite eqb_le. intros [Hle _].
  by pose proof (le_trans _ _ _ Hk Hle).
Qed.

Lemma is_scored_not_errored it :
  carries_no_outcome it = true ->
  is_scored (item_record format_exc it) = negb (is_errored (item_record format_exc it)).
Proof.
  intros Hc.
  by destruct (item_record_kinds format_exc it Hc)
    as [(_ & -> & -> & _)|(_ & -> & -> & _)].
Qed.

Lemma elem_of_ranked records record :
  record ∈ ranked records <-> record ∈ records.
Proof. by rewrite ranked_perm. Qed.

Lemma elem_of_records items record :
  Forall (fun it => carries_no_outcome it = true) items ->
  record ∈ map (item_record format_exc) items ->
  exists it, it ∈ items /\ carries_no_outcome it = true /\
    record = item_record format_exc it.
Proof.
  rewrite Forall_forall, list_elem_of_In, in_map_iff. intros Hc (it & <- & Hit).
  apply list_elem_of_In in Hit. exists it. split; [done|]. split; [by apply Hc|done].
Qed.

(** The errored records of the batch come after the scored ones. *)
Lemma ranked_items_split items :
  Forall (fun it => carries_no_outcome it = true) items ->
  let out := ranked (map (item_record format_exc) items) in
  out = (List.filter is_scored out ++ List.filter is_errored out)%list.
Proof.
  intros Hc out.
  assert (forall record, In record out ->
            exists it, carries_no_outcome it = true /\
              record = item_record format_exc it) as Hout.
  { intros record Hrec.
    apply list_elem_of_In, elem_of_ranked, (elem_of_records _ _ Hc) in Hrec
      as (it & _ & Hit & ->). by exists it. }
  rewrite (filter_ext_in is_errored (fun a => negb (is_scored a)) out).
  - apply (sorted_split _ _ _ (ranked_sorted _)).
    intros a b Ha Hb. apply Hout in Ha as (ia & Hia & ->).
    apply Hout in Hb as (ib & Hib & ->).
    unfold ge.
    destruct (item_record_kinds format_exc ia Hia)
      as [(_ & -> & _)|(_ & _ & _ & -> & _)]; [done|].
    destruct (item_record_kinds format_exc ib Hib)
      as [(_ & _ & _ & Hk & _)|(_ & -> & _)]; [|done].
    intros Hle _. by pose proof (le_trans _ _ _ Hk Hle).
  - intros record Hrec. apply Hout in Hrec as (it & Hit & ->).
    rewrite is_scored_not_errored by done. by destruct (is_errored _).
Qed.

(** The errored records of the batch keep the order of the items. *)
Lemma ranked_items_errored items :
  Forall (fun it => carries_no_outcome it = true) items ->
  List.filter is_errored (ranked (map (item_record format_exc) items))
  = List.filter is_errored (map (item_record format_exc) items).
Proof.
  intros Hc.
  rewrite (filter_ext_in is_errored (same_rank (PyInt (-1))) (ranked _)).
  - rewrite ranked_stable. apply filter_ext_in.
    intros record Hrec.
    apply list_elem_of_In, (elem_of_records _ _ Hc) in Hrec as (it & _ & Hit & ->).
    symmetry. by apply is_errored_rank.
  - intros record Hrec.
    apply list_elem_of_In, elem_of_ranked, (elem_of_records _ _ Hc) in Hrec
      as (it & _ & Hit & ->).
    by apply is_errored_rank.
Qed.

End BatchFacts.

Section MergeFacts.

Variable format_exc : exn -> string.

(** The keys the worker writes are none of the passthrough fields. *)
Lemma worker_keys resume_text job_description required_skills field :
  field ∈ passthrough_fields ->
  field ∉ Dict.keys (_process_single_sync format_exc resume_text job_description
                       required_skills).
Proof.
  intros Hf. unfold _process_single_sync.
  destruct (worker_cases resume_text job_description required_skills)
    as [(r & j & names & _ & _ & ->)|[e ->]];
    cbn [Dict.keys breakdown_dict error_record map fst];
    unfold passthrough_fields in Hf;
    rewrite list_elem_of_In in *; simpl in *; intuition (subst; discriminate).
Qed.

Lemma merge_keeps_passthrough item resume_text job_description required_skills field :
  field ∈ passthrough_fields ->
  Dict.get field (merge item (_process_single_sync format_exc resume_text
                                job_description required_skills))
  = Dict.get field item.
Proof. intros Hf. by apply get_update_other, worker_keys. Qed.

Lemma entry_item_field r field v :
  field ∈ passthrough_fields ->
  Dict.get field r = Some v -> Dict.get field (entry_item r) = Some v.
Proof.
  unfold passthrough_fields. rewrite list_elem_of_In. simpl.
  intros [<-|[<-|[<-|[<-|[]]]]] Hv; cbn; unfold Dict.get_default; by rewrite Hv.
Qed.

End MergeFacts.

(** On the example batch the second request has no resume text: its record
    carries the error and comes last. *)
Example example_batch_errored :
  List.filter is_errored (map (batch_record example_trace) example_requests)
  = [[("resume_text", VNone); ("job_description", VStr "");
      ("required_skills", VList []); ("fileName", VStr "b.pdf");
      ("error", VBool true);
      ("message", VStr "object of type 'NoneType' has no len()");
      ("trace", VStr "Traceback (most recent call last): object of type 'NoneType' has no len()")]].
Proof. reflexivity. Qed.

Example example_batch_order :
  (fun out => map (Dict.get "fileName") out)
    <$> score_candidates_batch example_trace [2; 0; 1]%nat example_requests
  = Returned [Some (VStr "a.pdf"); Some (VStr "Unknown"); Some (VStr "b.pdf")].
Proof. reflexivity. Qed.

(** A batch whose workers have not all finished is pending. *)
Example example_batch_pending :
  score_candidates_batch example_trace [2; 0]%nat example_requests = Pending.
Proof. reflexivity. Qed.

(** ** Claims on the batch *)







(** C5. The scoring engine is a function of its three arguments: it reads
    no clock, no random source and no global, and its seed comes from MD5.
    The batch is in turn a function of its items: whatever the order the
    workers finish in, [gather] hands back the same results and the batch
    returns the same list. *)
Theorem batch_deterministic format_exc schedule1 schedule2 items :
  all_finish schedule1 (length items) = true ->
  all_finish schedule2 (length items) = true ->
  process_bulk_async format_exc schedule1 items
  = process_bulk_async format_exc schedule2 items /\
  process_bulk_async format_exc schedule1 items
  = aggregate items (map (fun it => run_task format_exc (task_of it)) items) /\
  gather format_exc schedule1 (map task_of items)
  = gather format_exc schedule2 (map task_of items) /\
  (forall requests, items = map entry_item requests ->
     score_candidates_batch format_exc schedule1 requests
     = score_candidates_batch format_exc schedule2 requests /\
     exists out, score_candidates_batch format_exc schedule1 requests = Returned out).
Proof.
  intros H1 H2.
  split; [by rewrite !process_bulk_async_returns|].
  split; [by apply process_bulk_async_returns|].
  split; [by rewrite !gather_all_finish by (by rewrite length_map)|].
  intros requests ->. rewrite length_map in H1, H2.
  rewrite !batch_returns by done. eauto.
Qed.

Lemma batch_deterministic_witness :
  all_finish [2; 0; 1]%nat (length (map entry_item example_requests)) = true /\
  all_finish [0; 1; 2]%nat (length (map entry_item example_requests)) = true /\
  process_bulk_async example_trace [2; 0; 1]%nat (map entry_item example_requests)
  = process_bulk_async example_trace [0; 1; 2]%nat (map entry_item example_requests) /\
  process_bulk_async example_trace [2; 0; 1]%nat (map entry_item example_requests)
  = aggregate (map entry_item example_requests)
      (map (fun it => run_task example_trace (task_of it))
         (map entry_item example_requests)) /\
  gather example_trace [2; 0; 1]%nat (map task_of (map entry_item example_requests))
  = gather example_trace [0; 1; 2]%nat (map task_of (map entry_item example_requests)) /\
  (forall requests, map entry_item example_requests = map entry_item requests ->
     score_candidates_batch example_trace [2; 0; 1]%nat requests
     = score_candidates_batch example_trace [0; 1; 2]%nat requests /\
     exists out,
       score_candidates_batch example_trace [2; 0; 1]%nat requests = Returned out).
Proof.
  split; [reflexivity|]. split; [reflexivity|].
  apply (batch_deterministic example_trace [2; 0; 1]%nat [0; 1; 2]%nat
           (map entry_item example_requests)); reflexivity.
Defined.

(** C8. Each of the four fields the entry point accepts has, on the record
    of a request, the value the item of that request has, which is the
    value the request gave when it gave one; this holds for scored and
    errored records alike, since the merge never writes these fields. *)
Theorem batch_metadata_roundtrip format_exc schedule requests :
  all_finish schedule (length requests) = true ->
  exists out,
    score_candidates_batch format_exc schedule requests = Returned out /\
    out ≡ₚ map (batch_record format_exc) requests /\
    (forall r field, field ∈ passthrough_fields ->
       Dict.get field (batch_record format_exc r) = Dict.get field (entry_item r)) /\
    (forall r field v, field ∈ passthrough_fields ->
       Dict.get field r = Some v ->
       Dict.get field (batch_record format_exc r) = Some v) /\
    (forall item resume_text job_description required_skills field,
       field ∈ passthrough_fields ->
       Dict.get field (merge item (_process_single_sync format_exc resume_text
                                     job_description required_skills))
       = Dict.get field item).
Proof.
  intros Hall. eexists. split; [by apply batch_returns|].
  split; [apply ranked_perm|].
  assert (forall r field, field ∈ passthrough_fields ->
            Dict.get field (batch_record format_exc r)
            = Dict.get field (entry_item r)) as Hkeep.
  { intros r field Hf. unfold batch_record, run_task.
    destruct (task_of (entry_item r)) as [[rt jd] rs].
    by apply merge_keeps_passthrough. }
  split; [done|]. split.
  - intros r field v Hf Hv. rewrite Hkeep by done. by apply entry_item_field.
  - intros. by apply merge_keeps_passthrough.
Qed.

Lemma batch_metadata_roundtrip_witness :
  all_finish [2; 0; 1]%nat (length example_requests) = true /\
  exists out,
    score_candidates_batch example_trace [2; 0; 1]%nat example_requests = Returned out /\
    out ≡ₚ map (batch_record example_trace) example_requests /\
    (forall r field, field ∈ passthrough_fields ->
       Dict.get field (batch_record example_trace r) = Dict.get field (entry_item r)) /\
    (forall r field v, field ∈ passthrough_fields ->
       Dict.get field r = Some v ->
       Dict.get field (batch_record example_trace r) = Some v) /\
    (forall item resume_text job_description required_skills field,
       field ∈ passthrough_fields ->
       Dict.get field (merge item (_process_single_sync example_trace resume_text
                                     job_description required_skills))
       = Dict.get field item).
Proof.
  split; [reflexivity|].
  apply (batch_metadata_roundtrip example_trace [2; 0; 1]%nat example_requests).
  reflexivity.
Defined.


(** ** What the engine makes of its arguments *)



(** ** The extremes of the two scores *)

Section QuotientFacts.

(** A positive int divided by itself is exactly 1.0. *)
Lemma int_truediv_self n : int_truediv (Zpos n) n = float_one.
Proof.
  unfold int_truediv, fdiv, raw, SFdiv, SFdiv_core_binary.
  replace (Zdigits2 (Z.pos n) + 0 - (Zdigits2 (Z.pos n) + 0)) with 0 by lia.
  change (Z.min (fexp prec emax 0) (0 - 0)) with (-53).
  change (0 - 0 - -53) with 53.
  cbv iota beta.
  change (IntDef.Z.div_eucl (Z.shiftl (Z.pos n) 53) (Z.pos n))
    with (Z.div_eucl (Z.shiftl (Z.pos n) 53) (Z.pos n)).
  destruct (Z.div_eucl (Z.shiftl (Z.pos n) 53) (Z.pos n)) as [q r] eqn:E.
  assert (q = 2 ^ 53 /\ r = 0) as [-> ->].
  { pose proof (Z_div_mod (Z.shiftl (Z.pos n) 53) (Z.pos n) ltac:(lia)) as H.
    rewrite E in H. rewrite Z.shiftl_mul_pow2 in H by lia.
    destruct H as [H1 H2].
    assert (q = 2 ^ 53) by nia. subst. split; [done|lia]. }
  assert (new_location (Z.pos n) 0 = loc_Exact) as ->.
  { unfold new_location. by destruct (Z.even (Z.pos n)). }
  reflexivity.
Qed.

Lemma max1_pos p : max1 (Z.pos p) = p.
Proof. unfold max1. rewrite Z.max_r by lia. reflexivity. Qed.

End QuotientFacts.

Section MatchFacts.

Lemma skills_raw_no_match resume_text required_skills :
  matched resume_text required_skills = [] ->
  skills_raw resume_text required_skills = PyFloat (S754_zero false).
Proof.
  intros Hm. unfold skills_raw. rewrite matched_count_length, Hm. reflexivity.
Qed.

Lemma skills_raw_all_match resume_text required_skills :
  required_skills <> [] ->
  matched resume_text required_skills = required_skills ->
  skills_raw resume_text required_skills = PyInt 100.
Proof.
  intros Hne Hm. unfold skills_raw, skills_total.
  rewrite matched_count_length, Hm.
  destruct required_skills as [|s l]; [done|].
  cbn [length]. rewrite Nat2Z.inj_succ.
  destruct (Z.succ (Z.of_nat (length l))) as [|p|p] eqn:E; try lia.
  rewrite max1_pos, int_truediv_self. reflexivity.
Qed.

Lemma filter_nil_iff {A} (f : A -> bool) (l : list A) :
  List.filter f l = [] <-> forall a, a ∈ l -> f a = false.
Proof.
  split.
  - intros Hf a Ha. destruct (f a) eqn:E; [|done].
    assert (a ∈ List.filter f l) as Hin by (by apply elem_of_filter).
    rewrite Hf in Hin. by apply elem_of_nil in Hin.
  - intros Hf. apply filter_none. intros a Ha. by apply Hf, list_elem_of_In.
Qed.

Lemma filter_id_iff {A} (f : A -> bool) (l : list A) :
  List.filter f l = l <-> forall a, a ∈ l -> f a = true.
Proof.
  split.
  - intros Hf a Ha. rewrite <- Hf in Ha. by apply elem_of_filter in Ha as [_ ?].
  - intros Hf. apply filter_all. intros a Ha. by apply Hf, list_elem_of_In.
Qed.

Lemma filter_negb_nil {A} (f : A -> bool) (l : list A) :
  List.filter f l = l -> List.filter (fun a => negb (f a)) l = [].
Proof.
  rewrite filter_id_iff, filter_nil_iff. intros H a Ha. by rewrite H.
Qed.

Lemma filter_negb_id {A} (f : A -> bool) (l : list A) :
  List.filter f l = [] -> List.filter (fun a => negb (f a)) l = l.
Proof.
  rewrite filter_id_iff, filter_nil_iff. intros H a Ha. by rewrite H.
Qed.

Lemma filter_split_perm {A} (f : A -> bool) (l : list A) :
  (List.filter f l ++ List.filter (fun a => negb (f a)) l)%list ≡ₚ l.
Proof.
  induction l as [|a l IH]; simpl; [done|].
  destruct (f a); simpl.
  - by rewrite IH.
  - by rewrite <- Permutation_middle, IH.
Qed.

End MatchFacts.

Section SemanticFacts.

Lemma semantic_raw_no_overlap resume_text job_description :
  resume_words resume_text ∩ jd_words job_description = ∅ ->
  semantic_raw resume_text job_description = PyFloat (S754_zero false).
Proof.
  intros H. unfold semantic_raw, overlap. rewrite H, size_empty. reflexivity.
Qed.

Lemma semantic_raw_covered resume_text job_description :
  jd_words job_description <> ∅ ->
  jd_words job_description ⊆ resume_words resume_text ->
  semantic_raw resume_text job_description = PyInt 100.
Proof.
  intros Hne Hsub. unfold semantic_raw, overlap.
  assert (resume_words resume_text ∩ jd_words job_description
          = jd_words job_description) as ->.
  { apply set_eq. intros w. rewrite elem_of_intersection.
    split; [by intros [_ ?]|]. intros Hw. split; [by apply Hsub|done]. }
  assert (size (jd_words job_description) <> 0%nat) as Hsz.
  { intros H. by apply size_empty_iff, leibniz_equiv in H. }
  destruct (Z.of_nat (size (jd_words job_description))) as [|p|p] eqn:E; try lia.
  rewrite max1_pos, int_truediv_self. reflexivity.
Qed.

Lemma overlap_le_jd resume_text job_description :
  overlap resume_text job_description <= Z.of_nat (size (jd_words job_description)).
Proof.
  unfold overlap. apply inj_le, subseteq_size, intersection_subseteq_r.
Qed.

End SemanticFacts.

(** X2. When no required skill occurs in the resume the skills score is
    0.0, nothing is matched and every skill is missing; when every skill of
    a non-empty list occurs the score is 100 (the capped 120), every skill
    is matched and none is missing. *)
Theorem skills_score_extremes resume_text job_description required_skills :
  ((forall skill, skill ∈ required_skills ->
      PyStr.contains (PyStr.lower skill) (PyStr.lower resume_text) = false) ->
   skills_score (fallback_score resume_text job_description required_skills)
   = PyFloat (S754_zero false) /\
   matched_skills (fallback_score resume_text job_description required_skills) = [] /\
   missing_skills (fallback_score resume_text job_description required_skills)
   = required_skills) /\
  (required_skills <> [] ->
   (forall skill, skill ∈ required_skills ->
      PyStr.contains (PyStr.lower skill) (PyStr.lower resume_text) = true) ->
   skills_score (fallback_score resume_text job_description required_skills)
   = PyInt 100 /\
   matched_skills (fallback_score resume_text job_description required_skills)
   = required_skills /\
   missing_skills (fallback_score resume_text job_description required_skills) = []).
Proof.
  split.
  - intros Hno. fields.
    assert (matched resume_text required_skills = []) as Hm by (by apply filter_nil_iff).
    rewrite skills_raw_no_match by done.
    split; [done|]. split; [done|]. by apply filter_negb_id.
  - intros Hne Hall. fields.
    assert (matched resume_text required_skills = required_skills) as Hm
      by (by apply filter_id_iff).
    rewrite skills_raw_all_match by done.
    split; [done|]. split; [done|]. by apply filter_negb_nil.
Qed.

(** X3. The overlap counts at most the words of the job description. When
    no word of the job description is a word of the resume the semantic
    score is 0.0; when every word of a job description that has one is a
    word of the resume it is 100. *)
Theorem semantic_score_extremes resume_text job_description required_skills :
  overlap resume_text job_description
    <= Z.of_nat (size (jd_words job_description)) /\
  ((forall w, w ∈ jd_words job_description -> w ∉ resume_words resume_text) ->
   semantic_score (fallback_score resume_text job_description required_skills)
   = PyFloat (S754_zero false)) /\
  ((exists w, w ∈ jd_words job_description) ->
   (forall w, w ∈ jd_words job_description -> w ∈ resume_words resume_text) ->
   semantic_score (fallback_score resume_text job_description required_skills)
   = PyInt 100).
Proof.
  split; [apply overlap_le_jd|]. split.
  - intros Hno. fields. rewrite semantic_raw_no_overlap; [done|].
    apply set_eq. intros w. rewrite elem_of_intersection, elem_of_empty.
    split; [|done]. intros [Hr Hj]. by apply (Hno w).
  - intros [w Hw] Hall. fields. rewrite semantic_raw_covered; [done| |].
    + intros He. rewrite He in Hw. by apply elem_of_empty in Hw.
    + intros v Hv. by apply Hall.
Qed.

(** X4. The two lists keep every entry of the required skills, as often
    as it is listed: together they are a rearrangement of the input, the
    count of matches and the number of missing skills add up to the number
    of required skills, [found_skills] is [matched_skills] and the gaps of
    the explanation are [missing_skills]. *)
Theorem skills_split_keeps_every_entry resume_text job_description required_skills :
  (matched_skills (fallback_score resume_text job_description required_skills)
     ++ missing_skills (fallback_score resume_text job_description required_skills))%list
  ≡ₚ required_skills /\
  matched_count resume_text required_skills
    + Z.of_nat (length (missing_skills
                          (fallback_score resume_text job_description required_skills)))
  = Z.of_nat (length required_skills) /\
  found_skills (fallback_score resume_text job_description required_skills)
  = matched_skills (fallback_score resume_text job_description required_skills) /\
  gaps (explain (fallback_score resume_text job_description required_skills))
  = missing_skills (fallback_score resume_text job_description required_skills).
Proof.
  fields. split; [apply filter_split_perm|]. split; [|done].
  rewrite matched_count_length.
  pose proof (Permutation_length (filter_split_perm (skill_in_resume resume_text)
                                    required_skills)) as H.
  rewrite length_app in H. unfold matched, missing. lia.
Qed.

Section EmptyResumeFacts.

Lemma lower_empty s : PyStr.lower s = "" -> s = "".
Proof. by destruct s. Qed.

Lemma contains_in_empty sub : PyStr.contains sub "" = true -> sub = "".
Proof. by destruct sub. Qed.

Lemma matched_empty_resume required_skills :
  "" ∉ required_skills -> matched "" required_skills = [].
Proof.
  intros Hno. apply filter_nil_iff. intros skill Hs.
  unfold skill_in_resume, resume_lower. change (PyStr.lower "") with "".
  destruct (PyStr.contains (PyStr.lower skill) "") eqn:E; [|done].
  apply contains_in_empty, lower_empty in E. by subst.
Qed.

Lemma semantic_raw_empty_resume job_description :
  semantic_raw "" job_description = PyFloat (S754_zero false).
Proof.
  apply semantic_raw_no_overlap. unfold resume_words, resume_lower.
  change (words_of (PyStr.lower "")) with (∅ : gset string).
  apply intersection_empty_l_L.
Qed.

End EmptyResumeFacts.

(** X5. On the empty resume, with no empty string among the required
    skills, every score is zero whatever the job description is: the
    overall score is the int 0 (the first argument of [max(0, 0.0)]), the
    skills and semantic scores are 0.0, nothing is matched and the
    recommendation is "Not Recommended". *)
Theorem empty_resume_scores_zero job_description required_skills :
  "" ∉ required_skills ->
  overall_score (fallback_score "" job_description required_skills) = PyInt 0 /\
  skills_score (fallback_score "" job_description required_skills)
  = PyFloat (S754_zero false) /\
  semantic_score (fallback_score "" job_description required_skills)
  = PyFloat (S754_zero false) /\
  matched_skills (fallback_score "" job_description required_skills) = [] /\
  recommendation (explain (fallback_score "" job_description required_skills))
  = "Not Recommended".
Proof.
  intros Hno. fields.
  pose proof (matched_empty_resume required_skills Hno) as Hm.
  assert (overall "" job_description required_skills = PyInt 0) as Ho.
  { unfold overall, overall_base.
    rewrite (skills_raw_no_match "" required_skills Hm), semantic_raw_empty_resume.
    vm_compute. reflexivity. }
  rewrite Ho, (skills_raw_no_match "" required_skills Hm), semantic_raw_empty_resume.
  repeat split; try done.
Qed.

Lemma empty_resume_scores_zero_witness :
  ("" ∉ ["Python"]) /\
  overall_score (fallback_score "" "Looking for python" ["Python"]) = PyInt 0 /\
  skills_score (fallback_score "" "Looking for python" ["Python"])
  = PyFloat (S754_zero false) /\
  semantic_score (fallback_score "" "Looking for python" ["Python"])
  = PyFloat (S754_zero false) /\
  matched_skills (fallback_score "" "Looking for python" ["Python"]) = [] /\
  recommendation (explain (fallback_score "" "Looking for python" ["Python"]))
  = "Not Recommended".
Proof.
  assert ("" ∉ ["Python"]) as H.
  { rewrite list_elem_of_In. simpl. intuition discriminate. }
  split; [exact H|].
  by apply (empty_resume_scores_zero "Looking for python" ["Python"]).
Defined.

Section CaseFacts.

Lemma filter_lower_swap (f : string -> bool) (l : list string) :
  map PyStr.lower (List.filter (fun s => f (PyStr.lower s)) l)
  = List.filter f (map PyStr.lower l).
Proof. symmetry. apply filter_map_swap. Qed.

Lemma matched_lower resume_text required_skills :
  map PyStr.lower (matched resume_text required_skills)
  = List.filter (fun s => PyStr.contains s (PyStr.lower resume_text))
      (map PyStr.lower required_skills).
Proof. apply (filter_lower_swap (fun s => PyStr.contains s (PyStr.lower resume_text))). Qed.

Lemma missing_lower resume_text required_skills :
  map PyStr.lower (missing resume_text required_skills)
  = List.filter (fun s => negb (PyStr.contains s (PyStr.lower resume_text)))
      (map PyStr.lower required_skills).
Proof.
  apply (filter_lower_swap (fun s => negb (PyStr.contains s (PyStr.lower resume_text)))).
Qed.

Lemma skills_raw_lower resume_text required_skills :
  skills_raw resume_text required_skills
  = py_min (PyInt 100)
      (PyFloat (fmul (fmul (int_truediv
          (Z.of_nat (length (List.filter
             (fun s => PyStr.contains s (PyStr.lower resume_text))
             (map PyStr.lower required_skills))))
          (max1 (Z.of_nat (length (map PyStr.lower required_skills)))))
        (of_int 100)) lit_1_2)).
Proof.
  unfold skills_raw, skills_total.
  by rewrite matched_count_length, <- matched_lower, !length_map.
Qed.

End CaseFacts.

(** X6. The skills score, the semantic score and, up to case, the matched
    and missing skills do not depend on the case of the letters of the
    resume, of the job description and of the skills. *)
Theorem scores_ignore_case resume_text resume_text' job_description job_description'
    required_skills required_skills' :
  PyStr.lower resume_text' = PyStr.lower resume_text ->
  PyStr.lower job_description' = PyStr.lower job_description ->
  map PyStr.lower required_skills' = map PyStr.lower required_skills ->
  skills_score (fallback_score resume_text' job_description' required_skills')
  = skills_score (fallback_score resume_text job_description required_skills) /\
  semantic_score (fallback_score resume_text' job_description' required_skills')
  = semantic_score (fallback_score resume_text job_description required_skills) /\
  map PyStr.lower
    (matched_skills (fallback_score resume_text' job_description' required_skills'))
  = map PyStr.lower
      (matched_skills (fallback_score resume_text job_description required_skills)) /\
  map PyStr.lower
    (missing_skills (fallback_score resume_text' job_description' required_skills'))
  = map PyStr.lower
      (missing_skills (fallback_score resume_text job_description required_skills)).
Proof.
  intros Hr Hj Hs. fields.
  split; [by rewrite !skills_raw_lower, Hr, Hs|].
  split.
  - unfold semantic_raw, overlap, resume_words, jd_words, resume_lower, jd_lower.
    by rewrite Hr, Hj.
  - by rewrite !matched_lower, !missing_lower, Hr, Hs.
Qed.

Lemma scores_ignore_case_witness :
  PyStr.lower "PYTHON Developer" = PyStr.lower "Python developer" /\
  PyStr.lower "Looking For Python" = PyStr.lower "looking for python" /\
  map PyStr.lower ["PYTHON"; "Django"] = map PyStr.lower ["python"; "DJANGO"] /\
  skills_score (fallback_score "PYTHON Developer" "Looking For Python" ["PYTHON"; "Django"])
  = skills_score (fallback_score "Python developer" "looking for python" ["python"; "DJANGO"]) /\
  semantic_score (fallback_score "PYTHON Developer" "Looking For Python" ["PYTHON"; "Django"])
  = semantic_score (fallback_score "Python developer" "looking for python" ["python"; "DJANGO"]) /\
  map PyStr.lower
    (matched_skills (fallback_score "PYTHON Developer" "Looking For Python" ["PYTHON"; "Django"]))
  = map PyStr.lower
      (matched_skills (fallback_score "Python developer" "looking for python" ["python"; "DJANGO"])) /\
  map PyStr.lower
    (missing_skills (fallback_score "PYTHON Developer" "Looking For Python" ["PYTHON"; "Django"]))
  = map PyStr.lower
      (missing_skills (fallback_score "Python developer" "looking for python" ["python"; "DJANGO"])).
Proof.
  split; [reflexivity|]. split; [reflexivity|]. split; [reflexivity|].
  by apply (scores_ignore_case "Python developer" "PYTHON Developer"
              "looking for python" "Looking For Python"
              ["python"; "DJANGO"] ["PYTHON"; "Django"]).
Defined.

(** The overall score is not among them: the seed is taken from the text
    as it is written. *)
Example overall_depends_on_case :
  overall_score (fallback_score "PYTHON" "" ["python"])
  <> overall_score (fallback_score "python" "" ["python"]).
Proof. vm_compute. discriminate. Qed.


(** X7. The recommendation bounds the overall score that is returned with
    it, the rounded one: "Highly Recommended" comes with a score of at
    least 80, "Recommended" with one from 60 to 80, "Maybe" with one from
    40 to 60 and "Not Recommended" with one of at most 40, the bounds
    included. *)
Theorem recommendation_bounds_score resume_text job_description required_skills :
  (recommendation (explain (fallback_score resume_text job_description required_skills))
   = "Highly Recommended" ->
   le (PyInt 80)
      (overall_score (fallback_score resume_text job_description required_skills))
   = true) /\
  (recommendation (explain (fallback_score resume_text job_description required_skills))
   = "Recommended" ->
   le (PyInt 60)
      (overall_score (fallback_score resume_text job_description required_skills))
   = true /\
   le (overall_score (fallback_score resume_text job_description required_skills))
      (PyInt 80) = true) /\
  (recommendation (explain (fallback_score resume_text job_description required_skills))
   = "Maybe" ->
   le (PyInt 40)
      (overall_score (fallback_score resume_text job_description required_skills))
   = true /\
   le (overall_score (fallback_score resume_text job_description required_skills))
      (PyInt 60) = true) /\
  (recommendation (explain (fallback_score resume_text job_description required_skills))
   = "Not Recommended" ->
   le (overall_score (fallback_score resume_text job_description required_skills))
      (PyInt 40) = true).
Proof.
  fields. set (total := overall resume_text job_description required_skills).
  pose proof (overall_range resume_text job_description required_skills) as [H0 H100].
  fold total in H0, H100.
  pose proof (le_not_nan _ _ H0) as [_ Hnan].
  assert (forall z, le (PyInt z) total = false -> le total (PyInt z) = true) as Hlt.
  { intros z Hz. by apply lt_le, le_false_lt. }
  unfold recommend, ge.
  destruct (threshold_bands total) as [(E1&E2&E3)|[(E1&E2&E3)|[(E1&E2&E3)|(E1&E2&E3)]]];
    rewrite ?E1, ?E2, ?E3; (split; [|split; [|split]]); try discriminate; intros _.
  - by apply (round2_between 80 100).
  - apply (round2_between 60 80); auto; lia.
  - apply (round2_between 40 60); auto; lia.
  - apply (round2_between 0 40); auto; lia.
Qed.

(** ** What the worker returns and what the batch makes of it *)


(** X8. The worker never raises. On arguments the engine can score it
    returns the seven fields of the score, in their order; on any other
    arguments it returns the three fields [error], [message] and [trace] of
    the exception. A resume that has no length fails first, with the
    message of [len]; a resume that has one and is no string fails on
    [encode]. *)
Theorem worker_outcome format_exc resume_text job_description required_skills :
  (scorable resume_text job_description required_skills = true ->
   Dict.keys (_process_single_sync format_exc resume_text job_description
                required_skills) = score_keys /\
   exists r j names,
     resume_text = VStr r /\ job_description = VStr j /\
     py_iter required_skills = Ok (map VStr names) /\
     _process_single_sync format_exc resume_text job_description required_skills
     = breakdown_dict (fallback_score r j names)) /\
  (scorable resume_text job_description required_skills = false ->
   exists e,
     try_body resume_text job_description required_skills = Raise e /\
     _process_single_sync format_exc resume_text job_description required_skills
     = [("error", VBool true); ("message", VStr (exn_str e));
        ("trace", VStr (format_exc e))]) /\
  (has_len resume_text = false ->
   _process_single_sync format_exc resume_text job_description required_skills
   = error_record format_exc
       (TypeError ("object of type '" ++ type_name resume_text ++ "' has no len()"))) /\
  (has_len resume_text = true -> is_str resume_text = false ->
   _process_single_sync format_exc resume_text job_description required_skills
   = error_record format_exc (no_attribute resume_text "encode")).
Proof.
  split; [|split; [|split]].
  - intros Hs.
    destruct (process_scorable format_exc _ _ _ Hs) as (r & j & names & H1 & H2 & H3 & H4).
    split; [by rewrite H4|]. by exists r, j, names.
  - intros Hs. destruct (process_not_scorable format_exc _ _ _ Hs) as (e & He & ->).
    by exists e.
  - intros Hl. by destruct resume_text as [| |[]| | |].
  - intros Hl Hs. by destruct resume_text as [| |[]| | |].
Qed.

(** X9. A record of the batch has the four fields of the entry point
    followed by the seven fields of a score when the request can be scored,
    by the three fields of an error when it cannot, and no other key. *)
Theorem batch_record_schema format_exc r :
  Dict.keys (batch_record format_exc r)
  = (passthrough_fields
       ++ if request_scorable r then score_keys else error_keys)%list /\
  (forall k, k ∉ passthrough_fields -> k ∉ score_keys -> k ∉ error_keys ->
     Dict.get k (batch_record format_exc r) = None).
Proof.
  assert (Dict.keys (batch_record format_exc r)
          = (passthrough_fields
               ++ if request_scorable r then score_keys else error_keys)%list) as Hkeys.
  { destruct (request_scorable r) eqn:Hs.
    - by destruct (batch_record_scorable format_exc r Hs) as (rt & jd & names & ->).
    - by destruct (batch_record_not_scorable format_exc r Hs) as (e & _ & ->). }
  split; [done|]. intros k H1 H2 H3.
  apply get_None_keys. rewrite Hkeys, elem_of_app.
  intros [?|?]; [done|]. by destruct (request_scorable r).
Qed.

(** X10. A field the request does not carry appears on its record with
    the default of the entry point: the empty string for the two texts, the
    empty list for the skills, "Unknown" for the file name. *)
Theorem batch_record_defaults format_exc r field default :
  (field, default) ∈ entry_defaults ->
  Dict.get field r = None ->
  Dict.get field (batch_record format_exc r) = Some default.
Proof.
  intros Hf Hr.
  assert (field ∈ passthrough_fields) as Hp.
  { unfold entry_defaults in Hf. rewrite list_elem_of_In in Hf. simpl in Hf.
    unfold passthrough_fields. rewrite list_elem_of_In. simpl.
    intuition congruence. }
  unfold batch_record, run_task. destruct (task_of (entry_item r)) as [[rt jd] rs].
  rewrite merge_keeps_passthrough by done.
  unfold entry_defaults in Hf. rewrite list_elem_of_In in Hf. simpl in Hf.
  destruct Hf as [[= <- <-]|[[= <- <-]|[[= <- <-]|[[= <- <-]|[]]]]];
    cbn; unfold Dict.get_default; by rewrite Hr.
Qed.

Lemma batch_record_defaults_witness :
  ("fileName", VStr "Unknown") ∈ entry_defaults /\
  Dict.get "fileName" [("resume_text", VStr "Java")] = None /\
  Dict.get "fileName" (batch_record example_trace [("resume_text", VStr "Java")])
  = Some (VStr "Unknown").
Proof.
  assert (("fileName", VStr "Unknown") ∈ entry_defaults) as H.
  { unfold entry_defaults. rewrite list_elem_of_In. simpl. tauto. }
  split; [exact H|]. split; [reflexivity|].
  by apply (batch_record_defaults example_trace [("resume_text", VStr "Java")]
              "fileName" (VStr "Unknown")).
Defined.

(** X11. A field that is null is not a field that is missing. A request
    is errored exactly when it cannot be scored; a null in any of the three
    fields the worker reads makes it errored, a null resume with the message
    of [len]; a request with none of the three fields is scored, as the
    empty resume against the empty job description, at 0. *)
Theorem null_is_not_missing format_exc r :
  is_errored (batch_record format_exc r) = negb (request_scorable r) /\
  (forall field, field ∈ scored_fields -> Dict.get field r = Some VNone ->
     is_errored (batch_record format_exc r) = true) /\
  (Dict.get "resume_text" r = Some VNone ->
   Dict.get "message" (batch_record format_exc r)
   = Some (VStr "object of type 'NoneType' has no len()")) /\
  ((forall field, field ∈ scored_fields -> Dict.get field r = None) ->
   batch_record format_exc r
   = (entry_item r ++ breakdown_dict (fallback_score "" "" []))%list /\
   Dict.get "overall_score" (batch_record format_exc r) = Some (VNum (PyInt 0))).
Proof.
  assert (is_errored (batch_record format_exc r) = negb (request_scorable r)) as Herr.
  { destruct (request_scorable r) eqn:Hs.
    - by destruct (batch_record_scorable format_exc r Hs) as (rt & jd & names & ->).
    - by destruct (batch_record_not_scorable format_exc r Hs) as (e & _ & ->). }
  split; [done|]. split; [|split].
  - intros field Hf Hnull. rewrite Herr. apply negb_true_iff.
    unfold scored_fields in Hf. rewrite list_elem_of_In in Hf. simpl in Hf.
    unfold request_scorable, item_scorable, task_of, entry_item, scorable.
    unfold Dict.get_default. cbn [Dict.get String.eqb Ascii.eqb Bool.eqb].
    destruct Hf as [<-|[<-|[<-|[]]]]; rewrite Hnull;
      cbn [is_str andb py_iter]; by rewrite ?andb_false_r.
  - intros Hnull. unfold batch_record, run_task, task_of, entry_item.
    unfold Dict.get_default. cbn [Dict.get String.eqb Ascii.eqb Bool.eqb].
    rewrite Hnull. reflexivity.
  - intros Hmiss.
    assert (Dict.get "resume_text" r = None) as H1
      by (apply Hmiss; rewrite list_elem_of_In; simpl; tauto).
    assert (Dict.get "job_description" r = None) as H2
      by (apply Hmiss; rewrite list_elem_of_In; simpl; tauto).
    assert (Dict.get "required_skills" r = None) as H3
      by (apply Hmiss; rewrite list_elem_of_In; simpl; tauto).
    assert (batch_record format_exc r
            = (entry_item r ++ breakdown_dict (fallback_score "" "" []))%list) as Hb.
    { unfold batch_record, run_task, task_of, entry_item.
      unfold Dict.get_default. cbn [Dict.get String.eqb Ascii.eqb Bool.eqb].
      rewrite H1, H2, H3. reflexivity. }
    split; [done|]. rewrite Hb. vm_compute. reflexivity.
Qed.

(** X12. In the merge of an item with what its worker returns, a key the
    worker wrote has the value of the worker, whatever the item held under
    it, and any other key has the value of the item. *)
Theorem merge_overwrites format_exc item resume_text job_description required_skills k :
  Dict.get k (merge item (_process_single_sync format_exc resume_text job_description
                            required_skills))
  = if bool_decide (k ∈ Dict.keys (_process_single_sync format_exc resume_text
                                     job_description required_skills))
    then Dict.get k (_process_single_sync format_exc resume_text job_description
                       required_skills)
    else Dict.get k item.
Proof.
  unfold merge. case_bool_decide as Hk.
  - apply get_update_written; [apply process_keys_NoDup|done].
  - by apply get_update_other.
Qed.

(** X13. An item of [process_bulk_async] that cannot be scored and
    carries an [overall_score] of its own keeps it beside the error flag,
    and is ranked by it, not at -1. *)
Theorem errored_item_keeps_its_score format_exc item x :
  Dict.get "overall_score" item = Some (VNum x) ->
  value x <> XNaN ->
  item_scorable item = false ->
  is_errored (merge item (run_task format_exc (task_of item))) = true /\
  sort_key (merge item (run_task format_exc (task_of item))) = VNum x /\
  key_of (merge item (run_task format_exc (task_of item))) = x.
Proof.
  intros Hx Hnan Hs. unfold item_scorable, run_task in *.
  destruct (task_of item) as [[rt jd] rs].
  destruct (process_not_scorable format_exc rt jd rs Hs) as (e & _ & ->).
  unfold is_errored, key_of, sort_key, Dict.get_default, merge.
  rewrite get_update_written;
    [|apply NoDup_ListNoDup; repeat constructor; simpl; intuition discriminate
     |rewrite list_elem_of_In; by left].
  rewrite get_update_other, Hx.
  - split; [done|]. split; [done|]. cbn [rank]. by destruct (value x).
  - rewrite list_elem_of_In. simpl. intuition discriminate.
Qed.

Lemma errored_item_keeps_its_score_witness :
  Dict.get "overall_score" carried_score_item = Some (VNum (PyInt 500)) /\
  value (PyInt 500) <> XNaN /\
  item_scorable carried_score_item = false /\
  is_errored (merge carried_score_item
                (run_task example_trace (task_of carried_score_item))) = true /\
  sort_key (merge carried_score_item
              (run_task example_trace (task_of carried_score_item)))
  = VNum (PyInt 500) /\
  key_of (merge carried_score_item
            (run_task example_trace (task_of carried_score_item)))
  = PyInt 500.
Proof.
  split; [reflexivity|]. split; [discriminate|]. split; [reflexivity|].
  by apply (errored_item_keeps_its_score example_trace carried_score_item (PyInt 500)).
Defined.

(** What [sorted] makes of keys that are no numbers: texts are sorted by
    code points, equal ones in input order; a single record is returned
    whatever its key; a text beside a number raises; a NaN beside a number
    is left open. *)
Example sorted_text_keys :
  sorted_records
    [[("overall_score", VStr "b"); ("fileName", VStr "1")];
     [("overall_score", VStr "c")];
     [("overall_score", VStr "b"); ("fileName", VStr "2")]]
  = Returned
      [[("overall_score", VStr "c")];
       [("overall_score", VStr "b"); ("fileName", VStr "1")];
       [("overall_score", VStr "b"); ("fileName", VStr "2")]].
Proof. reflexivity. Qed.

Example sorted_single_record :
  sorted_records [[("overall_score", VNone)]] = Returned [[("overall_score", VNone)]].
Proof. reflexivity. Qed.

Example sorted_mixed_keys :
  sorted_records [[("overall_score", VStr "high")]; [("overall_score", VNum (PyInt 3))]]
  = Raised.
Proof. reflexivity. Qed.

Example sorted_bool_key :
  sorted_records
    [[("overall_score", VBool true)];
     [("overall_score", VNum (PyFloat (int_truediv 1 2)))];
     [("overall_score", VNum (PyInt 2))]]
  = Returned
      [[("overall_score", VNum (PyInt 2))];
       [("overall_score", VBool true)];
       [("overall_score", VNum (PyFloat (int_truediv 1 2)))]].
Proof. reflexivity. Qed.

Example sorted_nan_key :
  sorted_records
    [[("overall_score", VNum (PyFloat S754_nan))]; [("overall_score", VNum (PyInt 3))]]
  = Unsettled.
Proof. reflexivity. Qed.

(** Such a record comes before a scored one. *)
Example errored_item_first :
  map is_errored
    <$> process_bulk_async example_trace [0; 1]%nat [plain_item; carried_score_item]
  = Returned [true; false].
Proof. reflexivity. Qed.

(** ** The services and the single-candidate endpoint *)

Section ServiceFacts.

Import Services.

Lemma init_ready getenv g :
  ready g = true -> _init_services getenv g = (g, None).
Proof. by destruct g as [[x|] [s|]]. Qed.

Lemma init_no_key getenv g :
  ready g = false -> no_key getenv = true ->
  exists e, _init_services getenv g = (g, Some e).
Proof.
  unfold no_key, _init_services, new_extractor, new_similarity.
  destruct g as [[x|] [s|]], getenv as [key|]; intros Hr Hk; try done;
    cbn [_skill_extractor _semantic]; rewrite ?Hk; by eexists.
Qed.

Lemma init_key getenv g :
  no_key getenv = false ->
  snd (_init_services getenv g) = None /\ ready (fst (_init_services getenv g)) = true.
Proof.
  unfold no_key, _init_services, new_extractor, new_similarity.
  destruct g as [[x|] [s|]], getenv as [key|]; intros Hk; try done;
    cbn [_skill_extractor _semantic]; by rewrite ?Hk.
Qed.

End ServiceFacts.

(** X14. [_init_services] succeeds exactly when both services are already
    built or the API key is set and not empty. When it raises it leaves the
    two globals as they were; when it succeeds both services are built, and
    every later call, whatever the environment then is, succeeds and
    changes nothing. From unset globals and a key it builds the two
    services with the default models and the key in their headers. *)
Theorem init_services_all_or_nothing getenv g :
  (snd (Services._init_services getenv g) = None
   <-> Services.ready g = true \/ Services.no_key getenv = false) /\
  (forall e, snd (Services._init_services getenv g) = Some e ->
     fst (Services._init_services getenv g) = g) /\
  (snd (Services._init_services getenv g) = None ->
   Services.ready (fst (Services._init_services getenv g)) = true /\
   forall getenv',
     Services._init_services getenv' (fst (Services._init_services getenv g))
     = (fst (Services._init_services getenv g), None)) /\
  (forall key, getenv = Some key -> key <> "" ->
   fst (Services._init_services getenv Services.unset)
   = Services.Globals
       (Some (Services.Extractor Services.HF_MODEL
                ("https://api-inference.huggingface.co/models/" ++ Services.HF_MODEL)
                key [("Authorization", "Bearer " ++ key)]))
       (Some (Services.Similarity Services.DEFAULT_EMBEDDING_MODEL key
                "https://api-inference.huggingface.co/embeddings"
                [("Authorization", "Bearer " ++ key);
                 ("Content-Type", "application/json")]))).
Proof.
  assert (snd (Services._init_services getenv g) = None ->
          Services.ready (fst (Services._init_services getenv g)) = true) as Hready.
  { destruct (Services.ready g) eqn:Hr; [by rewrite init_ready|].
    destruct (Services.no_key getenv) eqn:Hk; [|intros _; by apply init_key].
    destruct (init_no_key getenv g Hr Hk) as [e ->]. done. }
  split; [|split; [|split]].
  - split.
    + intros Hnone. destruct (Services.ready g) eqn:Hr; [by left|]. right.
      destruct (Services.no_key getenv) eqn:Hk; [|done].
      destruct (init_no_key getenv g Hr Hk) as [e He]. by rewrite He in Hnone.
    + intros [Hr|Hk]; [by rewrite init_ready|by apply init_key].
  - intros e He. destruct (Services.ready g) eqn:Hr; [by rewrite init_ready in He|].
    destruct (Services.no_key getenv) eqn:Hk.
    + by destruct (init_no_key getenv g Hr Hk) as [e' ->].
    + destruct (init_key getenv g Hk) as [Hn _]. congruence.
  - intros Hnone. split; [by apply Hready|].
    intros getenv'. apply init_ready. by apply Hready.
  - intros key -> Hkey.
    unfold Services._init_services, Services.new_extractor, Services.new_similarity.
    cbn [Services.unset Services._skill_extractor Services._semantic].
    apply String.eqb_neq in Hkey. by rewrite Hkey.
Qed.

Section IdFacts.

Lemma substring_prefix n m s :
  (n <= m)%nat -> String.substring 0 n (String.substring 0 m s) = String.substring 0 n s.
Proof.
  revert m s. induction n as [|n IH]; intros m s Hnm.
  - by destruct (String.substring 0 m s), s.
  - destruct m as [|m]; [lia|]. destruct s as [|c s]; [done|].
    simpl. f_equal. apply IH. lia.
Qed.

Lemma hex_digit_char n : 0 <= n < 16 -> Main.is_hex_char (MD5.hex_digit n) = true.
Proof.
  intros Hn.
  assert (forallb (fun k => Main.is_hex_char (MD5.hex_digit (Z.of_nat k))) (seq 0 16)
          = true) as Hall by reflexivity.
  rewrite forallb_forall in Hall.
  specialize (Hall (Z.to_nat n)). rewrite Z2Nat.id in Hall by lia.
  apply Hall, in_seq. lia.
Qed.

End IdFacts.

(** X15. [score_candidate] raises a [TypeError] exactly when the years of
    experience are null. Otherwise the candidate id is twelve lowercase
    hexadecimal digits, the first eight of which spell the seed the batch
    engine draws from the same resume; the first strength names the first
    three required skills at most, the second tells whether the years are
    positive. *)
Theorem candidate_id_and_seed request :
  (Main.score_candidate request =
     Raise (TypeError "'>' not supported between instances of 'NoneType' and 'int'")
   <-> Main.required_experience_years request = None) /\
  (forall response, Main.score_candidate request = Ok response ->
     String.length (Main.candidate_id response) = 12%nat /\
     forallb Main.is_hex_char (list_ascii_of_string (Main.candidate_id response)) = true /\
     int_of_hex (String.substring 0 8 (Main.candidate_id response))
     = seed (Main.request_resume_text request) /\
     strengths (Main.response_explanation response)
     = [("Strong match on required skills: "
           ++ String.concat ", " (firstn 3 (Main.request_required_skills request)))%string;
        if bool_decide (0 < default 0 (Main.required_experience_years request))
        then "Exceeds experience requirement"
        else "Relevant experience demonstrated"]).
Proof.
  unfold Main.score_candidate.
  destruct (Main.required_experience_years request) as [y|] eqn:Hy;
    cbn [Main.positive_years].
  - split; [split; discriminate|]. intros response [= <-].
    cbn [Main.candidate_id Main.response_explanation strengths].
    split; [|split; [|split]].
    + unfold MD5.hexdigest, MD5.digest.
      destruct (MD5.blocks _ _ _) as [a b c d]. reflexivity.
    + unfold MD5.hexdigest, MD5.digest.
      destruct (MD5.blocks _ _ _) as [a b c d].
      cbn [MD5.le_bytes app flat_map MD5.hex_byte string_of_list_ascii
           String.substring list_ascii_of_string forallb].
      rewrite !hex_digit_char; [done|apply byte_low || apply byte_high; apply le_byte..].
    + rewrite substring_prefix by lia. reflexivity.
    + change (default 0 (Some y)) with y. f_equal. f_equal.
      destruct (0 <? y) eqn:E.
      * apply Z.ltb_lt in E. by rewrite bool_decide_eq_true_2.
      * apply Z.ltb_ge in E. rewrite bool_decide_eq_false_2; [done|lia].
  - split; [done|]. discriminate.
Qed.

(** ** The chunker of the local extractor *)

Import HFSkillExtractor.

Section StripFacts.

Lemma chars_of_string l : list_ascii_of_string (string_of_list_ascii l) = l.
Proof. apply list_ascii_of_string_of_list_ascii. Qed.

Lemma string_of_chars s : string_of_list_ascii (list_ascii_of_string s) = s.
Proof. apply string_of_list_ascii_of_string. Qed.

Lemma length_chars s : length (list_ascii_of_string s) = String.length s.
Proof. induction s as [|c s IH]; simpl; congruence. Qed.

Lemma length_of_chars l : String.length (string_of_list_ascii l) = length l.
Proof. by rewrite <- length_chars, chars_of_string. Qed.

Lemma lstrip_length l : (length (lstrip l) <= length l)%nat.
Proof.
  induction l as [|c l IH]; simpl; [done|].
  destruct (PyStr.isspace c); simpl; lia.
Qed.

Lemma strip_length s : PyStr.len (strip s) <= PyStr.len s.
Proof.
  unfold PyStr.len, strip. rewrite length_of_chars, length_rev.
  pose proof (lstrip_length (rev (lstrip (list_ascii_of_string s)))) as H1.
  pose proof (lstrip_length (list_ascii_of_string s)) as H2.
  rewrite length_rev in H1. rewrite length_chars in H2. lia.
Qed.

Lemma lstrip_idem l : lstrip (lstrip l) = lstrip l.
Proof.
  induction l as [|c l IH]; simpl; [done|].
  destruct (PyStr.isspace c) eqn:E; [done|]. simpl. by rewrite E.
Qed.

(** What [lstrip] leaves starts with no whitespace. *)
Lemma lstrip_fixed l :
  lstrip l = l <-> match l with [] => True | c :: _ => PyStr.isspace c = false end.
Proof.
  destruct l as [|c l]; simpl; [done|].
  destruct (PyStr.isspace c) eqn:E; [|done].
  split; [|done]. intros H. pose proof (lstrip_length l) as Hl.
  rewrite H in Hl. simpl in Hl. lia.
Qed.

Lemma lstrip_head l :
  match lstrip l with [] => True | c :: _ => PyStr.isspace c = false end.
Proof. apply lstrip_fixed, lstrip_idem. Qed.

(** Stripping the end keeps a first character that is no whitespace. *)
Lemma lstrip_rev_head c l :
  PyStr.isspace c = false ->
  exists l', rev (lstrip (rev (c :: l))) = c :: l'.
Proof.
  intros Hc. induction l as [|x l IH] using rev_ind.
  - simpl. rewrite Hc. by exists [].
  - rewrite app_comm_cons, rev_unit. cbn [lstrip].
    destruct (PyStr.isspace x); [exact IH|].
    exists (l ++ [x])%list. by rewrite <- rev_unit, rev_involutive.
Qed.

Lemma strip_idem s : strip (strip s) = strip s.
Proof.
  unfold strip. rewrite chars_of_string. f_equal.
  set (l := lstrip (list_ascii_of_string s)).
  assert (lstrip (rev (lstrip (rev l))) = rev (lstrip (rev l))) as ->.
  { pose proof (lstrip_head (list_ascii_of_string s)) as Hh. fold l in Hh.
    destruct l as [|c l']; [done|].
    destruct (lstrip_rev_head c l' Hh) as [l'' ->].
    simpl. by rewrite Hh. }
  by rewrite rev_involutive, lstrip_idem.
Qed.

Lemma filter_lstrip l :
  List.filter (fun c => negb (PyStr.isspace c)) (lstrip l)
  = List.filter (fun c => negb (PyStr.isspace c)) l.
Proof.
  induction l as [|c l IH]; simpl; [done|].
  destruct (PyStr.isspace c) eqn:E; simpl; [done|]. by rewrite E.
Qed.

Lemma filter_rev {A} (f : A -> bool) (l : list A) :
  List.filter f (rev l) = rev (List.filter f l).
Proof.
  induction l as [|a l IH]; simpl; [done|].
  rewrite List.filter_app, IH. simpl. destruct (f a); simpl; [done|].
  by rewrite app_nil_r.
Qed.

Lemma inked_strip s : inked (strip s) = inked s.
Proof.
  unfold inked, strip. rewrite chars_of_string.
  by rewrite filter_rev, filter_lstrip, filter_rev, rev_involutive, filter_lstrip.
Qed.

Lemma strip_empty s : strip s = "" <-> inked s = [].
Proof.
  split.
  - intros H. by rewrite <- inked_strip, H.
  - unfold inked, strip. intros H.
    assert (lstrip (list_ascii_of_string s) = []) as ->; [|done].
    induction (list_ascii_of_string s) as [|c l IH]; simpl in *; [done|].
    destruct (PyStr.isspace c); simpl in H; [by apply IH|done].
Qed.

End StripFacts.

Section SliceFacts.

Lemma slice_length s a b :
  0 <= a <= b -> PyStr.len (slice s a b) <= b - a.
Proof.
  intros Ha. unfold slice, PyStr.len. rewrite length_of_chars, length_take.
  unfold slice_index.
  rewrite (proj2 (Z.ltb_ge a 0)), (proj2 (Z.ltb_ge b 0)) by lia. lia.
Qed.

(** Inside the text a slice is the characters between its two indices. *)
Lemma slice_chars s a b :
  0 <= a <= b -> b <= PyStr.len s ->
  list_ascii_of_string (slice s a b)
  = take (Z.to_nat b - Z.to_nat a) (drop (Z.to_nat a) (list_ascii_of_string s)).
Proof.
  intros Hab Hb. unfold slice, slice_index. rewrite chars_of_string.
  rewrite (proj2 (Z.ltb_ge a 0)), (proj2 (Z.ltb_ge b 0)) by lia.
  rewrite !Z.min_l by lia. f_equal. lia.
Qed.

(** A slice to an index at or past the end is the rest of the text. *)
Lemma slice_rest s a b :
  0 <= a -> PyStr.len s <= b ->
  list_ascii_of_string (slice s a b) = drop (Z.to_nat a) (list_ascii_of_string s).
Proof.
  intros Ha Hb. unfold slice, slice_index. rewrite chars_of_string.
  unfold PyStr.len in *.
  rewrite (proj2 (Z.ltb_ge a 0)), (proj2 (Z.ltb_ge b 0)) by lia.
  destruct (Z.le_gt_cases a (Z.of_nat (String.length s))).
  - rewrite (Z.min_l a) by lia. apply take_ge. rewrite length_drop, length_chars. lia.
  - rewrite !drop_ge by (rewrite length_chars; lia). apply take_nil.
Qed.

Lemma drop_split {A} (l : list A) (a b : nat) :
  (a <= b)%nat -> drop a l = (take (b - a) (drop a l) ++ drop b l)%list.
Proof.
  intros Hab. rewrite <- (take_drop (b - a) (drop a l)) at 1.
  rewrite drop_drop. do 2 f_equal. lia.
Qed.

End SliceFacts.

Section FindFacts.

(** The result of the scan is the index found so far or an index of the
    window at which the character stands. *)
Lemma rfind_go_spec c l i start stop found :
  let r := rfind_go c l i start stop found in
  r = found \/
  (start <= r < stop /\ i <= r < i + Z.of_nat (length l) /\
   l !! Z.to_nat (r - i) = Some c).
Proof.
  revert i found. induction l as [|x l IH]; intros i found; simpl; [by left|].
  destruct (IH (i + 1)
              (if (start <=? i) && (i <? stop) && Ascii.eqb x c then i else found))
    as [H|(H1 & H2 & H3)].
  - rewrite H.
    destruct ((start <=? i) && (i <? stop) && Ascii.eqb x c) eqn:E; [|by left].
    right. apply andb_prop in E as [E Ec]. apply andb_prop in E as [E1 E2].
    apply Ascii.eqb_eq in Ec as ->.
    split; [lia|]. split; [lia|]. by rewrite Z.sub_diag.
  - right. split; [done|]. split; [lia|].
    replace (Z.to_nat (rfind_go c l (i + 1) start stop
               (if (start <=? i) && (i <? stop) && Ascii.eqb x c then i else found)
               - i))
      with (S (Z.to_nat (rfind_go c l (i + 1) start stop
               (if (start <=? i) && (i <? stop) && Ascii.eqb x c then i else found)
               - (i + 1)))) by lia.
    exact H3.
Qed.

(** The scan misses no index of the window at which the character stands. *)
Lemma rfind_go_last c l i start stop found k :
  found < i ->
  start <= k < stop -> i <= k -> l !! Z.to_nat (k - i) = Some c ->
  k <= rfind_go c l i start stop found.
Proof.
  revert i found. induction l as [|x l IH]; intros i found Hf Hk Hik Hl; [done|].
  simpl.
  destruct (decide (k = i)) as [->|Hne].
  - rewrite Z.sub_diag in Hl. simpl in Hl. injection Hl as ->.
    rewrite Ascii.eqb_refl, andb_true_r.
    rewrite (proj2 (Z.leb_le start i)), (proj2 (Z.ltb_lt i stop)) by lia. simpl.
    destruct (rfind_go_spec c l (i + 1) start stop i) as [->|(_ & H & _)]; lia.
  - apply IH; [destruct (_ && _); lia|done|lia|].
    replace (Z.to_nat (k - i)) with (S (Z.to_nat (k - (i + 1)))) in Hl by lia.
    exact Hl.
Qed.

Lemma rfind_spec s c start stop :
  0 <= start -> 0 <= stop <= PyStr.len s ->
  rfind s c start stop = -1 \/
  (start <= rfind s c start stop < stop /\
   list_ascii_of_string s !! Z.to_nat (rfind s c start stop) = Some c).
Proof.
  intros Hs He. unfold rfind.
  rewrite (proj2 (Z.ltb_ge (PyStr.len s) stop)), (proj2 (Z.ltb_ge stop 0)),
    (proj2 (Z.ltb_ge start 0)) by lia.
  destruct (rfind_go_spec c (list_ascii_of_string s) 0 start stop (-1))
    as [H|(H1 & H2 & H3)]; [by left|right].
  rewrite Z.sub_0_r in H3. done.
Qed.

(** The index found is below the length of the text, whatever the two
    bounds. *)
Lemma rfind_below s c start stop : rfind s c start stop < Z.max 0 (PyStr.len s).
Proof.
  unfold rfind.
  match goal with
  | |- rfind_go _ _ _ ?a ?b _ < _ =>
      destruct (rfind_go_spec c (list_ascii_of_string s) 0 a b (-1))
        as [H|(H1 & H2 & H3)]
  end.
  - rewrite H. lia.
  - rewrite length_chars in H2. unfold PyStr.len in *. lia.
Qed.

End FindFacts.

Section ChunkFacts.

Lemma len_nonneg s : 0 <= PyStr.len s.
Proof. unfold PyStr.len. lia. Qed.

(** With a positive size a cut lies after the start and at most the size
    away. *)
Lemma chunk_end_bounds text approx_max_chars start :
  1 <= approx_max_chars -> 0 <= start ->
  start < chunk_end text approx_max_chars start <= start + approx_max_chars.
Proof.
  intros Hm Hs. unfold chunk_end.
  destruct (Z.ltb_spec (start + approx_max_chars) (PyStr.len text)) as [Hlt|Hge]; [|lia].
  pose proof (rfind_spec text " "%char start (start + approx_max_chars)
                ltac:(lia) ltac:(lia)) as Hr.
  destruct (Z.ltb_spec start (rfind text " " start (start + approx_max_chars))); lia.
Qed.

(** With a size that is not positive a cut stays inside the text. *)
Lemma chunk_end_inside text approx_max_chars start :
  approx_max_chars <= 0 -> start < PyStr.len text ->
  chunk_end text approx_max_chars start < PyStr.len text.
Proof.
  intros Hm Hs. unfold chunk_end.
  destruct (Z.ltb_spec (start + approx_max_chars) (PyStr.len text)) as [Hlt|Hge]; [|lia].
  pose proof (rfind_below text " "%char start (start + approx_max_chars)) as Hr.
  pose proof (len_nonneg text).
  destruct (Z.ltb_spec start (rfind text " " start (start + approx_max_chars))); lia.
Qed.

(** The characters of a slice and the ones after it are the ones from its
    start on. *)
Lemma slice_then_rest s a b :
  0 <= a <= b ->
  (list_ascii_of_string (slice s a b) ++ drop (Z.to_nat b) (list_ascii_of_string s))%list
  = drop (Z.to_nat a) (list_ascii_of_string s).
Proof.
  intros Hab. destruct (Z.le_gt_cases b (PyStr.len s)) as [Hb|Hb].
  - rewrite slice_chars by lia. symmetry. apply drop_split. lia.
  - rewrite slice_rest by lia.
    rewrite (drop_ge _ (Z.to_nat b)); [apply app_nil_r|].
    rewrite length_chars. unfold PyStr.len in Hb. lia.
Qed.

Lemma stripped_strip s : stripped (strip s) = true.
Proof. unfold stripped. rewrite strip_idem. apply String.eqb_refl. Qed.

(** More fuel does not change what the loop returns. *)
Lemma chunk_loop_more text approx_max_chars fuel fuel' start chunks :
  (fuel <= fuel')%nat ->
  chunk_loop fuel text approx_max_chars start = Some chunks ->
  chunk_loop fuel' text approx_max_chars start = Some chunks.
Proof.
  revert fuel' start chunks.
  induction fuel as [|fuel IH]; intros fuel' start chunks Hle; simpl.
  - destruct (start <? PyStr.len text) eqn:E; [done|]. intros [= <-].
    destruct fuel'; simpl; by rewrite E.
  - destruct (start <? PyStr.len text) eqn:E.
    + destruct fuel' as [|fuel']; [lia|]. simpl. rewrite E.
      destruct (chunk_loop fuel text approx_max_chars
                  (chunk_end text approx_max_chars start)) as [rest|] eqn:Hrest; [|done].
      intros [= <-]. by rewrite (IH fuel' _ rest ltac:(lia) Hrest).
    + intros [= <-]. destruct fuel'; simpl; by rewrite E.
Qed.

(** With a positive size the loop ends within as many iterations as there
    are characters left, and its chunks are the text from [start] on, cut
    into stripped pieces of at most that size. *)
Lemma chunk_loop_total text approx_max_chars :
  1 <= approx_max_chars ->
  forall fuel start,
    0 <= start -> PyStr.len text - start <= Z.of_nat fuel ->
    exists chunks,
      chunk_loop fuel text approx_max_chars start = Some chunks /\
      Forall (fun c => PyStr.len c <= approx_max_chars) chunks /\
      Forall (fun c => stripped c = true) chunks /\
      Z.of_nat (length chunks) <= Z.max 0 (PyStr.len text - start) /\
      concat (map inked chunks)
      = List.filter (fun c => negb (PyStr.isspace c))
          (drop (Z.to_nat start) (list_ascii_of_string text)).
Proof.
  intros Hm. induction fuel as [|fuel IH]; intros start Hs Hf; simpl.
  - rewrite (proj2 (Z.ltb_ge start (PyStr.len text))) by lia.
    exists []. split; [done|]. split; [done|]. split; [done|].
    split; [cbn [length]; lia|].
    rewrite drop_ge; [done|]. rewrite length_chars. unfold PyStr.len in Hf. lia.
  - destruct (Z.ltb_spec start (PyStr.len text)) as [Hlt|Hge].
    + pose proof (chunk_end_bounds text approx_max_chars start Hm Hs) as Hend.
      set (stop := chunk_end text approx_max_chars start) in *.
      destruct (IH stop ltac:(lia) ltac:(lia)) as (rest & -> & Hlen & Hstr & Hnum & Hink).
      eexists. split; [reflexivity|]. split; [|split; [|split]].
      * constructor; [|done].
        pose proof (strip_length (slice text start stop)).
        pose proof (slice_length text start stop ltac:(lia)). lia.
      * constructor; [apply stripped_strip|done].
      * cbn [length]. lia.
      * cbn [map concat]. rewrite Hink, inked_strip. unfold inked.
        rewrite <- List.filter_app. f_equal. apply slice_then_rest. lia.
    + exists []. split; [done|]. split; [done|]. split; [done|].
      split; [cbn [length]; lia|].
      rewrite drop_ge; [done|]. rewrite length_chars. unfold PyStr.len in Hge. lia.
Qed.

(** With a size that is not positive the loop does not end from a start
    inside the text. *)
Lemma chunk_loop_hangs text approx_max_chars :
  approx_max_chars <= 0 ->
  forall fuel start,
    start < PyStr.len text -> chunk_loop fuel text approx_max_chars start = None.
Proof.
  intros Hm. induction fuel as [|fuel IH]; intros start Hs; simpl;
    rewrite (proj2 (Z.ltb_lt start (PyStr.len text))) by done; [done|].
  by rewrite IH by (by apply chunk_end_inside).
Qed.

(** The whole function, with a positive size. *)
Lemma chunk_text_total text approx_max_chars :
  1 <= approx_max_chars ->
  exists chunks,
    (forall fuel, (String.length text <= fuel)%nat ->
       _chunk_text fuel text approx_max_chars = Some chunks) /\
    Forall (fun c => PyStr.len c <= approx_max_chars) chunks /\
    Forall (fun c => stripped c = true) chunks /\
    (length chunks <= String.length text)%nat /\
    concat (map inked chunks) = inked text.
Proof.
  intros Hm. unfold _chunk_text.
  destruct (String.eqb_spec text "") as [->|Hne].
  { exists []. repeat split; try done. }
  pose proof (strip_length text) as Hlen.
  destruct (Z.leb_spec (PyStr.len (strip text)) approx_max_chars) as [Hshort|Hlong].
  { exists [strip text]. split; [done|]. split; [by constructor|].
    split; [constructor; [apply stripped_strip|done]|]. split.
    - destruct text; [done|]. simpl. lia.
    - cbn [map concat]. by rewrite app_nil_r, inked_strip. }
  destruct (chunk_loop_total (strip text) approx_max_chars Hm
              (String.length text) 0 ltac:(lia))
    as (chunks & Hrun & H1 & H2 & H3 & H4).
  { unfold PyStr.len in *. lia. }
  exists chunks. split; [|split; [done|split; [done|split]]].
  - intros fuel Hfuel. by apply (chunk_loop_more _ _ (String.length text)).
  - unfold PyStr.len in *. lia.
  - rewrite H4. change (Z.to_nat 0) with 0%nat. rewrite drop_0.
    apply inked_strip.
Qed.

End ChunkFacts.

(** X16. With a positive size [_chunk_text] returns, within as many
    iterations of its loop as the text has characters, and the same list
    with any more fuel: every chunk is stripped and has at most
    [approx_max_chars] characters, and there are at most as many chunks as
    characters. *)
Theorem chunk_text_bounded text approx_max_chars :
  1 <= approx_max_chars ->
  exists chunks,
    (forall fuel, (String.length text <= fuel)%nat ->
       _chunk_text fuel text approx_max_chars = Some chunks) /\
    Forall (fun c => PyStr.len c <= approx_max_chars /\ stripped c = true) chunks /\
    (length chunks <= String.length text)%nat.
Proof.
  intros Hm.
  destruct (chunk_text_total text approx_max_chars Hm) as (chunks & H & H1 & H2 & H3 & _).
  exists chunks. split; [done|]. split; [|done].
  rewrite Forall_forall in *. intros c Hc. split; [by apply H1|by apply H2].
Qed.

Lemma chunk_text_bounded_witness :
  1 <= 4 /\
  exists chunks,
    (forall fuel, (String.length "ab cd ef" <= fuel)%nat ->
       _chunk_text fuel "ab cd ef" 4 = Some chunks) /\
    Forall (fun c => PyStr.len c <= 4 /\ stripped c = true) chunks /\
    (length chunks <= String.length "ab cd ef")%nat.
Proof. split; [lia|]. apply (chunk_text_bounded "ab cd ef" 4). lia. Defined.

(** X17. Chunking loses, adds and reorders no character other than
    whitespace: the characters of the chunks that are no whitespace are, in
    order, those of the text. *)
Theorem chunk_text_keeps_ink fuel text approx_max_chars :
  1 <= approx_max_chars -> (String.length text <= fuel)%nat ->
  (fun chunks => concat (map inked chunks)) <$> _chunk_text fuel text approx_max_chars
  = Some (inked text).
Proof.
  intros Hm Hfuel.
  destruct (chunk_text_total text approx_max_chars Hm) as (chunks & H & _ & _ & _ & Hink).
  rewrite (H fuel Hfuel). simpl. by rewrite Hink.
Qed.

Lemma chunk_text_keeps_ink_witness :
  1 <= 4 /\ (String.length "ab cd ef" <= 8)%nat /\
  (fun chunks => concat (map inked chunks)) <$> _chunk_text 8 "ab cd ef" 4
  = Some (inked "ab cd ef").
Proof.
  split; [lia|]. split; [simpl; lia|].
  apply (chunk_text_keeps_ink 8 "ab cd ef" 4); simpl; lia.
Defined.

(** X18. With a size of zero or less [_chunk_text] does not return on a
    text that is not empty once stripped: no amount of fuel ends its
    loop. *)
Theorem chunk_text_needs_positive_size text approx_max_chars :
  approx_max_chars <= 0 -> strip text <> "" ->
  forall fuel, _chunk_text fuel text approx_max_chars = None.
Proof.
  intros Hm Hne fuel. unfold _chunk_text.
  destruct (String.eqb_spec text "") as [->|_]; [done|].
  assert (0 < PyStr.len (strip text)) as Hlen.
  { unfold PyStr.len. destruct (strip text); [done|]. simpl. lia. }
  rewrite (proj2 (Z.leb_gt (PyStr.len (strip text)) approx_max_chars)) by lia.
  apply chunk_loop_hangs; [done|lia].
Qed.

Lemma chunk_text_needs_positive_size_witness :
  0 <= 0 /\ strip "ab" <> "" /\ forall fuel, _chunk_text fuel "ab" 0 = None.
Proof.
  split; [lia|]. split; [discriminate|].
  apply (chunk_text_needs_positive_size "ab" 0); [lia|discriminate].
Defined.

(** A chunk can be empty: a run of spaces longer than the size leaves
    one. *)
Example empty_chunk : _chunk_text 7 "a     b" 3 = Some ["a"; ""; "b"].
Proof. reflexivity. Qed.

Example chunks_of_example : _chunk_text 8 "ab cd ef" 4 = Some ["ab"; "cd"; "ef"].
Proof. reflexivity. Qed.

Section WordCutFacts.

(** [split] on a text cut before a whitespace character, or at its end. *)
Lemma split_go_app l1 l2 cur :
  match l2 with [] => True | c :: _ => PyStr.isspace c = true end ->
  PyStr.split_go cur (string_of_list_ascii (l1 ++ l2))
  = (PyStr.split_go cur (string_of_list_ascii l1)
       ++ PyStr.split_go [] (string_of_list_ascii l2))%list.
Proof.
  intros Hl2. revert cur. induction l1 as [|x l1 IH]; intros cur.
  - cbn [app string_of_list_ascii PyStr.split_go].
    destruct l2 as [|c l2].
    + cbn [string_of_list_ascii PyStr.split_go]. by rewrite app_nil_r.
    + cbn [string_of_list_ascii PyStr.split_go]. rewrite Hl2. by destruct cur.
  - cbn [app string_of_list_ascii PyStr.split_go].
    destruct (PyStr.isspace x); [|apply IH].
    destruct cur; [apply IH|]. by rewrite IH.
Qed.

Lemma split_spaces ws :
  Forall (fun c => PyStr.isspace c = true) ws ->
  PyStr.split_go [] (string_of_list_ascii ws) = [].
Proof.
  induction 1 as [|c ws Hc _ IH]; [done|].
  cbn [string_of_list_ascii PyStr.split_go]. by rewrite Hc.
Qed.

Lemma lstrip_decompose l :
  exists ws, l = (ws ++ lstrip l)%list /\ Forall (fun c => PyStr.isspace c = true) ws.
Proof.
  induction l as [|c l (ws & Hl & Hws)]; [by exists []|].
  cbn [lstrip]. destruct (PyStr.isspace c) eqn:E.
  - exists (c :: ws). split; [by rewrite Hl at 1|by constructor].
  - by exists [].
Qed.

Lemma split_lstrip l :
  PyStr.split_go [] (string_of_list_ascii (lstrip l))
  = PyStr.split_go [] (string_of_list_ascii l).
Proof.
  induction l as [|c l IH]; [done|].
  cbn [lstrip]. destruct (PyStr.isspace c) eqn:E; [|done].
  cbn [string_of_list_ascii PyStr.split_go]. by rewrite E.
Qed.

Lemma split_rstrip l :
  PyStr.split_go [] (string_of_list_ascii (rev (lstrip (rev l))))
  = PyStr.split_go [] (string_of_list_ascii l).
Proof.
  destruct (lstrip_decompose (rev l)) as (ws & Hl & Hws).
  assert (l = (rev (lstrip (rev l)) ++ rev ws)%list) as Hsplit.
  { by rewrite <- rev_app_distr, <- Hl, rev_involutive. }
  rewrite Hsplit at 2.
  assert (Forall (fun c => PyStr.isspace c = true) (rev ws)) as Hrev.
  { rewrite Forall_forall in *. intros c Hc. apply Hws.
    rewrite list_elem_of_In in *. by apply in_rev. }
  rewrite split_go_app, (split_spaces _ Hrev), app_nil_r; [done|].
  by destruct Hrev.
Qed.

Lemma split_strip s : PyStr.split (strip s) = PyStr.split s.
Proof.
  unfold PyStr.split, strip.
  by rewrite split_rstrip, split_lstrip, string_of_chars.
Qed.

(** The last occurrence misses no occurrence of the window. *)
Lemma rfind_last s c start stop k :
  0 <= start -> 0 <= stop <= PyStr.len s ->
  start <= k < stop -> list_ascii_of_string s !! Z.to_nat k = Some c ->
  k <= rfind s c start stop.
Proof.
  intros Hs He Hk Hl. unfold rfind.
  rewrite (proj2 (Z.ltb_ge (PyStr.len s) stop)), (proj2 (Z.ltb_ge stop 0)),
    (proj2 (Z.ltb_ge start 0)) by lia.
  apply rfind_go_last; [lia|done|lia|]. by rewrite Z.sub_0_r.
Qed.

Lemma has_space_lookup l :
  has_space l = true -> exists k, l !! k = Some " "%char.
Proof.
  unfold has_space. rewrite existsb_exists. intros (c & Hin & Hc).
  apply Ascii.eqb_eq in Hc as <-. by apply list_elem_of_In, list_elem_of_lookup in Hin.
Qed.

(** In a spaced text every run of the width holds a space. *)
Lemma spaced_window text width i :
  spaced text width = true -> (i + width <= String.length text)%nat ->
  exists j, (i <= j < i + width)%nat /\
            list_ascii_of_string text !! j = Some " "%char.
Proof.
  unfold spaced. rewrite forallb_forall. intros Hall Hi.
  destruct (has_space_lookup _ (Hall i ltac:(apply in_seq; lia))) as [k Hk].
  apply lookup_take_Some in Hk as [Hk Hlt]. rewrite lookup_drop in Hk.
  exists (i + k)%nat. split; [lia|done].
Qed.

(** In a text spaced for the size, a cut inside the text falls on a
    space. *)
Lemma chunk_end_on_space text approx_max_chars start :
  1 <= approx_max_chars -> 0 <= start ->
  spaced text (Z.to_nat (approx_max_chars - 1)) = true ->
  chunk_end text approx_max_chars start < PyStr.len text ->
  list_ascii_of_string text !! Z.to_nat (chunk_end text approx_max_chars start)
  = Some " "%char.
Proof.
  intros Hm Hs Hsp. unfold chunk_end.
  destruct (Z.ltb_spec (start + approx_max_chars) (PyStr.len text)) as [Hlt|Hge]; [|lia].
  intros _.
  destruct (spaced_window text (Z.to_nat (approx_max_chars - 1)) (Z.to_nat (start + 1)) Hsp)
    as (j & Hj & Hspace).
  { unfold PyStr.len in Hlt. lia. }
  pose proof (rfind_last text " "%char start (start + approx_max_chars) (Z.of_nat j)
                ltac:(lia) ltac:(lia) ltac:(lia)) as Hlast.
  rewrite Nat2Z.id in Hlast. specialize (Hlast Hspace).
  rewrite (proj2 (Z.ltb_lt start (rfind text " " start (start + approx_max_chars))))
    by lia.
  destruct (rfind_spec text " "%char start (start + approx_max_chars)
              ltac:(lia) ltac:(lia)) as [Hr|[_ Hr]]; [lia|done].
Qed.

(** The words of the chunks of the loop are those of the text from
    [start] on. *)
Lemma chunk_loop_words text approx_max_chars :
  1 <= approx_max_chars ->
  spaced text (Z.to_nat (approx_max_chars - 1)) = true ->
  forall fuel start chunks,
    0 <= start ->
    chunk_loop fuel text approx_max_chars start = Some chunks ->
    concat (map PyStr.split chunks)
    = PyStr.split_go []
        (string_of_list_ascii (drop (Z.to_nat start) (list_ascii_of_string text))).
Proof.
  intros Hm Hsp. induction fuel as [|fuel IH]; intros start chunks Hs; simpl.
  - destruct (Z.ltb_spec start (PyStr.len text)) as [Hlt|Hge]; [done|].
    intros [= <-]. rewrite drop_ge; [done|].
    rewrite length_chars. unfold PyStr.len in Hge. lia.
  - destruct (Z.ltb_spec start (PyStr.len text)) as [Hlt|Hge].
    + pose proof (chunk_end_bounds text approx_max_chars start Hm Hs) as Hend.
      pose proof (chunk_end_on_space text approx_max_chars start Hm Hs Hsp) as Hcut.
      set (stop := chunk_end text approx_max_chars start) in *.
      destruct (chunk_loop fuel text approx_max_chars stop) as [rest|] eqn:Hrest; [|done].
      intros [= <-]. cbn [map concat].
      rewrite (IH stop rest ltac:(lia) Hrest), split_strip.
      rewrite <- (slice_then_rest text start stop) by lia.
      unfold PyStr.split. rewrite split_go_app, string_of_chars; [done|].
      destruct (Z.lt_ge_cases stop (PyStr.len text)) as [Hin|Hout].
      * specialize (Hcut Hin).
        by rewrite (drop_S _ _ _ Hcut).
      * rewrite drop_ge; [done|]. rewrite length_chars. unfold PyStr.len in Hout. lia.
    + intros [= <-]. rewrite drop_ge; [done|].
      rewrite length_chars. unfold PyStr.len in Hge. lia.
Qed.

End WordCutFacts.

(** X19. When every run of [approx_max_chars - 1] characters of the
    stripped text holds a space, so that no word has that many characters,
    chunking cuts no word: the words of the chunks, in order, are the words
    of the text. *)
Theorem chunk_text_keeps_words fuel text approx_max_chars :
  1 <= approx_max_chars -> (String.length text <= fuel)%nat ->
  spaced (strip text) (Z.to_nat (approx_max_chars - 1)) = true ->
  (fun chunks => concat (map PyStr.split chunks))
    <$> _chunk_text fuel text approx_max_chars
  = Some (PyStr.split text).
Proof.
  intros Hm Hfuel Hsp.
  destruct (chunk_text_total text approx_max_chars Hm) as (chunks & H & _).
  specialize (H fuel Hfuel). rewrite H. cbn [fmap option_fmap option_map]. f_equal.
  unfold _chunk_text in H.
  destruct (String.eqb_spec text "") as [->|Hne]; [by injection H as <-|].
  destruct (Z.leb_spec (PyStr.len (strip text)) approx_max_chars) as [Hshort|Hlong].
  - injection H as <-. cbn [map concat]. by rewrite app_nil_r, split_strip.
  - rewrite (chunk_loop_words (strip text) approx_max_chars Hm Hsp fuel 0 chunks
               ltac:(lia) H).
    change (Z.to_nat 0) with 0%nat. rewrite drop_0, string_of_chars.
    apply split_strip.
Qed.

Lemma chunk_text_keeps_words_witness :
  1 <= 4 /\ (String.length "ab cd ef" <= 8)%nat /\
  spaced (strip "ab cd ef") (Z.to_nat (4 - 1)) = true /\
  (fun chunks => concat (map PyStr.split chunks)) <$> _chunk_text 8 "ab cd ef" 4
  = Some (PyStr.split "ab cd ef").
Proof.
  split; [lia|]. split; [simpl; lia|]. split; [reflexivity|].
  apply (chunk_text_keeps_words 8 "ab cd ef" 4); [lia|simpl; lia|reflexivity].
Defined.

(** A word of the size or more is cut. *)
Example long_word_is_cut :
  _chunk_text 7 "abcdefg" 4 = Some ["abcd"; "efg"] /\
  PyStr.split "abcdefg" = ["abcdefg"].
Proof. split; reflexivity. Qed.

(** ** The two skill extractors *)

Section SortedFacts.

Lemma sorted_perm (skills : gset string) : sorted skills ≡ₚ elements skills.
Proof. apply merge_sort_Permutation. Qed.

Lemma elem_of_sorted (skills : gset string) s : s ∈ sorted skills <-> s ∈ skills.
Proof. by rewrite sorted_perm, elem_of_elements. Qed.

Lemma sorted_ascending (skills : gset string) :
  StronglySorted String.le (sorted skills).
Proof. apply StronglySorted_merge_sort; apply _. Qed.

Lemma sorted_NoDup (skills : gset string) : NoDup (sorted skills).
Proof. rewrite sorted_perm. apply NoDup_elements. Qed.

Lemma sorted_empty : sorted ∅ = [].
Proof. reflexivity. Qed.

End SortedFacts.

Section ReplaceFacts.

Lemma string_of_app l1 l2 :
  string_of_list_ascii (l1 ++ l2)
  = string_of_list_ascii l1 ++ string_of_list_ascii l2.
Proof. induction l1 as [|c l1 IH]; simpl; [done|]. by rewrite IH. Qed.

Lemma prefix_app sub a b :
  String.prefix sub a = true -> String.prefix sub (a ++ b) = true.
Proof.
  revert a. induction sub as [|c sub IH]; intros a.
  - intros _. by destruct (a ++ b).
  - destruct a as [|x a]; [done|]. simpl.
    destruct (ascii_dec c x); [apply IH|done].
Qed.

Lemma contains_app_l sub a b :
  PyStr.contains sub a = true -> PyStr.contains sub (a ++ b) = true.
Proof.
  induction a as [|x a IH].
  - destruct sub; [|done]. intros _. by destruct b.
  - cbn [PyStr.contains]. intros [H|H]%orb_prop.
    + pose proof (prefix_app _ (String x a) b H) as Hp.
      change (String x a ++ b) with (String x (a ++ b)) in *.
      cbn [PyStr.contains]. by rewrite Hp.
    + change (String x a ++ b) with (String x (a ++ b)).
      cbn [PyStr.contains]. rewrite (IH H). apply orb_true_r.
Qed.

Lemma contains_app_r sub a b :
  PyStr.contains sub b = true -> PyStr.contains sub (a ++ b) = true.
Proof.
  intros H. induction a as [|x a IH]; [done|].
  change (String x a ++ b) with (String x (a ++ b)).
  cbn [PyStr.contains]. rewrite IH. apply orb_true_r.
Qed.

(** What stripping leaves is a piece of the text. *)
Lemma strip_piece s : exists a b, s = a ++ strip s ++ b.
Proof.
  unfold strip.
  destruct (lstrip_decompose (list_ascii_of_string s)) as (ws & Hl & _).
  destruct (lstrip_decompose (rev (lstrip (list_ascii_of_string s)))) as (ws' & Hr & _).
  exists (string_of_list_ascii ws), (string_of_list_ascii (rev ws')).
  rewrite <- !string_of_app, <- rev_app_distr, <- Hr, rev_involutive, <- Hl.
  symmetry. apply string_of_chars.
Qed.

Lemma contains_strip sub s :
  PyStr.contains sub (strip s) = true -> PyStr.contains sub s = true.
Proof.
  intros H. destruct (strip_piece s) as (a & b & Hs). rewrite Hs.
  by apply contains_app_r, contains_app_l.
Qed.

(** The three cases of the removal of ["##"]. *)
Lemma prefix_nil s : String.prefix "" s = true.
Proof. by destruct s. Qed.

Lemma remove_pair s :
  replace "##" "" (String "#" (String "#" s)) = replace "##" "" s.
Proof.
  unfold replace. cbn [replace_go String.prefix].
  destruct (ascii_dec "#" "#") as [_|E]; [|done].
  by rewrite prefix_nil.
Qed.

Lemma remove_single : replace "##" "" "#" = "#".
Proof. reflexivity. Qed.

Lemma remove_other c s :
  c <> "#"%char -> replace "##" "" (String c s) = String c (replace "##" "" s).
Proof.
  intros Hc. unfold replace. cbn [replace_go String.prefix].
  destruct (ascii_dec "#" c) as [E|_]; [by subst|done].
Qed.

Lemma remove_hash_other c s :
  c <> "#"%char ->
  replace "##" "" (String "#" (String c s))
  = String "#" (replace "##" "" (String c s)).
Proof.
  intros Hc. unfold replace. cbn [replace_go String.prefix].
  destruct (ascii_dec "#" "#") as [_|E]; [|done].
  destruct (ascii_dec "#" c) as [E|_]; [by subst|done].
Qed.

Lemma contains_pair c s :
  PyStr.contains "##" (String c s)
  = (Ascii.eqb c "#" && starts_with_hash s) || PyStr.contains "##" s.
Proof.
  cbn [PyStr.contains String.prefix]. f_equal.
  destruct (ascii_dec "#" c) as [<-|Hc].
  - destruct s as [|x s]; [done|]. cbn [starts_with_hash String.prefix].
    destruct (ascii_dec "#" x) as [<-|Hx]; [by rewrite prefix_nil|].
    symmetry. apply andb_false_iff. right. apply Ascii.eqb_neq. congruence.
  - symmetry. apply andb_false_iff. left. apply Ascii.eqb_neq. congruence.
Qed.

(** After the removal no ["##"] is left, and the text starts with a [#]
    only if it did before. *)
Lemma replace_no_pair n s :
  (String.length s <= n)%nat ->
  PyStr.contains "##" (replace "##" "" s) = false /\
  (starts_with_hash s = false -> starts_with_hash (replace "##" "" s) = false).
Proof.
  revert s. induction n as [n IH] using lt_wf_ind. intros s Hn.
  destruct s as [|c s]; [done|].
  destruct (Ascii.eqb_spec c "#") as [->|Hc].
  - destruct s as [|x s]; [done|].
    destruct (Ascii.eqb_spec x "#") as [->|Hx].
    + rewrite remove_pair. cbn [String.length] in Hn.
      destruct (IH (String.length s) ltac:(lia) s ltac:(lia)) as [H _].
      split; [done|]. intros E. cbn in E. done.
    + rewrite remove_hash_other by done. cbn [String.length] in Hn.
      destruct (IH (S (String.length s)) ltac:(lia) (String x s) ltac:(simpl; lia))
        as [H1 H2].
      split; [|done]. rewrite contains_pair, H1, H2; [done|].
      cbn [starts_with_hash]. by apply Ascii.eqb_neq.
  - rewrite remove_other by done. cbn [String.length] in Hn.
    destruct (IH (String.length s) ltac:(lia) s ltac:(lia)) as [H1 H2].
    split.
    + rewrite contains_pair, H1. apply Ascii.eqb_neq in Hc. by rewrite Hc.
    + intros _. cbn [starts_with_hash]. by apply Ascii.eqb_neq.
Qed.

End ReplaceFacts.

Section EntityFacts.

Variable word_of : dict -> pyval.
Variable min_score : num.

Lemma normalized_clean word skill :
  normalized word = Ok skill -> skill <> "" -> clean skill = true.
Proof.
  unfold normalized. destruct word as [| | |s| |]; try done.
  cbn [as_str mbind res_bind]. intros [= <-] Hne. unfold clean.
  rewrite stripped_strip. apply String.eqb_neq in Hne. rewrite Hne.
  cbn [negb andb]. apply negb_true_iff.
  destruct (PyStr.contains "##" (strip (replace "##" "" s))) eqn:E; [|done].
  apply contains_strip in E.
  by rewrite (proj1 (replace_no_pair (String.length s) s ltac:(lia))) in E.
Qed.

Lemma entity_skill_clean ent skill :
  entity_skill word_of min_score ent = Ok (Some skill) -> clean skill = true.
Proof.
  unfold entity_skill. destruct ent as [| | | | |d]; try done.
  destruct (truthy (word_of d)); [|done].
  destruct (py_lt _ min_score) as [[|]|e]; try done. cbn [mbind res_bind].
  destruct (normalized (word_of d)) as [s|e] eqn:Hn; [|done]. cbn [mbind res_bind].
  destruct (String.eqb_spec s "") as [->|Hne]; [done|].
  intros [= <-]. by apply (normalized_clean (word_of d)).
Qed.

(** What the loop adds to the set. *)
Lemma add_entities_elem ents skills out :
  add_entities word_of min_score ents skills = Ok out ->
  forall s, s ∈ out <->
    s ∈ skills \/
    exists ent, ent ∈ ents /\ entity_skill word_of min_score ent = Ok (Some s).
Proof.
  revert skills. induction ents as [|ent ents IH]; intros skills; cbn [add_entities].
  - intros [= <-] s. split; [by left|]. intros [?|(ent & Hent & _)]; [done|].
    by apply elem_of_nil in Hent.
  - destruct (entity_skill word_of min_score ent) as [found|e] eqn:Hfound; [|done].
    cbn [mbind res_bind]. intros Hrest s. rewrite (IH _ Hrest s).
    split.
    + intros [Hs|(ent' & Hin & He)].
      * destruct found as [skill|]; [|by left].
        apply elem_of_union in Hs as [Hs|Hs]; [|by left].
        apply elem_of_singleton in Hs as ->. right. exists ent. split; [by left|done].
      * right. exists ent'. split; [by right|done].
    + intros [Hs|(ent' & Hin & He)].
      * left. destruct found; [|done]. apply elem_of_union. by right.
      * apply elem_of_cons in Hin as [->|Hin].
        -- left. rewrite Hfound in He. injection He as ->.
           apply elem_of_union. left. by apply elem_of_singleton.
        -- right. by exists ent'.
Qed.

(** The loop ends without an exception exactly when every entity
    passes. *)
Lemma add_entities_passes ents skills :
  (exists out, add_entities word_of min_score ents skills = Ok out)
  <-> forallb (passes word_of min_score) ents = true.
Proof.
  revert skills. induction ents as [|ent ents IH]; intros skills;
    cbn [add_entities forallb].
  - split; [done|]. by eexists.
  - unfold passes at 1.
    destruct (entity_skill word_of min_score ent) as [found|e]; cbn [mbind res_bind andb].
    + apply IH.
    + split; [by intros [? ?]|done].
Qed.

Lemma forallb_perm {A} (f : A -> bool) (l l' : list A) :
  l ≡ₚ l' -> forallb f l = forallb f l'.
Proof.
  induction 1 as [|x l l' _ IH|x y l|l l' l'' _ IH1 _ IH2]; simpl.
  - done.
  - by rewrite IH.
  - by rewrite !andb_assoc, (andb_comm (f y)).
  - congruence.
Qed.

(** The order of the entities does not count. *)
Lemma add_entities_perm ents ents' skills out :
  ents ≡ₚ ents' ->
  add_entities word_of min_score ents skills = Ok out ->
  add_entities word_of min_score ents' skills = Ok out.
Proof.
  intros Hp Hout.
  assert (exists out', add_entities word_of min_score ents' skills = Ok out')
    as [out' Hout'].
  { apply add_entities_passes. rewrite <- (forallb_perm _ _ _ Hp).
    apply (add_entities_passes ents skills). by exists out. }
  rewrite Hout'. f_equal. apply set_eq. intros s.
  rewrite (add_entities_elem _ _ _ Hout' s), (add_entities_elem _ _ _ Hout s).
  split; (intros [?|(ent & Hin & He)]; [by left|right; exists ent; split; [|done]]).
  - by rewrite Hp.
  - by rewrite <- Hp.
Qed.

End EntityFacts.

Section RemoteFacts.

Import HFInference.

Variable post : string -> raised + pyval.
Variable min_score : num.

Lemma remote_list text ents skills :
  text <> "" -> post text = inr (VList ents) ->
  extract_skills post text min_score = inr skills ->
  exists out,
    add_entities word_of min_score ents ∅ = Ok out /\ skills = sorted out.
Proof.
  intros Hne Hpost. unfold extract_skills.
  apply String.eqb_neq in Hne. rewrite Hne, Hpost.
  destruct (add_entities word_of min_score ents ∅) as [out|e]; [|done].
  intros [= <-]. by exists out.
Qed.

Lemma remote_cases text skills :
  extract_skills post text min_score = inr skills ->
  skills = [] \/
  exists ents out,
    text <> "" /\ post text = inr (VList ents) /\
    add_entities word_of min_score ents ∅ = Ok out /\ skills = sorted out.
Proof.
  unfold extract_skills. destruct (String.eqb_spec text "") as [->|Hne].
  { intros [= <-]. by left. }
  destruct (post text) as [e|data] eqn:Hpost; [done|].
  destruct data as [| | | |ents|]; try (intros [= <-]; by left).
  destruct (add_entities word_of min_score ents ∅) as [out|e] eqn:Hout; [|done].
  intros [= <-]. right. by exists ents, out.
Qed.

End RemoteFacts.

Section ThresholdFacts.

Lemma lt_le_trans x a b : lt x a = true -> le a b = true -> lt x b = true.
Proof.
  unfold lt, le. destruct (value x), (value a), (value b); simpl; try done.
  rewrite negb_true_iff, Qltb_ge, !Qltb_lt. intros H1 H2. by eapply Qlt_le_trans.
Qed.

Lemma py_lt_mono score a b :
  le a b = true -> py_lt score b = Ok false -> py_lt score a = Ok false.
Proof.
  intros Hab. destruct score as [|t|x| | |]; try done; cbn [py_lt]; intros [= H]; f_equal.
  - destruct (lt (PyInt (Z.b2z t)) a) eqn:E; [|done].
    by rewrite (lt_le_trans _ _ _ E Hab) in H.
  - destruct (lt x a) eqn:E; [|done]. by rewrite (lt_le_trans _ _ _ E Hab) in H.
Qed.

(** An entity that adds a skill under a threshold adds it under every
    lower one. *)
Lemma entity_skill_mono word_of a b ent skill :
  le a b = true ->
  entity_skill word_of b ent = Ok (Some skill) ->
  entity_skill word_of a ent = Ok (Some skill).
Proof.
  intros Hab. unfold entity_skill. destruct ent as [| | | | |d]; try done.
  destruct (truthy (word_of d)); [|done].
  destruct (py_lt _ b) as [[|]|e] eqn:Hb; try done.
  by rewrite (py_lt_mono _ a b Hab Hb).
Qed.

End ThresholdFacts.

(** X20. What the remote extractor returns is ascending, holds no string
    twice and only clean ones (not empty, stripped, with no ["##"] left),
    and holds exactly the skills the entities of the answer add. *)
Theorem remote_skills_sorted_and_clean post text min_score skills :
  HFInference.extract_skills post text min_score = inr skills ->
  StronglySorted String.le skills /\ NoDup skills /\
  Forall (fun skill => clean skill = true) skills /\
  (forall skill, skill ∈ skills <->
     exists ents ent,
       text <> "" /\ post text = inr (VList ents) /\ ent ∈ ents /\
       entity_skill HFInference.word_of min_score ent = Ok (Some skill)).
Proof.
  intros Hrun. destruct (remote_cases post min_score text skills Hrun)
    as [->|(ents & out & Hne & Hpost & Hout & ->)].
  - split; [constructor|]. split; [constructor|]. split; [constructor|].
    intros skill. split; [by intros ?%elem_of_nil|].
    intros (ents & ent & Hne & Hpost & Hin & He). exfalso.
    destruct (remote_list post min_score text ents [] Hne Hpost Hrun) as (out & Hout & Hs).
    assert (skill ∈ sorted out) as Hskill.
    { apply elem_of_sorted, (add_entities_elem _ _ _ _ _ Hout). right. by exists ent. }
    rewrite <- Hs in Hskill. by apply elem_of_nil in Hskill.
  - split; [apply sorted_ascending|]. split; [apply sorted_NoDup|]. split.
    + apply Forall_forall. intros skill Hs.
      apply elem_of_sorted, (add_entities_elem _ _ _ _ _ Hout) in Hs
        as [Hs|(ent & _ & He)]; [by apply elem_of_empty in Hs|].
      by apply entity_skill_clean in He.
    + intros skill. rewrite elem_of_sorted, (add_entities_elem _ _ _ _ _ Hout).
      split.
      * intros [Hs|(ent & Hin & He)]; [by apply elem_of_empty in Hs|].
        by exists ents, ent.
      * intros (ents' & ent & _ & Hpost' & Hin & He). right.
        rewrite Hpost in Hpost'. injection Hpost' as <-. by exists ent.
Qed.

Lemma remote_skills_sorted_and_clean_witness :
  HFInference.extract_skills example_post "resume" default_min_score
  = inr ["Django"; "Python"] /\
  StronglySorted String.le ["Django"; "Python"] /\ NoDup ["Django"; "Python"] /\
  Forall (fun skill => clean skill = true) ["Django"; "Python"] /\
  (forall skill, skill ∈ ["Django"; "Python"] <->
     exists ents ent,
       "resume" <> "" /\ example_post "resume" = inr (VList ents) /\ ent ∈ ents /\
       entity_skill HFInference.word_of default_min_score ent = Ok (Some skill)).
Proof.
  assert (HFInference.extract_skills example_post "resume" default_min_score
          = inr ["Django"; "Python"]) as H by (vm_compute; reflexivity).
  split; [exact H|].
  exact (remote_skills_sorted_and_clean example_post "resume" default_min_score
           ["Django"; "Python"] H).
Defined.

(** X21. The order in which the answer lists its entities does not
    count: two answers with the same entities give the same skills. *)
Theorem remote_entity_order post post' text min_score ents ents' skills :
  post text = inr (VList ents) -> post' text = inr (VList ents') ->
  ents ≡ₚ ents' ->
  HFInference.extract_skills post text min_score = inr skills ->
  HFInference.extract_skills post' text min_score = inr skills.
Proof.
  intros Hpost Hpost' Hp. unfold HFInference.extract_skills.
  destruct (String.eqb text ""); [done|]. rewrite Hpost, Hpost'.
  destruct (add_entities HFInference.word_of min_score ents ∅) as [out|e] eqn:Hout;
    [|done].
  by rewrite (add_entities_perm _ _ ents ents' ∅ out Hp Hout).
Qed.

Lemma remote_entity_order_witness :
  example_post "resume" = inr example_answer /\
  example_post_swapped "resume"
  = inr (VList
           [VDict [("entity", VStr "Django"); ("score", VNum (PyInt 1))];
            VDict [("word", VStr "##Python ");
                   ("score", VNum (PyFloat (int_truediv 9 10)))];
            VDict [("word", VStr "java");
                   ("score", VNum (PyFloat (int_truediv 1 10)))]]) /\
  HFInference.extract_skills example_post "resume" default_min_score
  = inr ["Django"; "Python"] /\
  HFInference.extract_skills example_post_swapped "resume" default_min_score
  = inr ["Django"; "Python"].
Proof.
  assert (HFInference.extract_skills example_post "resume" default_min_score
          = inr ["Django"; "Python"]) as H by (vm_compute; reflexivity).
  split; [reflexivity|]. split; [reflexivity|]. split; [exact H|].
  apply (remote_entity_order example_post example_post_swapped "resume"
           default_min_score _ _ ["Django"; "Python"] eq_refl eq_refl);
    [apply Permutation_swap|exact H].
Defined.

(** X22. Raising [min_score] adds no skill: what is returned under a
    threshold is among what is returned under a lower one. *)
Theorem remote_threshold_monotone post text low high skills skills' :
  le low high = true ->
  HFInference.extract_skills post text low = inr skills ->
  HFInference.extract_skills post text high = inr skills' ->
  skills' ⊆ skills.
Proof.
  intros Hle Hlow Hhigh skill Hskill.
  destruct (remote_cases post high text skills' Hhigh)
    as [E|(ents & out' & Hne & Hpost & Hout' & E)]; rewrite E in Hskill;
    [by apply elem_of_nil in Hskill|].
  destruct (remote_list post low text ents skills Hne Hpost Hlow) as (out & Hout & E').
  rewrite E'. apply elem_of_sorted. apply elem_of_sorted in Hskill.
  destruct (proj1 (add_entities_elem _ _ _ _ _ Hout' skill) Hskill)
    as [Hempty|(ent & Hin & He)]; [by apply elem_of_empty in Hempty|].
  apply (add_entities_elem _ _ _ _ _ Hout skill). right. exists ent.
  split; [done|]. by apply (entity_skill_mono _ low high).
Qed.

Lemma remote_threshold_monotone_witness :
  le default_min_score (PyInt 1) = true /\
  HFInference.extract_skills example_post "resume" default_min_score
  = inr ["Django"; "Python"] /\
  HFInference.extract_skills example_post "resume" (PyInt 1) = inr ["Django"] /\
  ["Django"] ⊆ ["Django"; "Python"].
Proof.
  assert (le default_min_score (PyInt 1) = true) as H1 by (vm_compute; reflexivity).
  assert (HFInference.extract_skills example_post "resume" default_min_score
          = inr ["Django"; "Python"]) as H2 by (vm_compute; reflexivity).
  assert (HFInference.extract_skills example_post "resume" (PyInt 1) = inr ["Django"])
    as H3 by (vm_compute; reflexivity).
  split; [exact H1|]. split; [exact H2|]. split; [exact H3|].
  exact (remote_threshold_monotone example_post "resume" default_min_score (PyInt 1)
           ["Django"; "Python"] ["Django"] H1 H2 H3).
Defined.

(** X23. The outcomes of the remote extractor by the answer: on the
    empty text no skill, whatever the exchange would give; a failed request
    is raised as it is; an answer that is no list gives no skill; a list
    gives skills exactly when every entity passes, and an exception of the
    loop otherwise; an entity that is no object never passes. *)
Theorem remote_answer_cases post text min_score :
  HFInference.extract_skills post "" min_score = inr [] /\
  (text <> "" -> forall e, post text = inl e ->
     HFInference.extract_skills post text min_score = inl e) /\
  (text <> "" -> forall data, post text = inr data ->
     (forall ents, data <> VList ents) ->
     HFInference.extract_skills post text min_score = inr []) /\
  (text <> "" -> forall ents, post text = inr (VList ents) ->
     if forallb (passes HFInference.word_of min_score) ents
     then exists skills, HFInference.extract_skills post text min_score = inr skills
     else exists e, HFInference.extract_skills post text min_score
                    = inl (HFInference.LoopError e)) /\
  (forall ent, (forall d, ent <> VDict d) ->
     passes HFInference.word_of min_score ent = false).
Proof.
  split; [done|]. unfold HFInference.extract_skills.
  split; [|split; [|split]].
  - intros Hne e Hpost. apply String.eqb_neq in Hne. by rewrite Hne, Hpost.
  - intros Hne data Hpost Hdata. apply String.eqb_neq in Hne. rewrite Hne, Hpost.
    destruct data as [| | | |ents|]; try done. by destruct (Hdata ents).
  - intros Hne ents Hpost. apply String.eqb_neq in Hne. rewrite Hne, Hpost.
    pose proof (add_entities_passes HFInference.word_of min_score ents ∅) as Hp.
    destruct (forallb _ ents).
    + destruct (proj2 Hp eq_refl) as [out ->]. by eexists.
    + destruct (add_entities _ _ ents ∅) as [out|e]; [|by eexists].
      destruct Hp as [Hp _]. discriminate Hp. by eexists.
  - intros ent Hent. unfold passes, entity_skill.
    destruct ent as [| | | | |d]; try done. by destruct (Hent d).
Qed.

Section LocalFacts.

Import HFSkillExtractor.

Variable min_score : num.

(** What the loop over the chunks adds to the set. *)
Lemma scan_chunks_elem ner chunks skills out :
  scan_chunks ner min_score chunks skills = Ok out ->
  forall s, s ∈ out <->
    s ∈ skills \/
    exists chunk entities ents ent,
      chunk ∈ chunks /\ ner chunk = Some entities /\
      py_iter entities = Ok ents /\ ent ∈ ents /\
      entity_skill word_of min_score ent = Ok (Some s).
Proof.
  revert skills. induction chunks as [|chunk chunks IH]; intros skills;
    cbn [scan_chunks].
  - intros [= <-] s. split; [by left|].
    intros [?|(chunk & ? & ? & ? & Hin & _)]; [done|]. by apply elem_of_nil in Hin.
  - destruct (ner chunk) as [entities|] eqn:Hner.
    + destruct (py_iter entities) as [ents|e] eqn:Hiter; [|done]. cbn [mbind res_bind].
      destruct (add_entities word_of min_score ents skills) as [skills'|e] eqn:Hadd;
        [|done].
      cbn [mbind res_bind]. intros Hrest s.
      rewrite (IH _ Hrest s), (add_entities_elem _ _ _ _ _ Hadd s). split.
      * intros [[Hs|(ent & Hin & He)]|(c & es & l & ent & Hc & Hn & Hi & Hin & He)].
        -- by left.
        -- right. exists chunk, entities, ents, ent. split; [by left|done].
        -- right. exists c, es, l, ent. split; [by right|done].
      * intros [Hs|(c & es & l & ent & Hc & Hn & Hi & Hin & He)]; [by left; left|].
        apply elem_of_cons in Hc as [->|Hc].
        -- left. right. rewrite Hner in Hn. injection Hn as <-.
           rewrite Hiter in Hi. injection Hi as <-. by exists ent.
        -- right. by exists c, es, l, ent.
    + intros Hrest s. rewrite (IH _ Hrest s). split.
      * intros [Hs|(c & es & l & ent & Hc & Hn & Hi & Hin & He)]; [by left|].
        right. exists c, es, l, ent. split; [by right|done].
      * intros [Hs|(c & es & l & ent & Hc & Hn & Hi & Hin & He)]; [by left|].
        apply elem_of_cons in Hc as [->|Hc]; [congruence|].
        right. by exists c, es, l, ent.
Qed.

(** The loop asks the pipeline about the chunks only. *)
Lemma scan_chunks_ext ner ner' chunks skills :
  Forall (fun chunk => ner chunk = ner' chunk) chunks ->
  scan_chunks ner min_score chunks skills = scan_chunks ner' min_score chunks skills.
Proof.
  intros Hall. revert skills.
  induction Hall as [|chunk chunks Hc _ IH]; intros skills; cbn [scan_chunks]; [done|].
  rewrite <- Hc. destruct (ner chunk) as [entities|]; [|apply IH].
  destruct (py_iter entities) as [ents|e]; [|done]. cbn [mbind res_bind].
  destruct (add_entities word_of min_score ents skills); [|done]. apply IH.
Qed.

(** A chunk on which the pipeline raises counts as one with no entity. *)
Lemma scan_chunks_quiet ner chunks skills :
  scan_chunks (quiet ner) min_score chunks skills
  = scan_chunks ner min_score chunks skills.
Proof.
  revert skills. induction chunks as [|chunk chunks IH]; intros skills;
    cbn [scan_chunks]; [done|].
  unfold quiet at 1. destruct (ner chunk) as [entities|].
  - destruct (py_iter entities) as [ents|e]; [|done]. cbn [mbind res_bind].
    destruct (add_entities word_of min_score ents skills); [|done]. apply IH.
  - cbn [py_iter mbind res_bind add_entities]. apply IH.
Qed.

(** The chunks of the default size. *)
Lemma default_chunks text :
  exists chunks,
    (forall fuel, (String.length text <= fuel)%nat ->
       _chunk_text fuel text default_max_chars = Some chunks) /\
    Forall (fun c => PyStr.len c <= default_max_chars) chunks /\
    Forall (fun c => stripped c = true) chunks.
Proof.
  destruct (chunk_text_total text default_max_chars ltac:(unfold default_max_chars; lia))
    as (chunks & H & H1 & H2 & _).
  by exists chunks.
Qed.

End LocalFacts.

(** X24. The local extractor returns, given fuel for the chunking, and
    what it returns when no entity raises is ascending, holds no string
    twice and only clean ones, and holds exactly the skills that the
    entities found in the chunks add. *)
Theorem local_skills_sorted_and_clean ner fuel text min_score :
  (String.length text <= fuel)%nat ->
  exists outcome chunks,
    HFSkillExtractor.extract_skills ner fuel text min_score = Some outcome /\
    _chunk_text fuel text default_max_chars = Some chunks /\
    forall skills, outcome = Ok skills ->
      StronglySorted String.le skills /\ NoDup skills /\
      Forall (fun skill => clean skill = true) skills /\
      (forall skill, skill ∈ skills <->
         exists chunk entities ents ent,
           strip text <> "" /\ chunk ∈ chunks /\ ner chunk = Some entities /\
           py_iter entities = Ok ents /\ ent ∈ ents /\
           entity_skill HFSkillExtractor.word_of min_score ent = Ok (Some skill)).
Proof.
  intros Hfuel. destruct (default_chunks text) as (chunks & Hchunks & _).
  specialize (Hchunks fuel Hfuel). unfold HFSkillExtractor.extract_skills.
  rewrite Hchunks.
  destruct (String.eqb text "" || String.eqb (strip text) "") eqn:Hblank.
  - exists (Ok []), chunks. split; [done|]. split; [done|]. intros skills [= <-].
    split; [constructor|]. split; [constructor|]. split; [constructor|].
    intros skill. split; [by intros ?%elem_of_nil|].
    intros (? & ? & ? & ? & Hne & _). exfalso.
    apply orb_prop in Hblank as [E|E]; apply String.eqb_eq in E; [|done].
    by rewrite E in Hne.
  - apply orb_false_iff in Hblank as [_ Hne]. apply String.eqb_neq in Hne.
    eexists _, chunks. split; [reflexivity|]. split; [done|]. intros skills.
    destruct (HFSkillExtractor.scan_chunks ner min_score chunks ∅)
      as [out|e] eqn:Hout; [|done].
    cbn [mbind res_bind]. intros [= <-].
    split; [apply sorted_ascending|]. split; [apply sorted_NoDup|]. split.
    + apply Forall_forall. intros skill Hs.
      apply elem_of_sorted in Hs.
      destruct (proj1 (scan_chunks_elem _ _ _ _ _ Hout skill) Hs)
        as [Hempty|(? & ? & ? & ent & _ & _ & _ & _ & He)];
        [by apply elem_of_empty in Hempty|].
      by apply entity_skill_clean in He.
    + intros skill. rewrite elem_of_sorted, (scan_chunks_elem _ _ _ _ _ Hout skill).
      split.
      * intros [Hempty|(c & es & l & ent & H)]; [by apply elem_of_empty in Hempty|].
        by exists c, es, l, ent.
      * intros (c & es & l & ent & _ & H). right. by exists c, es, l, ent.
Qed.

Lemma local_skills_sorted_and_clean_witness :
  (String.length long_text <= String.length long_text)%nat /\
  exists outcome chunks,
    HFSkillExtractor.extract_skills example_ner (String.length long_text) long_text
      default_min_score = Some outcome /\
    _chunk_text (String.length long_text) long_text default_max_chars = Some chunks /\
    forall skills, outcome = Ok skills ->
      StronglySorted String.le skills /\ NoDup skills /\
      Forall (fun skill => clean skill = true) skills /\
      (forall skill, skill ∈ skills <->
         exists chunk entities ents ent,
           strip long_text <> "" /\ chunk ∈ chunks /\
           example_ner chunk = Some entities /\
           py_iter entities = Ok ents /\ ent ∈ ents /\
           entity_skill HFSkillExtractor.word_of default_min_score ent
           = Ok (Some skill)).
Proof.
  split; [apply le_n|].
  exact (local_skills_sorted_and_clean example_ner (String.length long_text) long_text
           default_min_score (le_n _)).
Defined.

(** X25. The local extractor asks the pipeline only about stripped texts
    of at most 1800 characters: two pipelines that agree on those give the
    same outcome. On a text of whitespace it returns no skill, whatever the
    pipeline is. *)
Theorem local_pipeline_inputs ner ner' fuel text min_score :
  (String.length text <= fuel)%nat ->
  (forall chunk, PyStr.len chunk <= 1800 -> stripped chunk = true ->
     ner chunk = ner' chunk) ->
  HFSkillExtractor.extract_skills ner fuel text min_score
  = HFSkillExtractor.extract_skills ner' fuel text min_score /\
  (strip text = "" ->
   HFSkillExtractor.extract_skills ner fuel text min_score = Some (Ok [])).
Proof.
  intros Hfuel Hagree. destruct (default_chunks text) as (chunks & Hchunks & Hlen & Hstr).
  specialize (Hchunks fuel Hfuel). unfold HFSkillExtractor.extract_skills.
  rewrite Hchunks. split.
  - destruct (String.eqb text "" || String.eqb (strip text) ""); [done|].
    rewrite (scan_chunks_ext min_score ner ner' chunks ∅); [done|].
    rewrite Forall_forall in *. intros chunk Hin.
    apply Hagree; [by apply Hlen|by apply Hstr].
  - intros ->. by rewrite orb_true_r.
Qed.

Lemma local_pipeline_inputs_witness :
  (String.length long_text <= String.length long_text)%nat /\
  (forall chunk, PyStr.len chunk <= 1800 -> stripped chunk = true ->
     example_ner chunk = short_only example_ner chunk) /\
  HFSkillExtractor.extract_skills example_ner (String.length long_text) long_text
    default_min_score
  = HFSkillExtractor.extract_skills (short_only example_ner) (String.length long_text)
      long_text default_min_score /\
  (strip long_text = "" ->
   HFSkillExtractor.extract_skills example_ner (String.length long_text) long_text
     default_min_score = Some (Ok [])).
Proof.
  assert (forall chunk, PyStr.len chunk <= 1800 -> stripped chunk = true ->
            example_ner chunk = short_only example_ner chunk) as H.
  { intros chunk Hlen _. unfold short_only.
    by rewrite (proj2 (Z.ltb_ge 1800 (PyStr.len chunk))) by lia. }
  split; [apply le_n|]. split; [exact H|].
  exact (local_pipeline_inputs example_ner (short_only example_ner)
           (String.length long_text) long_text default_min_score (le_n _) H).
Defined.

(** X26. A chunk on which the pipeline raises is skipped: the outcome is
    the one of a pipeline that finds no entity there. *)
Theorem local_failed_chunk_is_skipped ner fuel text min_score :
  HFSkillExtractor.extract_skills (quiet ner) fuel text min_score
  = HFSkillExtractor.extract_skills ner fuel text min_score.
Proof.
  unfold HFSkillExtractor.extract_skills.
  destruct (String.eqb text "" || String.eqb (strip text) ""); [done|].
  destruct (_chunk_text fuel text default_max_chars) as [chunks|]; [|done].
  by rewrite scan_chunks_quiet.
Qed.

(** The long text is cut in two chunks; the pipeline raises on the first
    and finds one entity in the second. *)
Example local_example :
  length <$> _chunk_text (String.length long_text) long_text default_max_chars = Some 2%nat /\
  HFSkillExtractor.extract_skills example_ner (String.length long_text) long_text
    default_min_score
  = Some (Ok ["Rust"]).
Proof. split; vm_compute; reflexivity. Qed.
